(** * Tarantool operator: the cluster reconciliation pass and its topology client

    A shallow embedding of [controllers/cluster_controller.go] and
    [controllers/topology/builtin.go].  Go values are modelled as they are
    written: [map[string]string] as a possibly-nil finite map, [int32] and
    [int] as [Z], strings as byte strings, the API server and the topology
    service as an explicit world that every call reads, changes and logs
    into. *)

From Stdlib Require Import ZArith List Ascii String Bool Lia DecimalString.
From stdpp Require Import base option list gmap strings.

Set Warnings "-register-all".

Local Open Scope string_scope.
Local Open Scope list_scope.
Local Open Scope Z_scope.

(** ** Strings, as the Go standard library treats them *)

Module Strings.

(** [strings.HasPrefix(s, prefix)] *)
Fixpoint HasPrefix (s prefix : string) : bool :=
  match prefix, s with
  | EmptyString, _ => true
  | String _ _, EmptyString => false
  | String c p, String d r => if Ascii.eqb c d then HasPrefix r p else false
  end.

(** [strings.Contains(s, substr)] *)
Fixpoint Contains (s substr : string) : bool :=
  HasPrefix s substr ||
  match s with
  | EmptyString => false
  | String _ r => Contains r substr
  end.

(** [strings.Split(s, sep)] for the one-byte separator the code uses:
    the fields between the separators, always at least one. *)
Fixpoint SplitByte (sep : ascii) (s : string) : list string :=
  match s with
  | EmptyString => [EmptyString]
  | String c r =>
      if Ascii.eqb c sep then EmptyString :: SplitByte sep r
      else match SplitByte sep r with
           | f :: fs => String c f :: fs
           | [] => [String c EmptyString]
           end
  end.

Definition bytes (s : string) : list Z :=
  map (fun c => Z.of_N (N_of_ascii c)) (list_ascii_of_string s).

(** [fmt.Sprintf("%d", i)] *)
Definition itoa (i : Z) : string :=
  match i with
  | Z0 => "0"
  | Zpos p => NilEmpty.string_of_uint (Pos.to_uint p)
  | Zneg p => "-" +:+ NilEmpty.string_of_uint (Pos.to_uint p)
  end.

End Strings.

(** ** [crypto/sha1] and [github.com/google/uuid], as far as [uuid.NewSHA1]
    and [UUID.String] go *)

Module UUID.

Definition w32 (x : Z) : Z := x mod 2 ^ 32.

Definition rotl (n x : Z) : Z :=
  w32 (Z.lor (Z.shiftl x n) (Z.shiftr x (32 - n))).

(** the message, one 1 bit, zero bits up to 56 modulo 64 bytes, the bit
    length on 8 bytes, most significant first *)
Definition be_bytes (n : nat) (x : Z) : list Z :=
  map (fun i => Z.land (Z.shiftr x (8 * Z.of_nat i)) 255) (rev (seq 0 n)).

Definition pad (msg : list Z) : list Z :=
  let len := Z.of_nat (length msg) in
  let zeros := Z.to_nat ((55 - len) mod 64) in
  msg ++ [128] ++ repeat 0 zeros ++ be_bytes 8 (8 * len).

Fixpoint words (fuel : nat) (bs : list Z) : list Z :=
  match fuel, bs with
  | S f, b0 :: b1 :: b2 :: b3 :: r =>
      (b0 * 2 ^ 24 + b1 * 2 ^ 16 + b2 * 2 ^ 8 + b3) :: words f r
  | _, _ => []
  end.

(** the message schedule, newest word first *)
Fixpoint schedule (n : nat) (w : list Z) : list Z :=
  match n with
  | O => w
  | S n' =>
      let x := Z.lxor (Z.lxor (nth 2 w 0) (nth 7 w 0))
                      (Z.lxor (nth 13 w 0) (nth 15 w 0)) in
      schedule n' (rotl 1 x :: w)
  end.

Definition state : Type := Z * Z * Z * Z * Z.

Definition round (t : nat) (st : state) (wt : Z) : state :=
  let '(a, b, c, d, e) := st in
  let '(f, k) :=
    if (t <? 20)%nat then
      (Z.lor (Z.land b c) (Z.land (Z.lxor b (2 ^ 32 - 1)) d), 0x5A827999)
    else if (t <? 40)%nat then
      (Z.lxor (Z.lxor b c) d, 0x6ED9EBA1)
    else if (t <? 60)%nat then
      (Z.lor (Z.lor (Z.land b c) (Z.land b d)) (Z.land c d), 0x8F1BBCDC)
    else
      (Z.lxor (Z.lxor b c) d, 0xCA62C1D6) in
  (w32 (rotl 5 a + f + e + k + wt), a, rotl 30 b, c, d).

Fixpoint rounds (t : nat) (ws : list Z) (st : state) : state :=
  match ws with
  | [] => st
  | wt :: r => rounds (S t) r (round t st wt)
  end.

Definition block (h : state) (blk : list Z) : state :=
  let w := rev (schedule 64 (rev (words 16 blk))) in
  let '(a, b, c, d, e) := rounds 0 w h in
  let '(h0, h1, h2, h3, h4) := h in
  (w32 (h0 + a), w32 (h1 + b), w32 (h2 + c), w32 (h3 + d), w32 (h4 + e)).

Fixpoint blocks (fuel : nat) (h : state) (bs : list Z) : state :=
  match fuel, bs with
  | S f, _ :: _ => blocks f (block h (firstn 64 bs)) (skipn 64 bs)
  | _, _ => h
  end.

Definition init : state :=
  (0x67452301, 0xEFCDAB89, 0x98BADCFE, 0x10325476, 0xC3D2E1F0).

Definition sha1 (msg : list Z) : list Z :=
  let p := pad msg in
  let '(h0, h1, h2, h3, h4) := blocks (length p) init p in
  be_bytes 4 h0 ++ be_bytes 4 h1 ++ be_bytes 4 h2 ++ be_bytes 4 h3
    ++ be_bytes 4 h4.

(** [uuid.NewSHA1(space, data)]: the first 16 bytes of the SHA-1 of the
    name space followed by the data, with version 5 and the RFC 4122
    variant written over them. *)
Definition NewSHA1 (space data : list Z) : list Z :=
  let u := firstn 16 (sha1 (space ++ data)) in
  let u := <[6%nat := Z.lor (Z.land (nth 6 u 0) 0x0f) 0x50]> u in
  <[8%nat := Z.lor (Z.land (nth 8 u 0) 0x3f) 0x80]> u.

Definition hexdigit (d : Z) : ascii :=
  ascii_of_N (Z.to_N (if d <? 10 then 48 + d else 87 + d)).

Fixpoint hex (bs : list Z) : string :=
  match bs with
  | [] => EmptyString
  | b :: r => String (hexdigit (b / 16)) (String (hexdigit (b mod 16)) (hex r))
  end.

(** [UUID.String]: xxxxxxxx-xxxx-xxxx-xxxx-xxxxxxxxxxxx, lower case *)
Definition String (u : list Z) : string :=
  hex (firstn 4 u) +:+ "-" +:+ hex (firstn 2 (skipn 4 u)) +:+ "-"
    +:+ hex (firstn 2 (skipn 6 u)) +:+ "-" +:+ hex (firstn 2 (skipn 8 u))
    +:+ "-" +:+ hex (skipn 10 u).

End UUID.

(** [var space = uuid.MustParse("73692FF6-EB42-46C2-92B6-65C45191368D")] *)
Definition space : list Z :=
  [0x73; 0x69; 0x2F; 0xF6; 0xEB; 0x42; 0x46; 0xC2;
   0x92; 0xB6; 0x65; 0xC4; 0x51; 0x91; 0x36; 0x8D].


(** ** Go values *)

(** [map[string]string]: [None] is the nil map, which reads as empty and
    panics when written. *)
Abbreviation GoMap := (option (gmap string string)).

Module GoMap.

(** [v, ok := m[k]] *)
Definition lookup (m : GoMap) (k : string) : option string :=
  match m with
  | None => None
  | Some g => g !! k
  end.

(** [m[k]] *)
Definition get (m : GoMap) (k : string) : string :=
  match lookup m k with
  | Some v => v
  | None => ""
  end.

(** [m[k] = v]; [None] when the map is nil (the runtime panics) *)
Definition set (m : GoMap) (k v : string) : option GoMap :=
  match m with
  | None => None
  | Some g => Some (Some (<[k := v]> g))
  end.

End GoMap.

(** [strconv.NumError.Err] *)
Inductive NumErr := ErrSyntax | ErrRange.

(** [metav1.StatusReason], as far as [errors.IsNotFound] tells them apart *)
Inductive StatusReason := StatusReasonNotFound | StatusReasonConflict | StatusReasonUnknown.

(** Go [error] values.  The three package-level sentinels of the topology
    client are compared by identity in the source, so each is a constructor
    of its own; any other value is told apart by where it was built. *)
Inductive error :=
  | errTopologyIsDown
  | errAlreadyJoined
  | errAlreadyBootstrapped
  | errorString (msg : string)
  | NumError (Func Num : string) (Err : NumErr)
  | StatusError (reason : StatusReason) (msg : string)
  | externalError (msg : string).

(** the double quote, as a one-byte string *)
Definition dquote : string := String "034"%char EmptyString.

(** [err.Error()]; a [NumError] quotes its input the way [strconv.Quote]
    does for text without quotes, backslashes or bytes outside printable
    ASCII *)
Definition Error (e : error) : string :=
  match e with
  | errTopologyIsDown => "topology service is down"
  | errAlreadyJoined => "already joined"
  | errAlreadyBootstrapped => "already bootstrapped"
  | errorString msg => msg
  | NumError f n e =>
      "strconv." +:+ f +:+ ": parsing " +:+ dquote +:+ n +:+ dquote +:+
      match e with
      | ErrSyntax => ": invalid syntax"
      | ErrRange => ": value out of range"
      end
  | StatusError _ msg => msg
  | externalError msg => msg
  end.

(** [errors.IsNotFound(err)] *)
Definition IsNotFound (e : error) : bool :=
  match e with
  | StatusError StatusReasonNotFound _ => true
  | _ => false
  end.

(** [IsTopologyDown], [IsAlreadyJoined], [IsAlreadyBootstrapped]:
    [err == sentinel] *)
Definition IsTopologyDown (e : error) : bool :=
  match e with errTopologyIsDown => true | _ => false end.

Definition IsAlreadyJoined (e : error) : bool :=
  match e with errAlreadyJoined => true | _ => false end.

Definition IsAlreadyBootstrapped (e : error) : bool :=
  match e with errAlreadyBootstrapped => true | _ => false end.

(** ** [strconv.ParseUint(s, 10, 32)] *)

Module Strconv.

Definition code (c : ascii) : Z := Z.of_N (N_of_ascii c).

(** [lower(c)]: [c | ('x' - 'X')] *)
Definition lower (c : Z) : Z := Z.lor c 32.

Definition maxVal : Z := 2 ^ 32 - 1.
Definition cutoff : Z := (2 ^ 64 - 1) / 10 + 1.

Fixpoint digits (s : string) (n : Z) : NumErr + Z :=
  match s with
  | EmptyString => inr n
  | String c r =>
      let c := code c in
      match
        (if (48 <=? c) && (c <=? 57) then Some (c - 48)
         else if (97 <=? lower c) && (lower c <=? 122)
              then Some (lower c - 97 + 10)
              else None)
      with
      | None => inl ErrSyntax
      | Some d =>
          if 10 <=? d then inl ErrSyntax
          else if cutoff <=? n then inl ErrRange
          else
            let n := (n * 10) mod 2 ^ 64 in
            let n1 := (n + d) mod 2 ^ 64 in
            if (n1 <? n) || (maxVal <? n1) then inl ErrRange
            else digits r n1
      end
  end.

Definition ParseUint (s : string) : error + Z :=
  match s with
  | EmptyString => inl (NumError "ParseUint" s ErrSyntax)
  | _ =>
      match digits s 0 with
      | inl e => inl (NumError "ParseUint" s e)
      | inr n => inr n
      end
  end.

End Strconv.

(** ** [encoding/json], as far as [json.Unmarshal] into a [string] and into
    a [[]string] goes *)

Module JSON.

Inductive Value :=
  | Null
  | Boolean (b : bool)
  | Number (lit : string)
  | Str (s : string)
  | Array (vs : list Value)
  | Object (kvs : list (string * Value)).

Definition code (c : ascii) : Z := Z.of_N (N_of_ascii c).
Definition byte (z : Z) : ascii := ascii_of_N (Z.to_N z).

(** the scanner's [isSpace] *)
Definition isSpace (c : ascii) : bool :=
  let c := code c in (c =? 32) || (c =? 9) || (c =? 13) || (c =? 10).

Fixpoint skipws (s : string) : string :=
  match s with
  | String c r => if isSpace c then skipws r else s
  | EmptyString => s
  end.

Definition isDigit (c : ascii) : bool := (48 <=? code c) && (code c <=? 57).

Definition hexval (c : ascii) : option Z :=
  let c := code c in
  if (48 <=? c) && (c <=? 57) then Some (c - 48)
  else if (97 <=? c) && (c <=? 102) then Some (c - 97 + 10)
  else if (65 <=? c) && (c <=? 70) then Some (c - 65 + 10)
  else None.

(** [getu4]: the rune of the four hexadecimal digits after a backslash-u *)
Definition getu4 (a b c d : ascii) : option Z :=
  match hexval a, hexval b, hexval c, hexval d with
  | Some a, Some b, Some c, Some d => Some (((a * 16 + b) * 16 + c) * 16 + d)
  | _, _, _, _ => None
  end.

Definition str3 (a b c : Z) : string :=
  String (byte a) (String (byte b) (String (byte c) EmptyString)).

(** the encoding of [unicode.ReplacementChar] *)
Definition RuneError : string := str3 0xEF 0xBF 0xBD.

(** [utf8.EncodeRune] *)
Definition EncodeRune (r : Z) : string :=
  if r <? 0 then RuneError
  else if r <? 0x80 then String (byte r) EmptyString
  else if r <? 0x800 then
    String (byte (Z.lor 0xC0 (Z.shiftr r 6)))
      (String (byte (Z.lor 0x80 (Z.land r 0x3F))) EmptyString)
  else if (0xD800 <=? r) && (r <? 0xE000) then RuneError
  else if r <? 0x10000 then
    str3 (Z.lor 0xE0 (Z.shiftr r 12))
         (Z.lor 0x80 (Z.land (Z.shiftr r 6) 0x3F))
         (Z.lor 0x80 (Z.land r 0x3F))
  else if r <? 0x110000 then
    String (byte (Z.lor 0xF0 (Z.shiftr r 18)))
      (str3 (Z.lor 0x80 (Z.land (Z.shiftr r 12) 0x3F))
            (Z.lor 0x80 (Z.land (Z.shiftr r 6) 0x3F))
            (Z.lor 0x80 (Z.land r 0x3F)))
  else RuneError.

Definition IsSurrogate (r : Z) : bool := (0xD800 <=? r) && (r <? 0xE000).

(** [utf16.DecodeRune] *)
Definition DecodeSurrogates (r1 r2 : Z) : option Z :=
  if (0xD800 <=? r1) && (r1 <? 0xDC00) && (0xDC00 <=? r2) && (r2 <? 0xE000)
  then Some (Z.lor (Z.shiftl (r1 - 0xD800) 10) (r2 - 0xDC00) + 0x10000)
  else None.

Definition cont (c : ascii) : bool := (0x80 <=? code c) && (code c <=? 0xBF).

Definition between (lo hi : Z) (c : ascii) : bool :=
  (lo <=? code c) && (code c <=? hi).

(** the length of the well-formed UTF-8 sequence that starts [s], 0 when
    there is none ([utf8.DecodeRune] then yields the replacement rune and
    width 1) *)
Definition utf8len (s : string) : nat :=
  match s with
  | String c0 (String c1 r) =>
      let b := code c0 in
      if (0xC2 <=? b) && (b <=? 0xDF) then (if cont c1 then 2 else 0)%nat
      else
        let second :=
          if b =? 0xE0 then between 0xA0 0xBF c1
          else if b =? 0xED then between 0x80 0x9F c1
          else if (0xE1 <=? b) && (b <=? 0xEF) then cont c1
          else if b =? 0xF0 then between 0x90 0xBF c1
          else if b =? 0xF4 then between 0x80 0x8F c1
          else if (0xF1 <=? b) && (b <=? 0xF3) then cont c1
          else false in
        if negb second then 0%nat
        else match r with
             | String c2 r' =>
                 if negb (cont c2) then 0%nat
                 else if b <? 0xF0 then 3%nat
                 else match r' with
                      | String c3 _ => if cont c3 then 4%nat else 0%nat
                      | EmptyString => 0%nat
                      end
             | EmptyString => 0%nat
             end
  | _ => 0%nat
  end.

(** A string literal after its opening quote: the scanner's check and
    [unquote] in one pass.  The result is the decoded text and what follows
    the closing quote. *)
Fixpoint literal (s : string) : option (string * string) :=
  let emit (out : string) (k : option (string * string)) :=
    match k with
    | Some (t, rest) => Some (out +:+ t, rest)
    | None => None
    end in
  match s with
  | EmptyString => None
  | String c r =>
      let b := code c in
      if b =? 34 then Some (EmptyString, r)
      else if b <? 32 then None
      else if b =? 92 then
        match r with
        | String e r1 =>
            let one (x : Z) := emit (String (byte x) EmptyString) (literal r1) in
            let e := code e in
            if e =? 34 then one 34
            else if e =? 92 then one 92
            else if e =? 47 then one 47
            else if e =? 98 then one 8
            else if e =? 102 then one 12
            else if e =? 110 then one 10
            else if e =? 114 then one 13
            else if e =? 116 then one 9
            else if e =? 117 then
              match r1 with
              | String h1 (String h2 (String h3 (String h4 r2))) =>
                  match getu4 h1 h2 h3 h4 with
                  | None => None
                  | Some rr =>
                      if IsSurrogate rr then
                        match r2 with
                        | String b1 (String u1 (String k1 (String k2
                            (String k3 (String k4 r3))))) =>
                            match
                              (if (code b1 =? 92) && (code u1 =? 117)
                               then getu4 k1 k2 k3 k4 else None)
                            with
                            | Some rr1 =>
                                match DecodeSurrogates rr rr1 with
                                | Some dec => emit (EncodeRune dec) (literal r3)
                                | None => emit RuneError (literal r2)
                                end
                            | None => emit RuneError (literal r2)
                            end
                        | _ => emit RuneError (literal r2)
                        end
                      else emit (EncodeRune rr) (literal r2)
                  end
              | _ => None
              end
            else None
        | EmptyString => None
        end
      else if b <? 128 then emit (String c EmptyString) (literal r)
      else
        match utf8len s, r with
        | 2%nat, String c1 r2 =>
            emit (String c (String c1 EmptyString)) (literal r2)
        | 3%nat, String c1 (String c2 r3) =>
            emit (String c (String c1 (String c2 EmptyString))) (literal r3)
        | 4%nat, String c1 (String c2 (String c3 r4)) =>
            emit (String c (String c1 (String c2 (String c3 EmptyString))))
                 (literal r4)
        | _, _ => emit RuneError (literal r)
        end
  end.

Fixpoint digits (s : string) : string * string :=
  match s with
  | String c r =>
      if isDigit c then let '(d, rest) := digits r in (String c d, rest)
      else (EmptyString, s)
  | EmptyString => (EmptyString, s)
  end.

(** a number literal: sign, integer part, fraction, exponent *)
Definition number (s : string) : option (string * string) :=
  let '(sign, s1) :=
    match s with
    | String c r => if code c =? 45 then (String c EmptyString, r) else (EmptyString, s)
    | EmptyString => (EmptyString, s)
    end in
  let int :=
    match s1 with
    | String c r =>
        if code c =? 48 then Some (String c EmptyString, r)
        else if isDigit c then Some (digits s1)
        else None
    | EmptyString => None
    end in
  match int with
  | None => None
  | Some (i, s2) =>
      let frac :=
        match s2 with
        | String c r =>
            if code c =? 46 then
              match digits r with
              | (EmptyString, _) => None
              | (d, rest) => Some (String c d, rest)
              end
            else Some (EmptyString, s2)
        | EmptyString => Some (EmptyString, s2)
        end in
      match frac with
      | None => None
      | Some (f, s3) =>
          match s3 with
          | String c r =>
              if (code c =? 101) || (code c =? 69) then
                let '(sg, r1) :=
                  match r with
                  | String c1 r' =>
                      if (code c1 =? 43) || (code c1 =? 45)
                      then (String c1 EmptyString, r') else (EmptyString, r)
                  | EmptyString => (EmptyString, r)
                  end in
                match digits r1 with
                | (EmptyString, _) => None
                | (d, rest) => Some (sign +:+ i +:+ f +:+ String c sg +:+ d, rest)
                end
              else Some (sign +:+ i +:+ f, s3)
          | EmptyString => Some (sign +:+ i +:+ f, s3)
          end
      end
  end.

(** [s] without the prefix [p] *)
Fixpoint after (p s : string) : option string :=
  match p, s with
  | EmptyString, _ => Some s
  | String c p', String d s' => if Ascii.eqb c d then after p' s' else None
  | String _ _, EmptyString => None
  end.

(** the elements of a non-empty array after the opening bracket, given the
    parser of one value *)
Fixpoint elements (value : string -> option (Value * string)) (fuel : nat)
    (s : string) : option (list Value * string) :=
  match fuel with
  | O => None
  | S f =>
      match value s with
      | None => None
      | Some (v, r) =>
          match skipws r with
          | String c r' =>
              if code c =? 44 then
                match elements value f r' with
                | Some (vs, rest) => Some (v :: vs, rest)
                | None => None
                end
              else if code c =? 93 then Some ([v], r')
              else None
          | EmptyString => None
          end
      end
  end.

(** the members of a non-empty object after the opening brace *)
Fixpoint members (value : string -> option (Value * string)) (fuel : nat)
    (s : string) : option (list (string * Value) * string) :=
  match fuel with
  | O => None
  | S f =>
      match skipws s with
      | String q r0 =>
          if negb (code q =? 34) then None
          else
            match literal r0 with
            | None => None
            | Some (k, r1) =>
                match skipws r1 with
                | String c r2 =>
                    if negb (code c =? 58) then None
                    else
                      match value r2 with
                      | None => None
                      | Some (v, r3) =>
                          match skipws r3 with
                          | String d r4 =>
                              if code d =? 44 then
                                match members value f r4 with
                                | Some (kvs, rest) => Some ((k, v) :: kvs, rest)
                                | None => None
                                end
                              else if code d =? 125 then Some ([(k, v)], r4)
                              else None
                          | EmptyString => None
                          end
                      end
                | EmptyString => None
                end
            end
      | EmptyString => None
      end
  end.

(** the scanner's [maxNestingDepth] *)
Definition maxNestingDepth : Z := 10000.

(** one value, with the white space before it; [depth] counts the arrays
    and objects it is nested in *)
Fixpoint value (fuel : nat) (depth : Z) (s : string) : option (Value * string) :=
  match fuel with
  | O => None
  | S f =>
      match skipws s with
      | EmptyString => None
      | String c r as s' =>
          let b := code c in
          if b =? 34 then
            match literal r with
            | Some (t, rest) => Some (Str t, rest)
            | None => None
            end
          else if b =? 91 then
            if maxNestingDepth <=? depth then None
            else
              match skipws r with
              | String c1 r1 as r' =>
                  if code c1 =? 93 then Some (Array [], r1)
                  else
                    match elements (value f (depth + 1)) f r' with
                    | Some (vs, rest) => Some (Array vs, rest)
                    | None => None
                    end
              | EmptyString => None
              end
          else if b =? 123 then
            if maxNestingDepth <=? depth then None
            else
              match skipws r with
              | String c1 r1 as r' =>
                  if code c1 =? 125 then Some (Object [], r1)
                  else
                    match members (value f (depth + 1)) f r' with
                    | Some (kvs, rest) => Some (Object kvs, rest)
                    | None => None
                    end
              | EmptyString => None
              end
          else if b =? 116 then
            match after "true" s' with
            | Some rest => Some (Boolean true, rest)
            | None => None
            end
          else if b =? 102 then
            match after "false" s' with
            | Some rest => Some (Boolean false, rest)
            | None => None
            end
          else if b =? 110 then
            match after "null" s' with
            | Some rest => Some (Null, rest)
            | None => None
            end
          else
            match number s' with
            | Some (lit, rest) => Some (Number lit, rest)
            | None => None
            end
      end
  end.

(** [checkValid] and the decoding into a tree: one value, white space
    around it, nothing else *)
Definition parse (data : string) : option Value :=
  match value (S (String.length data)) 0 data with
  | Some (v, rest) =>
      match skipws rest with
      | EmptyString => Some v
      | String _ _ => None
      end
  | None => None
  end.

(** [json.Unmarshal(data, &s)] for [var s string]: [Some s] when it returns
    no error.  A string sets [s]; null leaves it as it was, empty; any other
    value is an [UnmarshalTypeError]; ill-formed text a [SyntaxError]. *)
Definition UnmarshalString (data : string) : option string :=
  match parse data with
  | Some (Str s) => Some s
  | Some Null => Some EmptyString
  | _ => None
  end.

Definition element (v : Value) : option string :=
  match v with
  | Str s => Some s
  | Null => Some EmptyString
  | _ => None
  end.

(** [json.Unmarshal(data, &a)] for [var a []string] *)
Definition UnmarshalStrings (data : string) : option (list string) :=
  match parse data with
  | Some (Array vs) => mapM element vs
  | Some Null => Some []
  | _ => None
  end.

End JSON.

(** ** Objects with labels and annotations *)

(** [type ObjectWithMeta interface] *)
Class ObjectWithMeta (A : Type) := {
  GetLabels : A -> GoMap;
  GetAnnotations : A -> GoMap;
}.

(** [GetRoles] *)
Definition GetRoles {A} `{ObjectWithMeta A} (obj : A) : error + list string :=
  let labels := GetLabels obj in
  let annotations := GetAnnotations obj in
  match GoMap.lookup annotations "tarantool.io/rolesToAssign" with
  | None =>
      match GoMap.lookup labels "tarantool.io/rolesToAssign" with
      | None => inl (errorString "role undefined")
      | Some rolesFromLabels =>
          inr (Strings.SplitByte "."%char rolesFromLabels)
      end
  | Some rolesFromAnnotations =>
      match JSON.UnmarshalString rolesFromAnnotations with
      | Some singleRole => inr [singleRole]
      | None =>
          match JSON.UnmarshalStrings rolesFromAnnotations with
          | Some roleArray => inr roleArray
          | None => inl (errorString "failed to parse roles from annotations")
          end
      end
  end.

(** ** The objects the API server keeps *)

Record OwnerReference := {
  refKind : string;
  refName : string;
  refUID : string;
  refController : bool;
}.

Record ObjectMeta := {
  Name : string;
  Namespace : string;
  UID : string;
  Labels : GoMap;
  Annotations : GoMap;
  OwnerReferences : list OwnerReference;
}.

Definition SetLabels (o : ObjectMeta) (labels : GoMap) : ObjectMeta :=
  {| Name := Name o; Namespace := Namespace o; UID := UID o;
     Labels := labels; Annotations := Annotations o;
     OwnerReferences := OwnerReferences o |}.

Definition SetAnnotations (o : ObjectMeta) (annotations : GoMap) : ObjectMeta :=
  {| Name := Name o; Namespace := Namespace o; UID := UID o;
     Labels := Labels o; Annotations := annotations;
     OwnerReferences := OwnerReferences o |}.

Definition SetOwnerReferences (o : ObjectMeta) (refs : list OwnerReference)
  : ObjectMeta :=
  {| Name := Name o; Namespace := Namespace o; UID := UID o;
     Labels := Labels o; Annotations := Annotations o;
     OwnerReferences := refs |}.

(** the object as the API server returns it under a key: the key is its
    name space and name *)
Definition named (key : string * string) (o : ObjectMeta) : ObjectMeta :=
  {| Name := key.2; Namespace := key.1; UID := UID o;
     Labels := Labels o; Annotations := Annotations o;
     OwnerReferences := OwnerReferences o |}.

Definition keyOf (o : ObjectMeta) : string * string := (Namespace o, Name o).

#[export] Instance ObjectMeta_meta : ObjectWithMeta ObjectMeta :=
  {| GetLabels := Labels; GetAnnotations := Annotations |}.

(** [corev1.Pod].
    Modelled from the spec: the joined marker of an instance, which
    [tarantool.IsJoined] reads and [tarantool.MarkJoined] writes
    (controllers/tarantool is not among the sources).  The spec has it a
    string-valued marker that is absent or present, with "1" for true. *)
Record Pod := {
  PodMeta : ObjectMeta;
  JoinedMarker : option string;
}.

#[export] Instance Pod_meta : ObjectWithMeta Pod :=
  {| GetLabels := fun p => Labels (PodMeta p);
     GetAnnotations := fun p => Annotations (PodMeta p) |}.

(** Modelled from the spec: [tarantool.IsJoined], the joined marker is
    present. *)
Definition IsJoined (pod : Pod) : bool :=
  match JoinedMarker pod with
  | Some _ => true
  | None => false
  end.

(** Modelled from the spec: [tarantool.MarkJoined], sets the joined marker
    to "1". *)
Definition MarkJoined (pod : Pod) : Pod :=
  {| PodMeta := PodMeta pod; JoinedMarker := Some "1" |}.

(** [appsv1.StatefulSet]: [Spec.Replicas] (dereferenced; the API server
    never leaves it nil) and [Spec.ServiceName] *)
Record StatefulSet := {
  StsMeta : ObjectMeta;
  Replicas : Z;
  ServiceName : string;
}.

Definition StsSetAnnotations (sts : StatefulSet) (a : GoMap) : StatefulSet :=
  {| StsMeta := SetAnnotations (StsMeta sts) a;
     Replicas := Replicas sts; ServiceName := ServiceName sts |}.

Record LabelSelectorRequirement := {
  Key : string;
  Operator : string;
  Values : list string;
}.

Record LabelSelector := {
  MatchLabels : GoMap;
  MatchExpressions : list LabelSelectorRequirement;
}.

(** [tarantooliov1alpha1.Cluster] *)
Record Cluster := {
  ClusterMeta : ObjectMeta;
  Selector : option LabelSelector;
  State : string;
}.

(** [tarantooliov1alpha1.Role] *)
Record Role := {
  RoleMeta : ObjectMeta;
}.

Record ServicePort := {
  PortName : string;
  Port : Z;
  Protocol : string;
}.

(** [corev1.Service] *)
Record Service := {
  SvcMeta : ObjectMeta;
  SvcSelector : GoMap;
  ClusterIP : string;
  Ports : list ServicePort;
}.

(** ** The pod's instance UUID *)

(** [HasInstanceUUID] *)
Definition HasInstanceUUID (o : Pod) : bool :=
  let annotations := Labels (PodMeta o) in
  match GoMap.lookup annotations "tarantool.io/instance-uuid" with
  | Some _ => true
  | None => false
  end.

(** [uuid.NewSHA1(space, []byte(name)).String()] *)
Definition instanceUUID (name : string) : string :=
  UUID.String (UUID.NewSHA1 space (Strings.bytes name)).

(** [SetInstanceUUID]; [None] when the write to a nil label map panics *)
Definition SetInstanceUUID (o : Pod) : option Pod :=
  let labels := Labels (PodMeta o) in
  if (String.length (Name (PodMeta o)) =? 0)%nat then Some o
  else
    match GoMap.set labels "tarantool.io/instance-uuid" (instanceUUID (Name (PodMeta o))) with
    | None => None
    | Some labels =>
        Some {| PodMeta := SetLabels (PodMeta o) labels;
                JoinedMarker := JoinedMarker o |}
    end.

(** Modelled from the spec: [utils.MakeStaticPodAddr], the address
    <instance>.<cluster>.<namespace>.svc.<domain>:<adminPort>
    (controllers/utils is not among the sources). *)
Definition MakeStaticPodAddr (podName svcName namespace domainName : string)
    (port : Z) : string :=
  podName +:+ "." +:+ svcName +:+ "." +:+ namespace +:+ ".svc." +:+ domainName
    +:+ ":" +:+ Strings.itoa port.

(** Modelled from the spec: [utils.IsRolesEquals], the two role lists
    compared as unordered collections. *)
Definition IsRolesEquals (a b : list string) : bool :=
  bool_decide (list_to_set a =@{gset string} list_to_set b).

(** ** Owner references, as [metav1] and [controllerutil] handle them *)

(** [metav1.GetControllerOf] *)
Definition GetControllerOf (o : ObjectMeta) : option OwnerReference :=
  List.find refController (OwnerReferences o).

(** [metav1.IsControlledBy] *)
Definition IsControlledBy (o owner : ObjectMeta) : bool :=
  match GetControllerOf o with
  | Some ref => String.eqb (refUID ref) (UID owner)
  | None => false
  end.

Definition referSameObject (a b : OwnerReference) : bool :=
  String.eqb (refKind a) (refKind b) && String.eqb (refName a) (refName b).

Fixpoint upsertOwnerRef (ref : OwnerReference) (refs : list OwnerReference)
  : list OwnerReference :=
  match refs with
  | [] => [ref]
  | r :: rest =>
      if referSameObject r ref then ref :: rest
      else r :: upsertOwnerRef ref rest
  end.

(** [controllerutil.SetControllerReference] for a cluster as the owner: it
    refuses an object of another name space and one another controller
    already owns. *)
Definition SetControllerReference (owner : ObjectMeta) (o : ObjectMeta)
  : error + ObjectMeta :=
  if negb (String.eqb (Namespace owner) (Namespace o)) then
    inl (errorString "cross-namespace owner references are disallowed")
  else
    let ref := {| refKind := "Cluster"; refName := Name owner;
                  refUID := UID owner; refController := true |} in
    match GetControllerOf o with
    | Some existing =>
        if referSameObject existing ref
        then inr (SetOwnerReferences o (upsertOwnerRef ref (OwnerReferences o)))
        else inl (errorString "Object is already owned by another controller")
    | None => inr (SetOwnerReferences o (upsertOwnerRef ref (OwnerReferences o)))
    end.

(** ** The topology service's wire types *)

(** [Statistics] *)
Record Statistics := {
  ItemsUsedRatio : string;
  ArenaUsedRatio : string;
  QuotaSize : Z;
  ArenaUsed : Z;
  QuotaUsedRatio : string;
  BucketsCount : Z;
}.

(** [ServerStat] *)
Record ServerStat := {
  StatStatistics : Statistics;
  StatUUID : string;
  URI : string;
}.

(** [ReplicasetData] *)
Record ReplicasetData := {
  RsUUID : string;
  RsRoles : list string;
  Weight : option Z;
}.

(** [BootstrapVshardResponse]: [Data] is a pointer the decoder can set to
    nil, [Errors] a slice of pointers; an error carries its [Message] *)
Record BootstrapVshardResponse := {
  Data : option bool;
  Errors : list (option string);
}.

(** the requests the client sends *)
Inductive TopologyCall :=
  | JoinCall (uri instance_uuid replicaset_uuid : string) (roles : list string)
      (vshard_group : string)
  | FailoverCall (enabled : bool)
  | SetWeightCall (uuid : string) (weight : Z)
  | GetWeightCall (uuid : string)
  | SetRolesCall (uuid : string) (roles : list string)
  | GetRolesCall (uuid : string)
  | ServerStatCall
  | BootstrapVshardCall.

(** what [http.Post] followed by the response's decoding comes to *)
Inductive PostReply :=
  | PostError (msg : string)
  | DecodeError (msg : string)
  | Decoded (resp : BootstrapVshardResponse).

(** the requests the reconciler sends to the API server *)
Inductive ApiCall :=
  | GetClusterCall (key : string * string)
  | ListRolesCall
  | UpdateRoleCall (role : Role)
  | GetServiceCall (key : string * string)
  | CreateServiceCall (svc : Service)
  | ListStatefulSetsCall
  | GetPodCall (key : string * string)
  | UpdatePodCall (pod : Pod)
  | UpdateStatefulSetCall (sts : StatefulSet)
  | UpdateClusterCall (cluster : Cluster)
  | UpdateClusterStatusCall (cluster : Cluster).

Inductive Event :=
  | Api (c : ApiCall)
  | Topology (host : string) (c : TopologyCall).

(** ** The world of one pass *)

Record Store := {
  Clusters : gmap (string * string) Cluster;
  Roles : list Role;
  Services : gmap (string * string) Service;
  StatefulSets : list StatefulSet;
  Pods : gmap (string * string) Pod;
}.

(** What the pass reads and writes: the API server's store, the log of
    every request sent so far, and the two objects the pass keeps in memory
    across its stages, [cluster] and [stsList.Items].  The annotation map
    of a listed StatefulSet is shared by every copy the loops take of it,
    so a write through one copy is a write to the item. *)
Record World := {
  store : Store;
  trace : list Event;
  cluster : Cluster;
  items : list StatefulSet;
}.

(** What the collaborators answer.  The answer to a request can depend on
    the request and on how many requests were sent before it. *)
Record Env := {
  apiFault : nat -> ApiCall -> option error;
  LabelSelectorAsSelector : option LabelSelector -> error + (GoMap -> bool);
  runBool : nat -> string -> TopologyCall -> string + bool;
  runUnit : nat -> string -> TopologyCall -> option string;
  runReplicasets : nat -> string -> TopologyCall -> string + list (option ReplicasetData);
  runServerStat : nat -> string -> TopologyCall -> string + list (option ServerStat);
  post : nat -> string -> TopologyCall -> PostReply;
}.

(** [ctrl.Result] *)
Record Result := {
  Requeue : bool;
  RequeueAfter : Z;
}.

(** [time.Second], in nanoseconds *)
Definition Second : Z := 1000000000.

Definition RequeueAfter5s : Result := {| Requeue := false; RequeueAfter := 5 * Second |}.
Definition RequeueNow : Result := {| Requeue := true; RequeueAfter := 0 |}.
Definition NoRequeue : Result := {| Requeue := false; RequeueAfter := 0 |}.

(** How a piece of [Reconcile] ends: it falls through to what follows it,
    [Reconcile] returns, or the runtime panics. *)
Inductive Outcome (A : Type) :=
  | Next (a : A)
  | Return (res : Result) (err : option error)
  | Panic.

Arguments Next {A} a.
Arguments Return {A} res err.
Arguments Panic {A}.

Definition M (A : Type) : Type := World -> Outcome A * World.

Definition ret {A} (a : A) : M A := fun w => (Next a, w).

Definition bind {A B} (m : M A) (k : A -> M B) : M B :=
  fun w =>
    match m w with
    | (Next a, w') => k a w'
    | (Return res err, w') => (Return res err, w')
    | (Panic, w') => (Panic, w')
    end.

Definition returns {A} (res : Result) (err : option error) : M A :=
  fun w => (Return res err, w).

Definition panic {A} : M A := fun w => (Panic, w).

Declare Scope go_scope.
Delimit Scope go_scope with go.
Notation "'do' x <- m ; k" := (bind m (fun x => k))
  (at level 10, x name, m at level 100, k at level 200) : go_scope.
Notation "'run' m ; k" := (bind m (fun _ => k))
  (at level 10, m at level 100, k at level 200) : go_scope.
Local Open Scope go_scope.

(** a [for] loop over [l] whose body can [continue] (fall through) or
    return *)
Fixpoint forM_ {A} (l : list A) (body : A -> M unit) : M unit :=
  match l with
  | [] => ret tt
  | x :: r => run body x; forM_ r body
  end.

(** the values of [i] in [for i := 0; i < n; i++] *)
Definition upto (n : Z) : list Z := map Z.of_nat (seq 0 (Z.to_nat n)).

Definition getWorld : M World := fun w => (Next w, w).

(** a write the API server accepted *)
Definition modifyStore (f : Store -> Store) : M unit :=
  fun w =>
    (Next tt,
     {| store := f (store w); trace := trace w; cluster := cluster w; items := items w |}).

Definition modifyCluster (f : Cluster -> Cluster) : M unit :=
  fun w =>
    (Next tt,
     {| store := store w; trace := trace w; cluster := f (cluster w); items := items w |}).

Definition setCluster (c : Cluster) : M unit := modifyCluster (fun _ => c).

Definition setItems (l : list StatefulSet) : M unit :=
  fun w => (Next tt, {| store := store w; trace := trace w; cluster := cluster w; items := l |}).

(** the world after one more request *)
Definition logged (e : Event) (w : World) : World :=
  {| store := store w; trace := trace w ++ [e]; cluster := cluster w; items := items w |}.

Section Pass.

Variable env : Env.

(** ** The API server, as the controller-runtime client reaches it *)

(** one request: it is logged, and the API server may refuse it *)
Definition request (c : ApiCall) : M (option error) :=
  fun w => (Next (apiFault env (length (trace w)) c), logged (Api c) w).

Definition notFound (key : string * string) : error :=
  StatusError StatusReasonNotFound (key.2 +:+ " not found").

Definition namedPod (key : string * string) (p : Pod) : Pod :=
  {| PodMeta := named key (PodMeta p); JoinedMarker := JoinedMarker p |}.

(** [r.Get(ctx, key, pod)] *)
Definition GetPod (key : string * string) : M (error + Pod) :=
  do fault <- request (GetPodCall key);
  do w <- getWorld;
  match fault with
  | Some err => ret (inl err)
  | None =>
      match Pods (store w) !! key with
      | Some p => ret (inr (namedPod key p))
      | None => ret (inl (notFound key))
      end
  end.

Definition putPod (pod : Pod) (s : Store) : Store :=
  {| Clusters := Clusters s; Roles := Roles s; Services := Services s;
     StatefulSets := StatefulSets s;
     Pods := <[keyOf (PodMeta pod) := pod]> (Pods s) |}.

(** [r.Update(ctx, pod)] *)
Definition UpdatePod (pod : Pod) : M (option error) :=
  do fault <- request (UpdatePodCall pod);
  do w <- getWorld;
  match fault with
  | Some err => ret (Some err)
  | None =>
      match Pods (store w) !! keyOf (PodMeta pod) with
      | Some _ => run modifyStore (putPod pod); ret None
      | None => ret (Some (notFound (keyOf (PodMeta pod))))
      end
  end.

Definition sameKey (a b : ObjectMeta) : bool :=
  String.eqb (Namespace a) (Namespace b) && String.eqb (Name a) (Name b).

Definition putStatefulSet (sts : StatefulSet) (s : Store) : Store :=
  {| Clusters := Clusters s; Roles := Roles s; Services := Services s;
     StatefulSets :=
       map (fun x => if sameKey (StsMeta x) (StsMeta sts) then sts else x)
           (StatefulSets s);
     Pods := Pods s |}.

(** [r.Update(ctx, &sts)] *)
Definition UpdateStatefulSet (sts : StatefulSet) : M (option error) :=
  do fault <- request (UpdateStatefulSetCall sts);
  do w <- getWorld;
  match fault with
  | Some err => ret (Some err)
  | None =>
      if existsb (fun x => sameKey (StsMeta x) (StsMeta sts)) (StatefulSets (store w))
      then run modifyStore (putStatefulSet sts); ret None
      else ret (Some (notFound (keyOf (StsMeta sts))))
  end.

(** [r.List(ctx, stsList, &client.ListOptions{LabelSelector: selector})] *)
Definition ListStatefulSets (selector : GoMap -> bool) : M (error + list StatefulSet) :=
  do fault <- request ListStatefulSetsCall;
  do w <- getWorld;
  match fault with
  | Some err => ret (inl err)
  | None => ret (inr (filter (fun x => selector (Labels (StsMeta x))) (StatefulSets (store w))))
  end.

Definition putRole (role : Role) (s : Store) : Store :=
  {| Clusters := Clusters s;
     Roles := map (fun x => if sameKey (RoleMeta x) (RoleMeta role) then role else x) (Roles s);
     Services := Services s; StatefulSets := StatefulSets s; Pods := Pods s |}.

(** [r.List(ctx, roleList, ...)] *)
Definition ListRoles (selector : GoMap -> bool) : M (error + list Role) :=
  do fault <- request ListRolesCall;
  do w <- getWorld;
  match fault with
  | Some err => ret (inl err)
  | None => ret (inr (filter (fun x => selector (Labels (RoleMeta x))) (Roles (store w))))
  end.

(** [r.Update(ctx, &role)] *)
Definition UpdateRole (role : Role) : M (option error) :=
  do fault <- request (UpdateRoleCall role);
  do w <- getWorld;
  match fault with
  | Some err => ret (Some err)
  | None =>
      if existsb (fun x => sameKey (RoleMeta x) (RoleMeta role)) (Roles (store w))
      then run modifyStore (putRole role); ret None
      else ret (Some (notFound (keyOf (RoleMeta role))))
  end.

Definition namedCluster (key : string * string) (c : Cluster) : Cluster :=
  {| ClusterMeta := named key (ClusterMeta c); Selector := Selector c; State := State c |}.

(** [r.Get(ctx, req.NamespacedName, cluster)] *)
Definition GetCluster (key : string * string) : M (error + Cluster) :=
  do fault <- request (GetClusterCall key);
  do w <- getWorld;
  match fault with
  | Some err => ret (inl err)
  | None =>
      match Clusters (store w) !! key with
      | Some c => ret (inr (namedCluster key c))
      | None => ret (inl (notFound key))
      end
  end.

Definition putCluster (key : string * string) (f : Cluster -> Cluster) (s : Store) : Store :=
  {| Clusters := alter f key (Clusters s); Roles := Roles s;
     Services := Services s; StatefulSets := StatefulSets s; Pods := Pods s |}.

(** [r.Update(ctx, cluster)]: the object without its status, which is a
    subresource *)
Definition UpdateCluster (c : Cluster) : M (option error) :=
  do fault <- request (UpdateClusterCall c);
  do w <- getWorld;
  match fault with
  | Some err => ret (Some err)
  | None =>
      match Clusters (store w) !! keyOf (ClusterMeta c) with
      | Some _ =>
          run modifyStore (putCluster (keyOf (ClusterMeta c)) (fun old =>
                {| ClusterMeta := ClusterMeta c; Selector := Selector c; State := State old |}));
          ret None
      | None => ret (Some (notFound (keyOf (ClusterMeta c))))
      end
  end.

(** [r.Status().Update(ctx, cluster)]: the status alone *)
Definition UpdateClusterStatus (c : Cluster) : M (option error) :=
  do fault <- request (UpdateClusterStatusCall c);
  do w <- getWorld;
  match fault with
  | Some err => ret (Some err)
  | None =>
      match Clusters (store w) !! keyOf (ClusterMeta c) with
      | Some _ =>
          run modifyStore (putCluster (keyOf (ClusterMeta c)) (fun old =>
                {| ClusterMeta := ClusterMeta old; Selector := Selector old; State := State c |}));
          ret None
      | None => ret (Some (notFound (keyOf (ClusterMeta c))))
      end
  end.

(** [r.Get(ctx, key, svc)] *)
Definition GetService (key : string * string) : M (error + Service) :=
  do fault <- request (GetServiceCall key);
  do w <- getWorld;
  match fault with
  | Some err => ret (inl err)
  | None =>
      match Services (store w) !! key with
      | Some svc => ret (inr svc)
      | None => ret (inl (notFound key))
      end
  end.

Definition putService (svc : Service) (s : Store) : Store :=
  {| Clusters := Clusters s; Roles := Roles s;
     Services := <[keyOf (SvcMeta svc) := svc]> (Services s);
     StatefulSets := StatefulSets s; Pods := Pods s |}.

(** [r.Create(ctx, svc)] *)
Definition CreateService (svc : Service) : M (option error) :=
  do fault <- request (CreateServiceCall svc);
  do w <- getWorld;
  match fault with
  | Some err => ret (Some err)
  | None =>
      match Services (store w) !! keyOf (SvcMeta svc) with
      | Some _ =>
          ret (Some (StatusError StatusReasonUnknown
                       (Name (SvcMeta svc) +:+ " already exists")))
      | None => run modifyStore (putService svc); ret None
      end
  end.

(** ** The topology client (builtin.go) *)

(** [BuiltInTopologyService] *)
Record BuiltInTopologyService := {
  serviceHost : string;
  clusterID : string;
}.

(** one request to the topology service at [s.serviceHost]: it is logged,
    and the service answers *)
Definition send {R} (answer : Env -> nat -> string -> TopologyCall -> R)
    (s : BuiltInTopologyService) (c : TopologyCall) : M R :=
  fun w =>
    (Next (answer env (length (trace w)) (serviceHost s) c),
     logged (Topology (serviceHost s) c) w).

(** how [Join] reads the error [client.Run] returned *)
Definition classifyJoin (msg : string) : error :=
  if Strings.Contains msg "already joined" then errAlreadyJoined
  else if Strings.Contains msg "This instance isn't bootstrapped yet" then errTopologyIsDown
  else externalError msg.

(** [Join] *)
Definition Join (s : BuiltInTopologyService) (pod : Pod) : M (option error) :=
  let thisPodLabels := GetLabels pod in
  let clusterDomainName :=
    match GoMap.lookup thisPodLabels "tarantool.io/cluster-domain-name" with
    | Some d => d
    | None => "cluster.local"
    end in
  let advURI :=
    Name (PodMeta pod) +:+ "." +:+ clusterID s +:+ "." +:+ Namespace (PodMeta pod)
      +:+ ".svc." +:+ clusterDomainName +:+ ":3301" in
  match GoMap.lookup thisPodLabels "tarantool.io/replicaset-uuid" with
  | None => ret (Some (errorString "replicaset uuid empty"))
  | Some replicasetUUID =>
  match GoMap.lookup thisPodLabels "tarantool.io/instance-uuid" with
  | None => ret (Some (errorString "instance uuid empty"))
  | Some instanceUUID =>
  match GetRoles pod with
  | inl err => ret (Some err)
  | inr roles =>
  match GoMap.lookup thisPodLabels "tarantool.io/useVshardGroups" with
  | None => ret (Some (errorString "failed to get label tarantool.io/useVshardGroups"))
  | Some useVshardGroups =>
  match
    (if String.eqb useVshardGroups "1"
     then GoMap.lookup thisPodLabels "tarantool.io/vshardGroupName"
     else Some "default")
  with
  | None => ret (Some (errorString "vshard_group undefined"))
  | Some vshardGroup =>
      do resp <- send runBool s (JoinCall advURI instanceUUID replicasetUUID roles vshardGroup);
      match resp with
      | inl msg => ret (Some (classifyJoin msg))
      | inr JoinInstance =>
          if JoinInstance then ret None
          else ret (Some (errorString "something really bad happened"))
      end
  end end end end end.

(** [SetFailover] *)
Definition SetFailover (s : BuiltInTopologyService) (enabled : bool) : M (option error) :=
  do resp <- send runUnit s (FailoverCall enabled);
  match resp with
  | Some _ => ret (Some (errorString "failed to enable cluster failover"))
  | None => ret None
  end.

(** [SetWeight] *)
Definition SetWeight (s : BuiltInTopologyService) (replicasetUUID replicaWeight : string)
  : M (option error) :=
  match Strconv.ParseUint replicaWeight with
  | inl err => ret (Some err)
  | inr weightParam =>
      do resp <- send runBool s (SetWeightCall replicasetUUID weightParam);
      match resp with
      | inl msg => ret (Some (externalError msg))
      | inr Response =>
          if Response then ret None
          else ret (Some (errorString "something really bad happened"))
      end
  end.

Definition replicasetNotFound (replicasetUUID : string) : error :=
  errorString ("replicaset with uuid: '" +:+ replicasetUUID +:+ "' not found").

(** [GetWeight] *)
Definition GetWeight (s : BuiltInTopologyService) (replicasetUUID : string)
  : M (Z * option error) :=
  do resp <- send runReplicasets s (GetWeightCall replicasetUUID);
  match resp with
  | inl msg => ret (-1, Some (externalError msg))
  | inr [] => ret (-1, Some (replicasetNotFound replicasetUUID))
  | inr (None :: _) => panic
  | inr (Some rs :: _) =>
      match Weight rs with
      | None => ret (-1, None)
      | Some w => ret (w, None)
      end
  end.

(** [SetReplicasetRoles] *)
Definition SetReplicasetRoles (s : BuiltInTopologyService) (replicasetUUID : string)
    (roles : list string) : M (option error) :=
  do resp <- send runBool s (SetRolesCall replicasetUUID roles);
  match resp with
  | inl msg => ret (Some (externalError msg))
  | inr _ => ret None
  end.

(** [GetReplicasetRolesFromService] *)
Definition GetReplicasetRolesFromService (s : BuiltInTopologyService)
    (replicasetUUID : string) : M (error + list string) :=
  do resp <- send runReplicasets s (GetRolesCall replicasetUUID);
  match resp with
  | inl msg => ret (inl (externalError msg))
  | inr [] => ret (inl (replicasetNotFound replicasetUUID))
  | inr (None :: _) => panic
  | inr (Some rs :: _) => ret (inr (RsRoles rs))
  end.

(** [GetServerStat] *)
Definition GetServerStat (s : BuiltInTopologyService)
  : M (list (option ServerStat) * option error) :=
  do resp <- send runServerStat s ServerStatCall;
  match resp with
  | inl msg => ret ([], Some (externalError msg))
  | inr stats => ret (stats, None)
  end.

(** how [BootstrapVshard] reads a decoded response *)
Definition classifyBootstrap (resp : BootstrapVshardResponse) : M (option error) :=
  match Data resp with
  | None => panic
  | Some true => ret None
  | Some false =>
      match Errors resp with
      | [] => ret (Some (errorString "unknown error"))
      | None :: _ => panic
      | Some Message :: _ =>
          if Strings.Contains Message "already bootstrapped"
          then ret (Some errAlreadyBootstrapped)
          else ret (Some (errorString Message))
      end
  end.

(** [BootstrapVshard] *)
Definition BootstrapVshard (s : BuiltInTopologyService) : M (option error) :=
  do rawResp <- send post s BootstrapVshardCall;
  match rawResp with
  | PostError msg => ret (Some (externalError msg))
  | DecodeError msg => ret (Some (externalError msg))
  | Decoded resp => classifyBootstrap resp
  end.

(** ** The reconciler (cluster_controller.go) *)

(** [ctrl.Request] *)
Record Request := {
  ReqNamespace : string;
  ReqName : string;
}.

(** [SelectTopologyLeader] *)
Fixpoint SelectTopologyLeader (stsList : list StatefulSet) : M (string * option error) :=
  match stsList with
  | [] => ret ("", Some (errorString "not found"))
  | sts :: rest =>
      if Replicas sts =? 0 then SelectTopologyLeader rest
      else
        let namespace := Namespace (StsMeta sts) in
        let podName := Name (StsMeta sts) +:+ "-0" in
        let svcName := ServiceName sts in
        do r <- GetPod (namespace, podName);
        match r with
        | inl err => ret ("", Some err)
        | inr pod =>
            let domainName := GoMap.get (Labels (PodMeta pod)) "tarantool.io/cluster-domain-name" in
            ret (MakeStaticPodAddr podName svcName namespace domainName 8081, None)
        end
  end.

(** [IsTopologyLeaderExists] *)
Fixpoint IsTopologyLeaderExists (stsList : list StatefulSet) (leader : string)
  : M (bool * option error) :=
  match stsList with
  | [] => ret (false, None)
  | sts :: rest =>
      if Replicas sts =? 0 then IsTopologyLeaderExists rest leader
      else
        let namespace := Namespace (StsMeta sts) in
        let podName := Name (StsMeta sts) +:+ "-0" in
        let svcName := ServiceName sts in
        do r <- GetPod (namespace, podName);
        match r with
        | inl err => ret (false, Some err)
        | inr pod =>
            let domainName := GoMap.get (Labels (PodMeta pod)) "tarantool.io/cluster-domain-name" in
            let podAddr := MakeStaticPodAddr podName svcName namespace domainName 8081 in
            if String.eqb podAddr leader then ret (true, None)
            else IsTopologyLeaderExists rest leader
        end
  end.

(** [fmt.Sprintf("%s-%d", sts.GetName(), i)] *)
Definition podName (sts : StatefulSet) (i : Z) : string :=
  Name (StsMeta sts) +:+ "-" +:+ Strings.itoa i.

(** how the pod loops end when [r.Get] fails *)
Definition getFailed {A} (err : error) : M A :=
  if IsNotFound err then returns RequeueAfter5s None
  else returns RequeueAfter5s (Some err).

(** lines 198-217: the ownership of the cluster's roles, one role *)
Definition ownRole (role : Role) : M unit :=
  do w <- getWorld;
  let cluster := cluster w in
  if IsControlledBy (RoleMeta role) (ClusterMeta cluster) then ret tt
  else
    let annotations :=
      match Annotations (RoleMeta role) with
      | None => ∅
      | Some a => a
      end in
    let annotations := <["tarantool.io/cluster-id" := Name (ClusterMeta cluster)]> annotations in
    let meta := SetAnnotations (RoleMeta role) (Some annotations) in
    match SetControllerReference (ClusterMeta cluster) meta with
    | inl err => returns RequeueAfter5s (Some err)
    | inr meta =>
        do err <- UpdateRole {| RoleMeta := meta |};
        match err with
        | Some err => returns RequeueAfter5s (Some err)
        | None => ret tt
        end
    end.

(** lines 221-247: the cluster-wide Service *)
Definition ensureService : M unit :=
  do w <- getWorld;
  let cluster := cluster w in
  do r <- GetService (Namespace (ClusterMeta cluster), Name (ClusterMeta cluster));
  match r with
  | inr _ => ret tt
  | inl err =>
      if IsNotFound err then
        match Selector cluster with
        | None => panic
        | Some selector =>
            let meta :=
              {| Name := Name (ClusterMeta cluster);
                 Namespace := Namespace (ClusterMeta cluster);
                 UID := ""; Labels := None; Annotations := None;
                 OwnerReferences := [] |} in
            match SetControllerReference (ClusterMeta cluster) meta with
            | inl err => returns RequeueAfter5s (Some err)
            | inr meta =>
                do err <- CreateService
                    {| SvcMeta := meta; SvcSelector := MatchLabels selector;
                       ClusterIP := "None";
                       Ports := [ {| PortName := "app"; Port := 3301; Protocol := "TCP" |} ] |};
                match err with
                | Some err => returns RequeueAfter5s (Some err)
                | None => ret tt
                end
            end
        end
      else ret tt
  end.

Definition clusterSetAnnotations (c : Cluster) (a : GoMap) : Cluster :=
  {| ClusterMeta := SetAnnotations (ClusterMeta c) a; Selector := Selector c; State := State c |}.

Definition clusterSetState (c : Cluster) (state : string) : Cluster :=
  {| ClusterMeta := ClusterMeta c; Selector := Selector c; State := state |}.

(** lines 258-291: the topology leader, and the client bound to it.  The
    client is built from the leader read at the start, also when a new one
    was just selected. *)
Definition resolveLeader : M BuiltInTopologyService :=
  do w <- getWorld;
  let clusterAnnotations :=
    match Annotations (ClusterMeta (cluster w)) with
    | None => ∅
    | Some a => a
    end in
  let topologyLeader := GoMap.get (Some clusterAnnotations) "tarantool.io/topology-leader" in
  do r <- IsTopologyLeaderExists (items w) topologyLeader;
  match r with
  | (_, Some _) => returns RequeueAfter5s None
  | (exists_, None) =>
      run (if exists_ then ret tt
           else
             do r <- SelectTopologyLeader (items w);
             match r with
             | (_, Some _) => returns RequeueAfter5s None
             | (newLeader, None) =>
                 let clusterAnnotations :=
                   <["tarantool.io/topology-leader" := newLeader]> clusterAnnotations in
                 let cluster := clusterSetAnnotations (cluster w) (Some clusterAnnotations) in
                 run setCluster cluster;
                 do err <- UpdateCluster cluster;
                 match err with
                 | Some err =>
                     returns NoRequeue
                       (Some (errorString ("Update cluster annotations failed: " +:+ Error err)))
                 | None => ret tt
                 end
             end);
      ret {| serviceHost := "http://" +:+ topologyLeader +:+ "/admin/api";
             clusterID := Name (ClusterMeta (cluster w)) |}
  end.

(** lines 170-291: everything before the pod loops *)
Definition prelude (req : Request) : M BuiltInTopologyService :=
  do r <- GetCluster (ReqNamespace req, ReqName req);
  match r with
  | inl err => getFailed err
  | inr cluster =>
      run setCluster cluster;
      match LabelSelectorAsSelector env (Selector cluster) with
      | inl err => returns RequeueAfter5s (Some err)
      | inr clusterSelector =>
          do r <- ListRoles clusterSelector;
          match r with
          | inl err => getFailed err
          | inr roleList =>
              run forM_ roleList ownRole;
              run ensureService;
              do r <- ListStatefulSets clusterSelector;
              match r with
              | inl err => getFailed err
              | inr stsList =>
                  run setItems stsList;
                  resolveLeader
              end
          end
      end
  end.

(** lines 294-321: one pod of the first inner loop *)
Definition assignUUID (req : Request) (sts : StatefulSet) (i : Z) : M unit :=
  do r <- GetPod (ReqNamespace req, podName sts i);
  match r with
  | inl err => getFailed err
  | inr pod =>
      if HasInstanceUUID pod then ret tt
      else
        match SetInstanceUUID pod with
        | None => panic
        | Some pod =>
            do err <- UpdatePod pod;
            match err with
            | Some err => returns RequeueAfter5s (Some err)
            | None => returns RequeueNow None
            end
        end
  end.

(** lines 323-366: one pod of the second inner loop *)
Definition joinPod (topologyClient : BuiltInTopologyService) (req : Request)
    (sts : StatefulSet) (i : Z) : M unit :=
  do r <- GetPod (ReqNamespace req, podName sts i);
  match r with
  | inl err => getFailed err
  | inr pod =>
      if IsJoined pod then ret tt
      else
        do err <- Join topologyClient pod;
        match err with
        | Some err =>
            if IsAlreadyJoined err then
              do err <- UpdatePod (MarkJoined pod);
              match err with
              | Some err => returns RequeueAfter5s (Some err)
              | None => ret tt
              end
            else if IsTopologyDown err then ret tt
            else returns RequeueAfter5s None
        | None =>
            do err <- UpdatePod (MarkJoined pod);
            match err with
            | Some err => returns RequeueAfter5s (Some err)
            | None => returns RequeueAfter5s None
            end
        end
  end.

(** lines 293-367: one StatefulSet of the first outer loop, its pods'
    UUIDs and then their joins *)
Definition lifecycle (topologyClient : BuiltInTopologyService) (req : Request)
    (sts : StatefulSet) : M unit :=
  run forM_ (upto (Replicas sts)) (assignUUID req sts);
  forM_ (upto (Replicas sts)) (joinPod topologyClient req sts).

(** [stsList.Items[k]], as the [range] copies it *)
Definition item (k : nat) : M StatefulSet :=
  fun w =>
    match items w !! k with
    | Some sts => (Next sts, w)
    | None => (Panic, w)
    end.

(** [stsAnnotations[key] = value] on the map item [k] shares with its
    copies; writing a nil map panics *)
Definition writeAnnotation (k : nat) (key value : string) : M unit :=
  fun w =>
    match items w !! k with
    | None => (Panic, w)
    | Some sts =>
        match GoMap.set (Annotations (StsMeta sts)) key value with
        | None => (Panic, w)
        | Some a =>
            (Next tt,
             {| store := store w; trace := trace w; cluster := cluster w;
                items := <[k := StsSetAnnotations sts a]> (items w) |})
        end
    end.

(** lines 379-396: one server of the statistics *)
Definition checkBuckets (k : nat) (sts : StatefulSet) (stat : option ServerStat) : M unit :=
  match stat with
  | None => panic
  | Some stat =>
      if Strings.HasPrefix (URI stat) (Name (StsMeta sts)) then
        let bucketsCount := BucketsCount (StatStatistics stat) in
        if bucketsCount =? 0 then
          run writeAnnotation k "tarantool.io/scheduledDelete" "1";
          do sts <- item k;
          do _err <- UpdateStatefulSet sts;
          ret tt
        else ret tt
      else ret tt
  end.

(** lines 400-419: one pod of the joined check *)
Definition requireJoined (req : Request) (sts : StatefulSet) (i : Z) : M unit :=
  do r <- GetPod (ReqNamespace req, podName sts i);
  match r with
  | inl err => getFailed err
  | inr pod =>
      if negb (IsJoined pod) then returns RequeueAfter5s None
      else ret tt
  end.

(** lines 373-398: the check of a StatefulSet whose weight is "0" *)
Definition drain (topologyClient : BuiltInTopologyService) (k : nat) (sts : StatefulSet)
    (weight : string) : M unit :=
  if String.eqb weight "0" then
    do r <- GetServerStat topologyClient;
    match r with
    | (_, Some _) => ret tt
    | (data, None) => forM_ data (checkBuckets k sts)
    end
  else ret tt.

(** lines 369-424: one StatefulSet of the weight loop *)
Definition weigh (topologyClient : BuiltInTopologyService) (req : Request) (k : nat) : M unit :=
  do sts <- item k;
  let stsAnnotations := Annotations (StsMeta sts) in
  let weight := GoMap.get stsAnnotations "tarantool.io/replicaset-weight" in
  run drain topologyClient k sts weight;
  run forM_ (upto (Replicas sts)) (requireJoined req sts);
  do err <- SetWeight topologyClient
              (GoMap.get (Labels (StsMeta sts)) "tarantool.io/replicaset-uuid") weight;
  match err with
  | Some err => returns RequeueAfter5s (Some err)
  | None => ret tt
  end.

(** lines 426-451: one StatefulSet of the roles loop *)
Definition convergeRoles (topologyClient : BuiltInTopologyService) (sts : StatefulSet) : M unit :=
  let replicasetUUID := GoMap.get (Labels (StsMeta sts)) "tarantool.io/replicaset-uuid" in
  do r <- GetReplicasetRolesFromService topologyClient replicasetUUID;
  match r with
  | inl err => returns RequeueAfter5s (Some err)
  | inr actualRoles =>
      match GetRoles (StsMeta sts) with
      | inl err => returns RequeueAfter5s (Some err)
      | inr desireRoles =>
          if IsRolesEquals actualRoles desireRoles then ret tt
          else
            do err <- SetReplicasetRoles topologyClient replicasetUUID desireRoles;
            match err with
            | Some err => returns RequeueAfter5s (Some err)
            | None => ret tt
            end
      end
  end.

(** lines 455-481: the bootstrap of one StatefulSet of the last loop *)
Definition bootstrap (topologyClient : BuiltInTopologyService) (k : nat) : M unit :=
  do sts <- item k;
  let stsAnnotations := Annotations (StsMeta sts) in
  if negb (String.eqb (GoMap.get stsAnnotations "tarantool.io/isBootstrapped") "1") then
    do err <- BootstrapVshard topologyClient;
    match err with
    | Some err =>
        if IsAlreadyBootstrapped err then
          run writeAnnotation k "tarantool.io/isBootstrapped" "1";
          do sts <- item k;
          do _err <- UpdateStatefulSet sts;
          run modifyCluster (fun cluster => clusterSetState cluster "Ready");
          do w <- getWorld;
          do err <- UpdateClusterStatus (cluster w);
          match err with
          | Some err => returns RequeueAfter5s (Some err)
          | None => returns RequeueAfter5s None
          end
        else returns RequeueAfter5s (Some err)
    | None => ret tt
    end
  else ret tt.

(** lines 483-497: the failover of one StatefulSet of the last loop *)
Definition failover (topologyClient : BuiltInTopologyService) (k : nat) : M unit :=
  do sts <- item k;
  let stsAnnotations := Annotations (StsMeta sts) in
  if String.eqb (GoMap.get stsAnnotations "tarantool.io/failoverEnabled") "1" then ret tt
  else
    do err <- SetFailover topologyClient true;
    match err with
    | Some _ => ret tt
    | None =>
        run writeAnnotation k "tarantool.io/failoverEnabled" "1";
        do sts <- item k;
        do _err <- UpdateStatefulSet sts;
        ret tt
    end.

(** lines 369-500: the loops after the joins, over the [n] listed
    StatefulSets *)
Definition converge (topologyClient : BuiltInTopologyService) (req : Request) (n : nat)
  : M unit :=
  run forM_ (seq 0 n) (weigh topologyClient req);
  do w <- getWorld;
  run forM_ (items w) (convergeRoles topologyClient);
  run forM_ (seq 0 n)
        (fun k => run bootstrap topologyClient k; failover topologyClient k);
  returns NoRequeue None.

(** lines 293-500: the loops over the listed StatefulSets *)
Definition stages (topologyClient : BuiltInTopologyService) (req : Request) : M unit :=
  do w <- getWorld;
  run forM_ (items w) (lifecycle topologyClient req);
  converge topologyClient req (length (items w)).

(** [Reconcile] *)
Definition Reconcile (req : Request) : M unit :=
  do topologyClient <- prelude req;
  stages topologyClient req.

End Pass.

(** ** Decimal strings *)

Definition decimalDigit (c : ascii) : bool :=
  (48 <=? Strconv.code c) && (Strconv.code c <=? 57).

(** a non-empty string of decimal digits *)
Definition isDecimal (s : string) : bool :=
  match s with
  | EmptyString => false
  | String _ _ => forallb decimalDigit (list_ascii_of_string s)
  end.

(** ** Concrete clusters, for the examples *)

Module Fixture.

Definition meta (ns n : string) (l a : GoMap) : ObjectMeta :=
  {| Name := n; Namespace := ns; UID := "uid-" +:+ n;
     Labels := l; Annotations := a; OwnerReferences := [] |}.

(** a topology service that accepts everything, an API server that
    refuses nothing *)
Definition calm : Env :=
  {| apiFault := fun _ _ => None;
     LabelSelectorAsSelector := fun _ => inr (fun _ => true);
     runBool := fun _ _ _ => inr true;
     runUnit := fun _ _ _ => None;
     runReplicasets := fun _ _ _ =>
       inr [Some {| RsUUID := "rs-uuid-A"; RsRoles := ["storage"]; Weight := Some 1 |}];
     runServerStat := fun _ _ _ => inr [];
     post := fun _ _ _ => Decoded {| Data := Some true; Errors := [] |} |}.

(** the same, with every request of the typed client answered by the
    error [msg] *)
Definition failing (msg : string) : Env :=
  {| apiFault := apiFault calm;
     LabelSelectorAsSelector := LabelSelectorAsSelector calm;
     runBool := fun _ _ _ => inl msg;
     runUnit := runUnit calm;
     runReplicasets := runReplicasets calm;
     runServerStat := runServerStat calm;
     post := post calm |}.

Definition podLabels : gmap string string :=
  {[ "tarantool.io/replicaset-uuid" := "rs-uuid-A";
     "tarantool.io/rolesToAssign" := "storage";
     "tarantool.io/useVshardGroups" := "0";
     "tarantool.io/cluster-domain-name" := "cluster.local" ]}.

(** a pod fresh from its StatefulSet: no instance UUID, not joined *)
Definition fresh (n : string) : Pod :=
  {| PodMeta := meta "default" n (Some podLabels) None; JoinedMarker := None |}.

(** a pod with its instance UUID, not joined *)
Definition assigned (n : string) : Pod :=
  {| PodMeta :=
       meta "default" n
         (Some (<["tarantool.io/instance-uuid" := instanceUUID n]> podLabels)) None;
     JoinedMarker := None |}.

(** a pod with its instance UUID and its joined marker *)
Definition joined (n : string) : Pod := MarkJoined (assigned n).

Definition client : BuiltInTopologyService :=
  {| serviceHost := "http://rs-A-0.tnt.default.svc.cluster.local:8081/admin/api";
     clusterID := "tnt" |}.

Definition emptyStore : Store :=
  {| Clusters := ∅; Roles := []; Services := ∅; StatefulSets := []; Pods := ∅ |}.

Definition newCluster : Cluster :=
  {| ClusterMeta := meta "" "" None None; Selector := None; State := "" |}.

Definition blank : World :=
  {| store := emptyStore; trace := []; cluster := newCluster; items := [] |}.

(** the topology service reports [stats] *)
Definition reporting (stats : list (option ServerStat)) : Env :=
  {| apiFault := apiFault calm;
     LabelSelectorAsSelector := LabelSelectorAsSelector calm;
     runBool := runBool calm;
     runUnit := runUnit calm;
     runReplicasets := runReplicasets calm;
     runServerStat := fun _ _ _ => inr stats;
     post := post calm |}.

(** the topology service answers every bootstrap with the error [msg] *)
Definition refusing (msg : string) : Env :=
  {| apiFault := apiFault calm;
     LabelSelectorAsSelector := LabelSelectorAsSelector calm;
     runBool := runBool calm;
     runUnit := runUnit calm;
     runReplicasets := runReplicasets calm;
     runServerStat := runServerStat calm;
     post := fun _ _ _ => Decoded {| Data := Some false; Errors := [Some msg] |} |}.

Definition stat (uri : string) (buckets : Z) : option ServerStat :=
  Some {| StatStatistics :=
            {| ItemsUsedRatio := ""; ArenaUsedRatio := ""; QuotaSize := 0;
               ArenaUsed := 0; QuotaUsedRatio := ""; BucketsCount := buckets |};
          StatUUID := ""; URI := uri |}.

Definition group (n uuid weight : string) (replicas : Z) : StatefulSet :=
  {| StsMeta :=
       meta "default" n
         (Some {[ "tarantool.io/replicaset-uuid" := uuid;
                  "tarantool.io/rolesToAssign" := "storage" ]})
         (Some {[ "tarantool.io/replicaset-weight" := weight ]});
     Replicas := replicas;
     ServiceName := "tnt" |}.

Definition tnt : Cluster :=
  {| ClusterMeta :=
       meta "default" "tnt" None
         (Some {[ "tarantool.io/topology-leader" :=
                    "rs-A-0.tnt.default.svc.cluster.local:8081" ]});
     Selector := Some {| MatchLabels := None; MatchExpressions := [] |};
     State := "" |}.

Definition headless : Service :=
  {| SvcMeta := meta "default" "tnt" None None; SvcSelector := None;
     ClusterIP := "None";
     Ports := [ {| PortName := "app"; Port := 3301; Protocol := "TCP" |} ] |}.

(** the cluster "tnt" with its Service, the StatefulSets [groups] and the
    pods [pods], before a pass *)
Definition world (groups : list StatefulSet) (pods : list Pod) : World :=
  {| store :=
       {| Clusters := {[ ("default", "tnt") := tnt ]};
          Roles := [];
          Services := {[ ("default", "tnt") := headless ]};
          StatefulSets := groups;
          Pods := list_to_map (map (fun p => (keyOf (PodMeta p), p)) pods) |};
     trace := []; cluster := newCluster; items := [] |}.

Definition req : Request := {| ReqNamespace := "default"; ReqName := "tnt" |}.

(** the same after the first part of the pass, from the listing of the
    StatefulSets on *)
Definition listed (groups : list StatefulSet) (pods : list Pod) : World :=
  {| store := store (world groups pods); trace := []; cluster := tnt; items := groups |}.

Definition rsA (weight : string) (replicas : Z) : StatefulSet :=
  group "rs-A" "rs-uuid-A" weight replicas.

(** three instances, none with a UUID *)
Definition threeFresh : World :=
  world [rsA "1" 3] [fresh "rs-A-0"; fresh "rs-A-1"; fresh "rs-A-2"].

(** a first group whose instance waits for its join, a second whose
    instance waits for its UUID *)
Definition twoGroups : World :=
  world [rsA "1" 1; group "rs-B" "rs-uuid-B" "1" 1] [assigned "rs-A-0"; fresh "rs-B-0"].

(** two instances with their UUIDs, neither joined *)
Definition twoAssigned : World :=
  world [rsA "1" 2] [assigned "rs-A-0"; assigned "rs-A-1"].

(** two joined instances of a group of weight [weight] *)
Definition twoJoined (weight : string) : World :=
  world [rsA weight 2] [joined "rs-A-0"; joined "rs-A-1"].

(** the first instance without buckets, the second with five *)
Definition unevenStats : list (option ServerStat) :=
  [ stat "rs-A-0.tnt.default.svc.cluster.local:3301" 0;
    stat "rs-A-1.tnt.default.svc.cluster.local:3301" 5 ].

End Fixture.

(** ** Assertions about a pass *)

(** from a world in [P], [m] ends with an outcome and a world in [Q] *)
Definition hoare {A} (P : World -> Prop) (m : M A) (Q : Outcome A -> World -> Prop) : Prop :=
  forall w o w', P w -> m w = (o, w') -> Q o w'.

(** [m] keeps [I], however it ends *)
Definition inv {A} (I : World -> Prop) (m : M A) : Prop :=
  forall w, I w -> I (m w).2.

(** the value of the replicaset-uuid label, as the loops read it *)
Definition replicasetUUID (sts : StatefulSet) : string :=
  GoMap.get (Labels (StsMeta sts)) "tarantool.io/replicaset-uuid".

(** every instance of [sts] is in the store with its joined marker *)
Definition allJoined (req : Request) (s : Store) (sts : StatefulSet) : Prop :=
  forall i, In i (upto (Replicas sts)) ->
    exists pod, Pods s !! (ReqNamespace req, podName sts i) = Some pod /\
                IsJoined pod = true.

(** every instance of [sts] is in the store with its instance UUID *)
Definition allAssigned (req : Request) (s : Store) (sts : StatefulSet) : Prop :=
  forall i, In i (upto (Replicas sts)) ->
    exists pod, Pods s !! (ReqNamespace req, podName sts i) = Some pod /\
                HasInstanceUUID pod = true.

Definition isJoinCall (c : TopologyCall) : bool :=
  match c with
  | JoinCall _ _ _ _ _ => true
  | _ => false
  end.

Definition isSetWeightCall (c : TopologyCall) : bool :=
  match c with
  | SetWeightCall _ _ => true
  | _ => false
  end.

(** the request numbered [n] is a join whose answer ends the pass: the
    service accepted it, refused it, or failed with an error [Join] does
    not recognise *)
Definition decisive (env : Env) (n : nat) (e : Event) : bool :=
  match e with
  | Topology host (JoinCall a b c d f) =>
      match runBool env n host (JoinCall a b c d f) with
      | inr _ => true
      | inl msg =>
          negb (IsAlreadyJoined (classifyJoin msg)) &&
          negb (IsTopologyDown (classifyJoin msg))
      end
  | _ => false
  end.

(** every request numbered [base] or later passes [ok] *)
Definition traceInv (ok : nat -> Event -> Prop) (base : nat) (w : World) : Prop :=
  (base <= length (trace w))%nat /\
  forall n e, (base <= n)%nat -> trace w !! n = Some e -> ok n e.

Definition isApi (e : Event) : Prop :=
  match e with
  | Api _ => True
  | Topology _ _ => False
  end.

(** no request of the kind [kind] *)
Definition without (kind : TopologyCall -> bool) (e : Event) : Prop :=
  match e with
  | Api _ => True
  | Topology _ c => kind c = false
  end.



(** what the loops read of a StatefulSet besides its annotations *)
Definition sameGroup (a b : StatefulSet) : Prop :=
  Name (StsMeta a) = Name (StsMeta b) /\
  Labels (StsMeta a) = Labels (StsMeta b) /\
  Replicas a = Replicas b.




(** one step of the stages after the joins: the pods stay, the listed
    StatefulSets change in their annotations at most, and the request
    logged, if any, is no weight change *)
Definition settled (w w' : World) : Prop :=
  Pods (store w') = Pods (store w) /\
  Forall2 sameGroup (items w') (items w) /\
  (trace w' = trace w \/
   exists e, without isSetWeightCall e /\ trace w' = (trace w ++ [e])%list).


(** the pass ended at the request numbered [n]: at most the update of one
    pod follows it, and [Reconcile] returned asking for a pass in five
    seconds *)
Definition endedAt {A} (n : nat) (o : Outcome A) (w : World) : Prop :=
  (length (trace w) <= n + 2)%nat /\
  (forall e, trace w !! S n = Some e -> exists pod, e = Api (UpdatePodCall pod)) /\
  exists err, o = Return RequeueAfter5s err.

(** no decisive join so far, or the pass ended at the first one *)
Definition joinsDecide (env : Env) (base : nat) {A} (o : Outcome A) (w : World) : Prop :=
  traceInv (fun n e => decisive env n e = false) base w \/
  exists n e,
    (base <= n)%nat /\ trace w !! n = Some e /\ decisive env n e = true /\
    (forall m e', (base <= m < n)%nat -> trace w !! m = Some e' -> decisive env m e' = false) /\
    endedAt n o w.

(** no decisive join among the requests numbered [base] or later *)
Definition undecided (env : Env) (base : nat) : World -> Prop :=
  traceInv (fun n e => decisive env n e = false) base.

(** run before any decisive join, [m] makes none, or ends the pass at the
    first it makes *)
Definition joinGuarded (env : Env) (base : nat) {A} (m : M A) : Prop :=
  hoare (undecided env base) m (joinsDecide env base).

(** the API server refuses no request numbered [base] or later *)
Definition accepts (env : Env) (base : nat) : Prop :=
  forall n c, (base <= n)%nat -> apiFault env n c = None.

Definition isPodRead (e : Event) : Prop :=
  match e with
  | Api (GetPodCall _) => True
  | _ => False
  end.

(** from [w] to [w'] pods were read and nothing else happened *)
Definition reads (w w' : World) : Prop :=
  store w' = store w /\ items w' = items w /\ cluster w' = cluster w /\
  exists evs, trace w' = trace w ++ evs /\ Forall isPodRead evs.


(** the item [k] of the listing carries the scheduled-for-deletion
    annotation *)
Definition flagged (k : nat) (w : World) : Prop :=
  exists sts,
    items w !! k = Some sts /\
    GoMap.lookup (Annotations (StsMeta sts)) "tarantool.io/scheduledDelete" = Some "1".

(** the requests of a trace made to the topology service *)
Definition topology (t : list Event) : list TopologyCall :=
  flat_map (fun e =>
              match e with
              | Topology _ call => [call]
              | Api _ => []
              end) t.

(** the advertised addresses of the joins of a trace *)
Definition joins (t : list Event) : list string :=
  flat_map (fun call =>
              match call with
              | JoinCall uri _ _ _ _ => [uri]
              | _ => []
              end) (topology t).

(** * Further definitions *)

(** the number a string of decimal digits writes, read from the left as
    [strconv.ParseUint] does, starting from [n] *)
Fixpoint decimalValue (s : string) (n : Z) : Z :=
  match s with
  | EmptyString => n
  | String c r => decimalValue r (n * 10 + (Strconv.code c - 48))
  end.

(** a lower-case hexadecimal digit *)
Definition isLowerHex (c : ascii) : bool :=
  let k := Strconv.code c in
  ((48 <=? k) && (k <=? 57)) || ((97 <=? k) && (k <=? 102)).

(** [n] lower-case hexadecimal digits at the head of [s]: what follows
    them *)
Fixpoint hexRun (n : nat) (s : string) : option string :=
  match n with
  | O => Some s
  | S n' =>
      match s with
      | String c r => if isLowerHex c then hexRun n' r else None
      | EmptyString => None
      end
  end.

(** one of the bytes [cs] at the head of [s]: what follows it *)
Definition oneOf (cs : list ascii) (s : string) : option string :=
  match s with
  | String c r => if existsb (Ascii.eqb c) cs then Some r else None
  | EmptyString => None
  end.

(** a piece of a pattern: [n] hexadecimal digits, or one byte among [cs] *)
Inductive Piece :=
  | Hex (n : nat)
  | Byte (cs : list ascii).

Fixpoint matches (ps : list Piece) (s : string) : bool :=
  match ps with
  | [] => match s with EmptyString => true | _ => false end
  | Hex n :: r =>
      match hexRun n s with
      | Some s' => matches r s'
      | None => false
      end
  | Byte cs :: r =>
      match oneOf cs s with
      | Some s' => matches r s'
      | None => false
      end
  end.

(** the text of a version-5 UUID of the RFC 4122 variant:
    xxxxxxxx-xxxx-5xxx-Vxxx-xxxxxxxxxxxx, V one of 8, 9, a, b *)
Definition wellFormedV5 (s : string) : bool :=
  matches
    [Hex 8; Byte ["-"%char]; Hex 4; Byte ["-"%char];
     Byte ["5"%char]; Hex 3; Byte ["-"%char];
     Byte ["8"%char; "9"%char; "a"%char; "b"%char]; Hex 3; Byte ["-"%char];
     Hex 12] s.

(** ** The client's options and [Expel] (builtin.go) *)

(** [type Option func(s *BuiltInTopologyService)] *)
Definition Option : Type := BuiltInTopologyService -> BuiltInTopologyService.

(** [WithTopologyEndpoint] *)
Definition WithTopologyEndpoint (url : string) : Option :=
  fun s => {| serviceHost := url; clusterID := clusterID s |}.

(** [WithClusterID] *)
Definition WithClusterID (id : string) : Option :=
  fun s => {| serviceHost := serviceHost s; clusterID := id |}.

(** [NewBuiltInTopologyService] *)
Definition NewBuiltInTopologyService (opts : list Option) : BuiltInTopologyService :=
  fold_left (fun s opt => opt s) opts {| serviceHost := ""; clusterID := "" |}.

(** [ExpelResponse], as the decoder leaves it: [Data] is a pointer, which
    a JSON null sets to nil; of [Errors] only the length is read *)
Record ExpelResponse := {
  ExpelData : option bool;
  ExpelErrors : list (option string);
}.

(** what [http.Post] followed by the response's decoding comes to *)
Inductive ExpelReply :=
  | ExpelPostError (msg : string)
  | ExpelDecodeError (msg : string)
  | ExpelDecoded (resp : ExpelResponse).

(** the body [Expel] posts: the UUID is read from the annotation
    tarantool.io/instance_uuid, and its quotes are escaped in the query *)
Definition expelBody (pod : Pod) : string :=
  let req :=
    "mutation {expel_instance:expel_server(uuid:\" +:+ dquote
      +:+ GoMap.get (Annotations (PodMeta pod)) "tarantool.io/instance_uuid"
      +:+ "\" +:+ dquote +:+ ")}" in
  "{" +:+ dquote +:+ "query" +:+ dquote +:+ ": " +:+ dquote +:+ req +:+ dquote +:+ "}".

(** [Expel]; [post host body] is the answer to [http.Post] at [host] with
    the JSON [body], decoded *)
Definition Expel (post : string -> string -> ExpelReply) (s : BuiltInTopologyService)
    (pod : Pod) : Outcome (option error) :=
  match post (serviceHost s) (expelBody pod) with
  | ExpelPostError msg => Next (Some (externalError msg))
  | ExpelDecodeError msg => Next (Some (externalError msg))
  | ExpelDecoded resp =>
      match ExpelData resp with
      | None => Panic
      | Some ExpelInstance =>
          if negb ExpelInstance && (length (ExpelErrors resp) =? 0)%nat
          then Next (Some (errorString "something really bad happened"))
          else Next None
      end
  end.

(** [Join] finds on the pod what it needs to build its request *)
Definition joinable (pod : Pod) : Prop :=
  let labels := Labels (PodMeta pod) in
  is_Some (GoMap.lookup labels "tarantool.io/replicaset-uuid") /\
  is_Some (GoMap.lookup labels "tarantool.io/instance-uuid") /\
  (exists roles, GetRoles pod = inr roles) /\
  exists useVshardGroups,
    GoMap.lookup labels "tarantool.io/useVshardGroups" = Some useVshardGroups /\
    (useVshardGroups = "1" ->
     is_Some (GoMap.lookup labels "tarantool.io/vshardGroupName")).

(** from [w] to [w'] at most one request was sent, to the topology service
    at [host], and nothing else happened *)
Definition askedOnce (host : string) (w w' : World) : Prop :=
  store w' = store w /\ cluster w' = cluster w /\ items w' = items w /\
  (trace w' = trace w \/ exists call, trace w' = trace w ++ [Topology host call]).

(** whenever [m] makes [Reconcile] return, the result and the error it
    returns pass [R] *)
Definition endsWith {A} (R : Result -> option error -> Prop) (m : M A) : Prop :=
  forall w res err, (m w).1 = Return res err -> R res err.

(** what [Reconcile] can return: a requeue in five seconds with or without
    an error, an immediate requeue without one, or no requeue, without an
    error or with the failure of the update of the cluster's annotations *)
Definition passResult (res : Result) (err : option error) : Prop :=
  res = RequeueAfter5s \/
  (res = RequeueNow /\ err = None) \/
  (res = NoRequeue /\
   (err = None \/
    exists e, err = Some (errorString ("Update cluster annotations failed: " +:+ Error e)))).

(** the requests a pass sends through its client: never a weight query,
    never a failover switched off *)
Definition passCall (c : TopologyCall) : bool :=
  match c with
  | GetWeightCall _ => false
  | FailoverCall enabled => enabled
  | _ => true
  end.

(** a request to the API server, or a request of a pass to [host] *)
Definition sentTo (host : string) (e : Event) : Prop :=
  match e with
  | Api _ => True
  | Topology h c => h = host /\ passCall c = true
  end.

(** the store [s'] holds objects under the same keys as [s]: the same
    clusters and pods, the same StatefulSets and roles in the same order;
    a Service can have been added *)
Definition sameObjects (s s' : Store) : Prop :=
  (forall key, is_Some (Clusters s' !! key) <-> is_Some (Clusters s !! key)) /\
  (forall key, is_Some (Pods s' !! key) <-> is_Some (Pods s !! key)) /\
  (forall key, is_Some (Services s !! key) -> is_Some (Services s' !! key)) /\
  map (fun x => keyOf (StsMeta x)) (StatefulSets s')
  = map (fun x => keyOf (StsMeta x)) (StatefulSets s) /\
  map (fun x => keyOf (RoleMeta x)) (Roles s')
  = map (fun x => keyOf (RoleMeta x)) (Roles s).

(** ** The watch on StatefulSets *)

(** the function [SetupWithManager] maps the events of StatefulSets with:
    the requests to enqueue for the object with the metadata [a] *)
Definition enqueue (a : ObjectMeta) : list Request :=
  match GoMap.lookup (Labels a) "tarantool.io/cluster-id" with
  | Some clusterName => [ {| ReqNamespace := Namespace a; ReqName := clusterName |} ]
  | None => []
  end.

(** ** A cluster with nothing left to do *)

(** a request that writes nothing: a read of the API server, a weight set
    again, a query for the roles *)
Definition idle (e : Event) : Prop :=
  match e with
  | Api (GetClusterCall _) | Api ListRolesCall | Api (GetServiceCall _)
  | Api ListStatefulSetsCall | Api (GetPodCall _) => True
  | Topology _ (SetWeightCall _ _) | Topology _ (GetRolesCall _) => True
  | _ => False
  end.

(** from [w] to [w'] only idle requests were sent and nothing else
    happened *)
Definition idles (w w' : World) : Prop :=
  store w' = store w /\ items w' = items w /\ cluster w' = cluster w /\
  exists evs, trace w' = trace w ++ evs /\ Forall idle evs.

(** the StatefulSet has nothing left to converge: its instances have their
    UUIDs and are joined, its weight is a number other than the drain's
    "0", and it is marked bootstrapped and with failover enabled *)
Definition converged (req : Request) (s : Store) (sts : StatefulSet) : Prop :=
  let annotations := Annotations (StsMeta sts) in
  let weight := GoMap.get annotations "tarantool.io/replicaset-weight" in
  allAssigned req s sts /\ allJoined req s sts /\
  isDecimal weight = true /\ decimalValue weight 0 <= 2 ^ 32 - 1 /\ weight <> "0" /\
  GoMap.get annotations "tarantool.io/isBootstrapped" = "1" /\
  GoMap.get annotations "tarantool.io/failoverEnabled" = "1".

(** from the request numbered [base] on, the topology service accepts
    every weight and reports for each StatefulSet of [l] the roles it asks
    for *)
Definition agrees (env : Env) (base : nat) (l : list StatefulSet) : Prop :=
  (forall n host uuid weight,
     (base <= n)%nat -> runBool env n host (SetWeightCall uuid weight) = inr true) /\
  (forall n host sts,
     (base <= n)%nat -> In sts l ->
     exists rs rest roles,
       runReplicasets env n host (GetRolesCall (replicasetUUID sts)) = inr (Some rs :: rest) /\
       GetRoles (StsMeta sts) = inr roles /\
       IsRolesEquals (RsRoles rs) roles = true).

(** ** Role specifications as text *)

(** a byte a JSON string literal holds as it is: printable ASCII other
    than the quote and the backslash *)
Definition plainByte (c : ascii) : bool :=
  let b := JSON.code c in
  (32 <=? b) && (b <? 128) && negb (b =? 34) && negb (b =? 92).

Fixpoint plain (s : string) : bool :=
  match s with
  | EmptyString => true
  | String c r => plainByte c && plain r
  end.





(** ** Joins that do not end the pass *)






(** ** More concrete clusters *)

Module Scene.





(** a cluster that names no leader yet *)
Definition leaderless : Cluster :=
  {| ClusterMeta := Fixture.meta "default" "tnt" None None;
     Selector := Some {| MatchLabels := None; MatchExpressions := [] |};
     State := "" |}.

(** the leaderless cluster with its Service and one instance that waits
    for its join *)
Definition firstPass : World :=
  {| store :=
       {| Clusters := {[ ("default", "tnt") := leaderless ]};
          Roles := [];
          Services := {[ ("default", "tnt") := Fixture.headless ]};
          StatefulSets := [Fixture.rsA "1" 1];
          Pods := {[ ("default", "rs-A-0") := Fixture.assigned "rs-A-0" ]} |};
     trace := []; cluster := Fixture.newCluster; items := [] |}.

(** a StatefulSet without annotations *)
Definition plain : StatefulSet :=
  {| StsMeta := Fixture.meta "default" "rs-A"
                  (Some {[ "tarantool.io/replicaset-uuid" := "rs-uuid-A" ]}) None;
     Replicas := 1; ServiceName := "tnt" |}.

(** a pod without labels *)
Definition unlabelled : Pod :=
  {| PodMeta := Fixture.meta "default" "rs-A-0" None None; JoinedMarker := None |}.

(** a StatefulSet whose name starts with the name of "rs-A" *)
Definition longer : StatefulSet := Fixture.group "rs-AB" "rs-uuid-B" "1" 1.

(** a StatefulSet with the label of its cluster *)
Definition labelled : ObjectMeta :=
  Fixture.meta "default" "rs-A" (Some {[ "tarantool.io/cluster-id" := "tnt" ]}) None.

(** a StatefulSet with its weight and both progress flags *)
Definition done : StatefulSet :=
  {| StsMeta :=
       Fixture.meta "default" "rs-A"
         (Some {[ "tarantool.io/replicaset-uuid" := "rs-uuid-A";
                  "tarantool.io/rolesToAssign" := "storage" ]})
         (Some {[ "tarantool.io/replicaset-weight" := "1";
                  "tarantool.io/isBootstrapped" := "1";
                  "tarantool.io/failoverEnabled" := "1" ]});
     Replicas := 2;
     ServiceName := "tnt" |}.

(** the cluster "tnt" with that StatefulSet and its two joined instances *)
Definition settled : World :=
  Fixture.world [done] [Fixture.joined "rs-A-0"; Fixture.joined "rs-A-1"].

(** an API server that refuses every update of a pod and of a cluster
    with a conflict *)
Definition conflicting : Env :=
  {| apiFault := fun _ c =>
       match c with
       | UpdatePodCall _ | UpdateClusterCall _ =>
           Some (StatusError StatusReasonConflict "conflict")
       | _ => None
       end;
     LabelSelectorAsSelector := LabelSelectorAsSelector Fixture.calm;
     runBool := runBool Fixture.calm;
     runUnit := runUnit Fixture.calm;
     runReplicasets := runReplicasets Fixture.calm;
     runServerStat := runServerStat Fixture.calm;
     post := post Fixture.calm |}.



(** the topology service reports every instance as already joined and the
    API server refuses the updates of pods *)
Definition refusedMarks : Env :=
  {| apiFault := apiFault conflicting;
     LabelSelectorAsSelector := LabelSelectorAsSelector Fixture.calm;
     runBool := fun _ _ _ => inl "already joined";
     runUnit := runUnit Fixture.calm;
     runReplicasets := runReplicasets Fixture.calm;
     runServerStat := runServerStat Fixture.calm;
     post := post Fixture.calm |}.

End Scene.

(** * Properties *)

(** ** Instance UUIDs *)

Example sha1_abc :
  UUID.hex (UUID.sha1 (Strings.bytes "abc"))
  = "a9993e364706816aba3e25717850c26c9cd0d89d".
Proof. vm_compute. reflexivity. Qed.

Example sha1_70 :
  UUID.hex (UUID.sha1 (repeat 97 70))
  = "ed6c69d9e8b4373af86303dfaa3528dfbc129902".
Proof. vm_compute. reflexivity. Qed.

Example uuid_storage_0 :
  UUID.String (UUID.NewSHA1 space (Strings.bytes "storage-0"))
  = "dfec6d2c-d8b4-5c3a-b5b4-eb8ae370582c".
Proof. vm_compute. reflexivity. Qed.

Lemma GoMap_lookup_set (m m' : GoMap) (k v : string) :
  GoMap.set m k v = Some m' -> GoMap.lookup m' k = Some v.
Proof.
  destruct m as [g|]; simpl; intros H; [|discriminate].
  injection H as <-. simpl. apply lookup_insert_eq.
Qed.

Lemma GoMap_set_twice (m m' : GoMap) (k v : string) :
  GoMap.set m k v = Some m' -> GoMap.set m' k v = Some m'.
Proof.
  destruct m as [g|]; simpl; intros H; [|discriminate].
  injection H as <-. simpl. by rewrite insert_insert_eq.
Qed.

(** C9.  The label [SetInstanceUUID] writes is a function of the pod's name
    alone, the UUID of that name under the fixed name space, and applying
    [SetInstanceUUID] to its own result changes nothing. *)
Theorem SetInstanceUUID_deterministic (o o' : Pod) :
  SetInstanceUUID o = Some o' ->
  (Name (PodMeta o) <> "" ->
   GoMap.lookup (Labels (PodMeta o')) "tarantool.io/instance-uuid"
   = Some (instanceUUID (Name (PodMeta o)))) /\
  Name (PodMeta o') = Name (PodMeta o) /\
  SetInstanceUUID o' = Some o'.
Proof.
  unfold SetInstanceUUID. destruct o as [[n ns u l a r] j]; simpl.
  destruct n as [|c n]; simpl.
  - intros [= <-]. simpl. split; [congruence | split; reflexivity].
  - destruct (GoMap.set l _ _) as [l'|] eqn:Hset; [|discriminate].
    intros [= <-]. simpl. split; [|split].
    + intros _. exact (GoMap_lookup_set _ _ _ _ Hset).
    + reflexivity.
    + by rewrite (GoMap_set_twice _ _ _ _ Hset).
Qed.

(** C10.  A pod whose name is empty comes back unchanged. *)
Theorem SetInstanceUUID_empty_name (o : Pod) :
  Name (PodMeta o) = "" -> SetInstanceUUID o = Some o.
Proof. unfold SetInstanceUUID. intros ->. reflexivity. Qed.

(** ** The topology client *)

Section ClientFacts.

Variable env : Env.

Lemma digits_reject (s : string) (n : Z) :
  forallb decimalDigit (list_ascii_of_string s) = false ->
  exists e, Strconv.digits s n = inl e.
Proof.
  revert n. induction s as [|c r IH]; intros n; simpl; [discriminate|].
  unfold decimalDigit at 1. set (k := Strconv.code c).
  destruct ((48 <=? k) && (k <=? 57)) eqn:Hd; simpl.
  - intros Hr.
    assert ((10 <=? k - 48) = false) as -> by lia.
    destruct (Strconv.cutoff <=? n); [by eexists|].
    match goal with |- context [if ?b then _ else _] => destruct b end;
      [by eexists | by apply IH].
  - intros _.
    destruct ((97 <=? Strconv.lower k) && (Strconv.lower k <=? 122)) eqn:Hl;
      [|by eexists].
    assert ((10 <=? Strconv.lower k - 97 + 10) = true) as -> by lia.
    by eexists.
Qed.

(** C7.  A weight that is not a non-empty string of decimal digits makes
    [SetWeight] return the parse error of [strconv.ParseUint] and leaves the
    world as it was: nothing is sent, nothing is logged. *)
Theorem SetWeight_rejects_non_numeric (s : BuiltInTopologyService)
    (replicasetUUID replicaWeight : string) (w : World) :
  isDecimal replicaWeight = false ->
  exists e,
    SetWeight env s replicasetUUID replicaWeight w
    = (Next (Some (NumError "ParseUint" replicaWeight e)), w).
Proof.
  unfold SetWeight, Strconv.ParseUint, isDecimal.
  destruct replicaWeight as [|c r]; [intros _; by eexists|].
  intros H. destruct (digits_reject _ 0 H) as [e ->]. by eexists.
Qed.

Lemma GetRoles_error {A} `{ObjectWithMeta A} (obj : A) (e : error) :
  GetRoles obj = inl e -> exists msg, e = errorString msg.
Proof.
  unfold GetRoles. repeat case_match; intros [= <-]; by eexists.
Qed.






End ClientFacts.

Lemma SetInstanceUUID_deterministic_witness :
  GoMap.lookup (Labels (PodMeta (Fixture.assigned "storage-0")))
    "tarantool.io/instance-uuid"
  = Some "dfec6d2c-d8b4-5c3a-b5b4-eb8ae370582c" /\
  SetInstanceUUID (Fixture.assigned "storage-0") = Some (Fixture.assigned "storage-0").
Proof.
  assert (H : SetInstanceUUID (Fixture.fresh "storage-0")
              = Some (Fixture.assigned "storage-0")) by reflexivity.
  destruct (SetInstanceUUID_deterministic _ _ H) as (Hl & _ & Hi).
  split; [|exact Hi].
  rewrite Hl; [|discriminate]. vm_compute. reflexivity.
Defined.

Lemma SetInstanceUUID_empty_name_witness :
  SetInstanceUUID (Fixture.fresh "") = Some (Fixture.fresh "").
Proof. apply SetInstanceUUID_empty_name. reflexivity. Defined.

Lemma SetWeight_rejects_abc :
  exists e,
    SetWeight Fixture.calm Fixture.client "rs-uuid-A" "abc" Fixture.blank
    = (Next (Some (NumError "ParseUint" "abc" e)), Fixture.blank).
Proof. apply SetWeight_rejects_non_numeric. reflexivity. Defined.

(** a weight of decimal digits is refused as well when it does not fit 32
    bits, again with nothing sent *)
Example SetWeight_rejects_out_of_range :
  SetWeight Fixture.calm Fixture.client "rs-uuid-A" "4294967296" Fixture.blank
  = (Next (Some (NumError "ParseUint" "4294967296" ErrRange)), Fixture.blank).
Proof. reflexivity. Qed.

Example SetWeight_sends_decimal :
  SetWeight Fixture.calm Fixture.client "rs-uuid-A" "10" Fixture.blank
  = (Next None,
     logged (Topology (serviceHost Fixture.client) (SetWeightCall "rs-uuid-A" 10))
       Fixture.blank).
Proof. reflexivity. Qed.


(** ** Role derivation *)

Lemma SplitByte_not_nil sep s : Strings.SplitByte sep s <> [].
Proof.
  destruct s as [|c r]; simpl; [done|].
  destruct (Ascii.eqb c sep); [done|]. by destruct (Strings.SplitByte sep r).
Qed.

Lemma SplitByte_concat sep s :
  String.concat (String sep EmptyString) (Strings.SplitByte sep s) = s.
Proof.
  induction s as [|c r IH]; simpl; [done|].
  pose proof (SplitByte_not_nil sep r) as Hne.
  destruct (Ascii.eqb_spec c sep) as [->|Hc].
  - destruct (Strings.SplitByte sep r) as [|f fs]; [done|].
    simpl in *. by rewrite IH.
  - destruct (Strings.SplitByte sep r) as [|f fs]; [done|].
    destruct fs as [|g gs]; simpl in *; by rewrite <- IH.
Qed.

Lemma SplitByte_fields sep s field :
  In field (Strings.SplitByte sep s) -> ~ In sep (list_ascii_of_string field).
Proof.
  revert field. induction s as [|c r IH]; simpl; intros field.
  - intros [<-|[]]. simpl. tauto.
  - destruct (Ascii.eqb_spec c sep) as [->|Hc].
    + intros [<-|Hin]; [simpl; tauto | by apply IH].
    + destruct (Strings.SplitByte sep r) as [|f fs].
      * intros [<-|[]]. simpl. intros [?|[]]. done.
      * intros [<-|Hin].
        -- simpl. intros [?|Hf]; [done|]. by apply (IH f); [left|].
        -- apply IH. by right.
Qed.


(** *** Role specifications [encoding/json] accepts *)


















(** ** Invariants of a pass, generically *)

Lemma inv_ret {A} (I : World -> Prop) (a : A) : inv I (ret a).
Proof. by intros w. Qed.

Lemma inv_returns {A} (I : World -> Prop) res err : inv I (@returns A res err).
Proof. by intros w. Qed.

Lemma inv_panic {A} (I : World -> Prop) : inv I (@panic A).
Proof. by intros w. Qed.

Lemma inv_bind {A B} (I : World -> Prop) (m : M A) (k : A -> M B) :
  inv I m -> (forall a, inv I (k a)) -> inv I (bind m k).
Proof.
  intros Hm Hk w Hw. unfold bind. specialize (Hm w Hw).
  destruct (m w) as [[a| |] w1]; simpl in *; [by apply Hk | done | done].
Qed.

Lemma inv_forM {A} (I : World -> Prop) (l : list A) (body : A -> M unit) :
  (forall x, inv I (body x)) -> inv I (forM_ l body).
Proof.
  intros Hb. induction l as [|x l IH]; simpl; [apply inv_ret|].
  apply inv_bind; [apply Hb | by intros _].
Qed.

Lemma inv_getWorld (I : World -> Prop) : inv I getWorld.
Proof. by intros w. Qed.

Lemma inv_item (I : World -> Prop) (k : nat) : inv I (item k).
Proof. intros w Hw. unfold item. by destruct (items w !! k). Qed.

Ltac inv_step :=
  lazymatch goal with
  | |- inv _ (bind _ _) => apply inv_bind; [|intros ?]
  | |- inv _ (ret _) => apply inv_ret
  | |- inv _ (returns _ _) => apply inv_returns
  | |- inv _ panic => apply inv_panic
  | |- inv _ getWorld => apply inv_getWorld
  | |- inv _ (item _) => apply inv_item
  | |- inv _ (forM_ _ _) => apply inv_forM; intros ?
  | |- inv _ (match ?x with _ => _ end) => destruct x
  end.

Section Stable.

Variable env : Env.
Variable I : World -> Prop.
Variable allowed : TopologyCall -> bool.

Hypothesis I_request : forall c, inv I (request env c).
Hypothesis I_send : forall R (answer : Env -> nat -> string -> TopologyCall -> R) s c,
  allowed c = true -> inv I (send env answer s c).
Hypothesis I_putPod : forall pod, inv I (modifyStore (putPod pod)).
Hypothesis I_putStatefulSet : forall sts, inv I (modifyStore (putStatefulSet sts)).
Hypothesis I_putRole : forall role, inv I (modifyStore (putRole role)).
Hypothesis I_putCluster : forall key f, inv I (modifyStore (putCluster key f)).
Hypothesis I_putService : forall svc, inv I (modifyStore (putService svc)).
Hypothesis I_setItems : forall l, inv I (setItems l).
Hypothesis I_writeAnnotation : forall k key value, inv I (writeAnnotation k key value).
Hypothesis I_cluster : forall f, inv I (modifyCluster f).

Hypothesis allow_join : forall a b c d e, allowed (JoinCall a b c d e) = true.
Hypothesis allow_failover : forall b, allowed (FailoverCall b) = true.
Hypothesis allow_setWeight : forall u n, allowed (SetWeightCall u n) = true.
Hypothesis allow_getWeight : forall u, allowed (GetWeightCall u) = true.
Hypothesis allow_setRoles : forall u r, allowed (SetRolesCall u r) = true.
Hypothesis allow_getRoles : forall u, allowed (GetRolesCall u) = true.
Hypothesis allow_serverStat : allowed ServerStatCall = true.
Hypothesis allow_bootstrap : allowed BootstrapVshardCall = true.

Ltac inv_auto :=
  repeat first
    [ inv_step
    | apply I_request | apply I_putPod | apply I_putStatefulSet | apply I_putRole
    | apply I_putCluster | apply I_putService | apply I_setItems
    | apply I_writeAnnotation | apply I_cluster
    | apply I_send; solve [auto] ].

Lemma inv_GetPod key : inv I (GetPod env key).
Proof. unfold GetPod. inv_auto. Qed.

Lemma inv_UpdatePod pod : inv I (UpdatePod env pod).
Proof. unfold UpdatePod. inv_auto. Qed.

Lemma inv_UpdateStatefulSet sts : inv I (UpdateStatefulSet env sts).
Proof. unfold UpdateStatefulSet. inv_auto. Qed.

Lemma inv_ListStatefulSets sel : inv I (ListStatefulSets env sel).
Proof. unfold ListStatefulSets. inv_auto. Qed.

Lemma inv_ListRoles sel : inv I (ListRoles env sel).
Proof. unfold ListRoles. inv_auto. Qed.

Lemma inv_UpdateRole role : inv I (UpdateRole env role).
Proof. unfold UpdateRole. inv_auto. Qed.

Lemma inv_GetCluster key : inv I (GetCluster env key).
Proof. unfold GetCluster. inv_auto. Qed.

Lemma inv_UpdateCluster c : inv I (UpdateCluster env c).
Proof. unfold UpdateCluster. inv_auto. Qed.

Lemma inv_UpdateClusterStatus c : inv I (UpdateClusterStatus env c).
Proof. unfold UpdateClusterStatus. inv_auto. Qed.

Lemma inv_GetService key : inv I (GetService env key).
Proof. unfold GetService. inv_auto. Qed.

Lemma inv_CreateService svc : inv I (CreateService env svc).
Proof. unfold CreateService. inv_auto. Qed.




Lemma inv_GetWeight s u : inv I (GetWeight env s u).
Proof. unfold GetWeight. inv_auto. Qed.





Lemma inv_getFailed {A} err : inv I (@getFailed A err).
Proof. unfold getFailed. inv_auto. Qed.

Lemma inv_SelectTopologyLeader l : inv I (SelectTopologyLeader env l).
Proof.
  induction l as [|sts l IH]; simpl; [inv_auto|].
  destruct (Replicas sts =? 0); [done|].
  apply inv_bind; [apply inv_GetPod | intros r; inv_auto].
Qed.

Lemma inv_IsTopologyLeaderExists l leader : inv I (IsTopologyLeaderExists env l leader).
Proof.
  induction l as [|sts l IH]; simpl; [inv_auto|].
  destruct (Replicas sts =? 0); [done|].
  apply inv_bind; [apply inv_GetPod | intros r].
  destruct r; [inv_auto|]. by destruct (String.eqb _ _); [inv_auto|].
Qed.

Lemma inv_ownRole role : inv I (ownRole env role).
Proof.
  unfold ownRole. apply inv_bind; [inv_auto | intros w].
  destruct (IsControlledBy _ _); [inv_auto|].
  destruct (SetControllerReference _ _); [inv_auto|].
  apply inv_bind; [apply inv_UpdateRole | intros ?; inv_auto].
Qed.

Lemma inv_ensureService : inv I (ensureService env).
Proof.
  unfold ensureService. apply inv_bind; [inv_auto | intros w].
  apply inv_bind; [apply inv_GetService | intros r].
  destruct r as [err|]; [|inv_auto].
  destruct (IsNotFound err); [|inv_auto].
  destruct (Selector _); [|inv_auto].
  destruct (SetControllerReference _ _); [inv_auto|].
  apply inv_bind; [apply inv_CreateService | intros ?; inv_auto].
Qed.

Lemma inv_resolveLeader : inv I (resolveLeader env).
Proof.
  unfold resolveLeader. apply inv_bind; [inv_auto | intros w].
  apply inv_bind; [apply inv_IsTopologyLeaderExists | intros [ex [e|]]]; [inv_auto|].
  apply inv_bind; [|intros _; inv_auto].
  destruct ex; [inv_auto|].
  apply inv_bind; [apply inv_SelectTopologyLeader | intros [l [e|]]]; [inv_auto|].
  apply inv_bind; [apply I_cluster | intros _].
  apply inv_bind; [apply inv_UpdateCluster | intros ?; inv_auto].
Qed.

Lemma inv_prelude req : inv I (prelude env req).
Proof.
  unfold prelude. apply inv_bind; [apply inv_GetCluster | intros [e|c]].
  { apply inv_getFailed. }
  apply inv_bind; [apply I_cluster | intros _].
  destruct (LabelSelectorAsSelector env _) as [e|sel]; [inv_auto|].
  apply inv_bind; [apply inv_ListRoles | intros [e|roles]].
  { apply inv_getFailed. }
  apply inv_bind; [apply inv_forM; intros; apply inv_ownRole | intros _].
  apply inv_bind; [apply inv_ensureService | intros _].
  apply inv_bind; [apply inv_ListStatefulSets | intros [e|l]].
  { apply inv_getFailed. }
  apply inv_bind; [apply I_setItems | intros _]. apply inv_resolveLeader.
Qed.












End Stable.

(** ** Invariants of the request log *)

Lemma traceInv_logged ok base e w :
  ok (length (trace w)) e -> traceInv ok base w -> traceInv ok base (logged e w).
Proof.
  intros He [Hb H]. split; simpl; [rewrite length_app; lia|].
  intros n e' Hn Hl. apply lookup_app_Some in Hl as [Hl|[Hge Hl]]; [by apply H|].
  destruct (n - length (trace w))%nat eqn:Hd; simpl in Hl; [|done].
  injection Hl as <-. by replace n with (length (trace w)) by lia.
Qed.

Lemma traceInv_same ok base w w' :
  trace w' = trace w -> traceInv ok base w -> traceInv ok base w'.
Proof. intros Ht [Hb H]. split; rewrite Ht; done. Qed.

Lemma traceInv_start ok w : traceInv ok (length (trace w)) w.
Proof.
  split; [done|]. intros n e Hn Hl. apply lookup_lt_Some in Hl. lia.
Qed.

Lemma traceInv_weaken (ok ok' : nat -> Event -> Prop) base w :
  (forall n e, ok n e -> ok' n e) -> traceInv ok base w -> traceInv ok' base w.
Proof. intros Hi [Hb H]. split; [done|]. intros n e Hn Hl. by apply Hi, H. Qed.

Section TraceStable.

Variable env : Env.
Variable ok : nat -> Event -> Prop.
Variable base : nat.
Variable allowed : TopologyCall -> bool.

Hypothesis ok_api : forall n c, ok n (Api c).
Hypothesis ok_topology : forall n h c, allowed c = true -> ok n (Topology h c).

Lemma trace_request c : inv (traceInv ok base) (request env c).
Proof. intros w Hw. by apply traceInv_logged. Qed.

Lemma trace_send R (answer : Env -> nat -> string -> TopologyCall -> R) s c :
  allowed c = true -> inv (traceInv ok base) (send env answer s c).
Proof. intros Hc w Hw. by apply traceInv_logged; [apply ok_topology|]. Qed.

Lemma trace_modifyStore f : inv (traceInv ok base) (modifyStore f).
Proof. intros w Hw. by eapply traceInv_same. Qed.

Lemma trace_setItems l : inv (traceInv ok base) (setItems l).
Proof. intros w Hw. by eapply traceInv_same. Qed.

Lemma trace_modifyCluster f : inv (traceInv ok base) (modifyCluster f).
Proof. intros w Hw. by eapply traceInv_same. Qed.

Lemma trace_writeAnnotation k key value :
  inv (traceInv ok base) (writeAnnotation k key value).
Proof.
  intros w Hw. unfold writeAnnotation.
  destruct (items w !! k); [|done]. destruct (GoMap.set _ _ _); [|done].
  by eapply traceInv_same.
Qed.

End TraceStable.

(** what is left to show once a generic invariant lemma is applied to an
    invariant of the request log: that the requests made pass [ok] *)
Ltac stable :=
  intros;
  lazymatch goal with
  | |- inv _ (request _ _) => apply trace_request
  | |- inv _ (modifyStore _) => apply trace_modifyStore
  | |- inv _ (setItems _) => apply trace_setItems
  | |- inv _ (modifyCluster _) => apply trace_modifyCluster
  | |- inv _ (writeAnnotation _ _ _) => apply trace_writeAnnotation
  | H : negb (?kind ?c) = true |- inv _ (send _ _ _ ?c) =>
      apply (trace_send _ _ _ (fun x => negb (kind x))); [|exact H]
  | |- _ => idtac
  end;
  intros; simpl; try done;
  try match goal with
      | H : negb (?kind ?c) = true |- ?kind ?c = false => by destruct (kind c)
      | H : negb (isJoinCall ?c) = true |- _ => by destruct c
      end.

Lemma prelude_api_only env req base :
  inv (traceInv (fun _ => isApi) base) (prelude env req).
Proof. apply inv_prelude; stable. Qed.

(** the calls a pass makes through everything but [Join] are never joins,
    those it makes through everything but [SetWeight] never weight changes *)
Lemma without_ok (kind : TopologyCall -> bool) :
  (forall n c, (fun (_ : nat) => without kind) n (Api c)) /\
  (forall n (h : string) c, negb (kind c) = true ->
     (fun (_ : nat) => without kind) n (Topology h c)).
Proof. split; [done|]. intros n h c. simpl. by destruct (kind c). Qed.

(** ** Weight changes wait for the joins *)




Lemma inv_step {A} (step : World -> World -> Prop) (I : World -> Prop) (m : M A) :
  (forall w w', step w w' -> I w -> I w') -> (forall w, step w (m w).2) -> inv I m.
Proof. intros HI Hm w Hw. by eapply HI. Qed.







Section Gating.

Variable env : Env.
Variable req : Request.













End Gating.



Section Weights.

Variable env : Env.
Variable req : Request.

Lemma GetPod_run key w :
  GetPod env key w =
  (Next match apiFault env (length (trace w)) (GetPodCall key) with
        | Some err => inl err
        | None =>
            match Pods (store w) !! key with
            | Some p => inr (namedPod key p)
            | None => inl (notFound key)
            end
        end,
   logged (Api (GetPodCall key)) w).
Proof.
  unfold GetPod, bind, request, getWorld. simpl.
  destruct (apiFault env _ _); [done|]. by destruct (Pods (store w) !! key).
Qed.

Lemma getFailed_not_next {A} err w (a : A) w' : getFailed err w <> (Next a, w').
Proof. unfold getFailed. by destruct (IsNotFound err). Qed.








End Weights.

(** ** A decisive join ends the pass *)

Section Joins.

Variable env : Env.
Variable req : Request.
Variable base : nat.

Local Abbreviation clean := (undecided env base).
Local Abbreviation guarded := (joinGuarded env base).











End Joins.


(** ** The scan over the pods *)

Lemma bind_assoc {A B C} (m : M A) (f : A -> M B) (g : B -> M C) w :
  bind (bind m f) g w = bind m (fun a => bind (f a) g) w.
Proof. unfold bind. by destruct (m w) as [[a| |] w1]. Qed.

Lemma bind_ext {A B} (m : M A) (f g : A -> M B) w :
  (forall a w', f a w' = g a w') -> bind m f w = bind m g w.
Proof. intros H. unfold bind. by destruct (m w) as [[a| |] w1]. Qed.

Lemma forM_app {A} (l1 l2 : list A) (body : A -> M unit) w :
  forM_ (l1 ++ l2) body w = bind (forM_ l1 body) (fun _ => forM_ l2 body) w.
Proof.
  revert w. induction l1 as [|x l1 IH]; intros w; simpl; [done|].
  rewrite bind_assoc. apply bind_ext. intros _ w'. apply IH.
Qed.

Lemma reads_refl w : reads w w.
Proof. repeat split. exists []. by rewrite app_nil_r. Qed.

Lemma reads_trans w1 w2 w3 : reads w1 w2 -> reads w2 w3 -> reads w1 w3.
Proof.
  intros (Hs & Hi & Hc & evs & Ht & Hf) (Hs' & Hi' & Hc' & evs' & Ht' & Hf').
  split; [congruence|]. split; [congruence|]. split; [congruence|].
  exists (evs ++ evs'). split; [by rewrite Ht', Ht, app_assoc | by apply Forall_app].
Qed.

Lemma reads_logged key w : reads w (logged (Api (GetPodCall key)) w).
Proof. repeat split. exists [Api (GetPodCall key)]. split; [done|]. by repeat constructor. Qed.

Lemma reads_accepts env w w' :
  reads w w' -> accepts env (length (trace w)) -> accepts env (length (trace w')).
Proof.
  intros (_ & _ & _ & evs & Ht & _) H n c Hn. apply H.
  rewrite Ht, length_app in Hn. lia.
Qed.


Section Scan.

Variable env : Env.
Variable req : Request.

Lemma HasInstanceUUID_named key p : HasInstanceUUID (namedPod key p) = HasInstanceUUID p.
Proof. done. Qed.

Lemma assignUUID_skip sts i w p :
  accepts env (length (trace w)) ->
  Pods (store w) !! (ReqNamespace req, podName sts i) = Some p ->
  HasInstanceUUID p = true ->
  exists w', assignUUID env req sts i w = (Next tt, w') /\ reads w w'.
Proof.
  intros Ha Hp Hu. unfold assignUUID, bind. rewrite GetPod_run, (Ha _ _ (le_n _)), Hp.
  rewrite HasInstanceUUID_named, Hu. eexists. split; [done | apply reads_logged].
Qed.

Lemma joinPod_skip s sts i w p :
  accepts env (length (trace w)) ->
  Pods (store w) !! (ReqNamespace req, podName sts i) = Some p ->
  IsJoined p = true ->
  exists w', joinPod env s req sts i w = (Next tt, w') /\ reads w w'.
Proof.
  intros Ha Hp Hj. unfold joinPod, bind. rewrite GetPod_run, (Ha _ _ (le_n _)), Hp.
  change (IsJoined (namedPod _ p)) with (IsJoined p). rewrite Hj.
  eexists. split; [done | apply reads_logged].
Qed.

(** a loop whose every turn only reads *)
Lemma skip_loop {A} (body : A -> M unit) (P : A -> Store -> Prop) l w :
  (forall x w, accepts env (length (trace w)) -> P x (store w) ->
     exists w', body x w = (Next tt, w') /\ reads w w') ->
  accepts env (length (trace w)) ->
  (forall x, In x l -> P x (store w)) ->
  exists w', forM_ l body w = (Next tt, w') /\ reads w w'.
Proof.
  intros Hbody. revert w. induction l as [|x l IH]; intros w Ha HP; simpl.
  { exists w. split; [done | apply reads_refl]. }
  destruct (Hbody x w Ha (HP x (or_introl eq_refl))) as (w1 & E1 & R1).
  destruct (IH w1) as (w2 & E2 & R2).
  - by eapply reads_accepts.
  - intros y Hy. destruct R1 as (-> & _). by apply HP; right.
  - exists w2. unfold bind. rewrite E1. split; [done | by eapply reads_trans].
Qed.

Lemma assign_loop_skip sts l w :
  accepts env (length (trace w)) ->
  (forall i, In i l ->
     exists p, Pods (store w) !! (ReqNamespace req, podName sts i) = Some p /\
               HasInstanceUUID p = true) ->
  exists w', forM_ l (assignUUID env req sts) w = (Next tt, w') /\ reads w w'.
Proof.
  apply (skip_loop _ (fun i s =>
    exists p, Pods s !! (ReqNamespace req, podName sts i) = Some p /\
              HasInstanceUUID p = true)).
  intros i w0 Ha (p & Hp & Hu). by eapply assignUUID_skip.
Qed.

Lemma join_loop_skip s sts l w :
  accepts env (length (trace w)) ->
  (forall i, In i l ->
     exists p, Pods (store w) !! (ReqNamespace req, podName sts i) = Some p /\
               IsJoined p = true) ->
  exists w', forM_ l (joinPod env s req sts) w = (Next tt, w') /\ reads w w'.
Proof.
  apply (skip_loop _ (fun i st =>
    exists p, Pods st !! (ReqNamespace req, podName sts i) = Some p /\
              IsJoined p = true)).
  intros i w0 Ha (p & Hp & Hu). by eapply joinPod_skip.
Qed.

Lemma lifecycle_skip s sts w :
  accepts env (length (trace w)) ->
  allAssigned req (store w) sts /\ allJoined req (store w) sts ->
  exists w', lifecycle env s req sts w = (Next tt, w') /\ reads w w'.
Proof.
  intros Ha [Hu Hj]. unfold lifecycle, bind.
  destruct (assign_loop_skip sts _ w Ha Hu) as (w1 & -> & R1).
  destruct (join_loop_skip s sts (upto (Replicas sts)) w1) as (w2 & -> & R2).
  - by eapply reads_accepts.
  - destruct R1 as (-> & _). exact Hj.
  - exists w2. split; [done | by eapply reads_trans].
Qed.

Lemma lifecycle_loop_skip s l w :
  accepts env (length (trace w)) ->
  (forall sts, In sts l -> allAssigned req (store w) sts /\ allJoined req (store w) sts) ->
  exists w', forM_ l (lifecycle env s req) w = (Next tt, w') /\ reads w w'.
Proof.
  apply (skip_loop _ (fun sts st => allAssigned req st sts /\ allJoined req st sts)).
  intros sts w0 Ha H. by apply lifecycle_skip.
Qed.

End Scan.

Lemma bind_next {A B} (m : M A) (k : A -> M B) w a w1 :
  m w = (Next a, w1) -> bind m k w = k a w1.
Proof. intros E. unfold bind. by rewrite E. Qed.


Lemma podName_not_empty sts i : (String.length (podName sts i) =? 0)%nat = false.
Proof. unfold podName. by destruct (Name (StsMeta sts)). Qed.

Section Assignment.

Variable env : Env.
Variable req : Request.


End Assignment.

(** ** Joins the scan gets past *)

Section Absorbed.

Variable env : Env.
Variable req : Request.














End Absorbed.

(** ** One UUID a pass *)

Section OneAssignment.

Variable env : Env.
Variable req : Request.


End OneAssignment.

(** ** The join stage *)


Section JoinStage.

Variable env : Env.
Variable req : Request.





End JoinStage.

(** ** The bootstrap stage *)

Section Bootstrap.

Variable env : Env.

Lemma BootstrapVshard_world s w :
  (BootstrapVshard env s w).2 = logged (Topology (serviceHost s) BootstrapVshardCall) w.
Proof.
  unfold BootstrapVshard, bind, send, classifyBootstrap. simpl.
  by repeat case_match.
Qed.

(** X28.  One bootstrap step, for a StatefulSet not yet marked
    bootstrapped, with a non-nil annotation map: after a plain success of
    [BootstrapVshard] the step goes on to the failover with nothing
    written and no error; after the already-bootstrapped error, when the
    API server accepts the two updates, the StatefulSet is stored with the
    bootstrapped annotation "1", the cluster with the state "Ready", and
    the pass returns asking for a requeue in five seconds, with no
    error. *)
Theorem bootstrap_outcomes topologyClient k w sts annotations :
  items w !! k = Some sts ->
  Annotations (StsMeta sts) = Some annotations ->
  GoMap.get (Annotations (StsMeta sts)) "tarantool.io/isBootstrapped" <> "1" ->
  ((BootstrapVshard env topologyClient w).1 = Next None ->
   bootstrap env topologyClient k w
   = (Next tt, (BootstrapVshard env topologyClient w).2)) /\
  ((BootstrapVshard env topologyClient w).1 = Next (Some errAlreadyBootstrapped) ->
   accepts env (length (trace w)) ->
   existsb (fun x => sameKey (StsMeta x) (StsMeta sts)) (StatefulSets (store w)) = true ->
   is_Some (Clusters (store w) !! keyOf (ClusterMeta (cluster w))) ->
   exists w',
     bootstrap env topologyClient k w = (Return RequeueAfter5s None, w') /\
     Forall (fun x =>
               sameKey (StsMeta x) (StsMeta sts) = true ->
               GoMap.lookup (Annotations (StsMeta x)) "tarantool.io/isBootstrapped"
               = Some "1")
            (StatefulSets (store w')) /\
     existsb (fun x => sameKey (StsMeta x) (StsMeta sts)) (StatefulSets (store w')) = true /\
     (State <$> Clusters (store w') !! keyOf (ClusterMeta (cluster w))) = Some "Ready").
Proof.
  intros Hk Hann Hne.
  assert (Hcond : negb (String.eqb
            (GoMap.get (Annotations (StsMeta sts)) "tarantool.io/isBootstrapped") "1") = true).
  { by destruct (String.eqb_spec
       (GoMap.get (Annotations (StsMeta sts)) "tarantool.io/isBootstrapped") "1"). }
  pose proof (BootstrapVshard_world topologyClient w) as Hw.
  split; unfold bootstrap; unfold bind at 1; unfold item; rewrite Hk, Hcond;
    unfold bind at 1; destruct (BootstrapVshard env topologyClient w) as [o w1];
    simpl in Hw; subst w1; simpl; intros ->; [done|].
  intros Ha Hex [c Hc]. simpl.
  unfold writeAnnotation, bind at 1. simpl. rewrite Hk, Hann. simpl.
  unfold bind at 1, item. simpl.
  rewrite list_lookup_insert_eq by (by eapply lookup_lt_Some).
  set (sts' := StsSetAnnotations sts _).
  unfold UpdateStatefulSet, UpdateClusterStatus, modifyCluster, modifyStore, getWorld,
    request, bind, returns, ret. simpl.
  rewrite !Ha by (rewrite ?length_app; simpl; lia).
  change (existsb _ (StatefulSets (store w)))
    with (existsb (fun x => sameKey (StsMeta x) (StsMeta sts)) (StatefulSets (store w))).
  rewrite Hex. simpl.
  rewrite !Ha by (rewrite ?length_app; simpl; lia). simpl.
  rewrite Hc. simpl.
  eexists. split; [done|]. simpl. split; [|split].
  - apply Stdlib.Lists.List.Forall_forall. intros x Hx.
    apply in_map_iff in Hx as (x0 & <- & Hx0).
    change (sameKey (StsMeta x0) (SetAnnotations (StsMeta sts) _))
      with (sameKey (StsMeta x0) (StsMeta sts)).
    destruct (sameKey (StsMeta x0) (StsMeta sts)) eqn:E.
    + intros _. simpl. apply lookup_insert_eq.
    + rewrite E. done.
  - apply existsb_exists in Hex as (x0 & Hx0 & E).
    apply existsb_exists. eexists. split; [apply in_map; exact Hx0|].
    change (sameKey (StsMeta x0) (SetAnnotations (StsMeta sts) _))
      with (sameKey (StsMeta x0) (StsMeta sts)).
    rewrite E. unfold sameKey. simpl. by rewrite !String.eqb_refl.
  - rewrite lookup_alter_eq, Hc. done.
Qed.

End Bootstrap.

(** ** The drain check *)

Section Drain.

Variable env : Env.

Lemma flagged_writeAnnotation k k' :
  inv (flagged k) (writeAnnotation k' "tarantool.io/scheduledDelete" "1").
Proof.
  intros w (sts & Hk & Hl). unfold writeAnnotation.
  destruct (items w !! k') as [sts'|] eqn:Hk'; [|by exists sts].
  destruct (GoMap.set _ _ _) as [a|] eqn:Ha; [|by exists sts]. simpl.
  destruct (decide (k = k')) as [<-|Hne].
  - exists (StsSetAnnotations sts' a). split.
    + apply list_lookup_insert_eq. by eapply lookup_lt_Some.
    + simpl. by eapply GoMap_lookup_set.
  - exists sts. split; [|done]. simpl. by rewrite list_lookup_insert_ne.
Qed.

Lemma flagged_checkBuckets k k' sts stat :
  inv (flagged k) (checkBuckets env k' sts stat).
Proof.
  unfold checkBuckets. destruct stat; [|by intros w H].
  destruct (Strings.HasPrefix _ _); [|by intros w H].
  destruct (_ =? 0); [|by intros w H].
  apply inv_bind; [apply flagged_writeAnnotation | intros _].
  apply inv_bind; [apply inv_item | intros ?].
  apply inv_bind; [|by intros ? w H].
  apply inv_UpdateStatefulSet; by intros ? w H.
Qed.

(** X1.  The check of lines 379-396 decides on each
    server of the statistics by itself: one server whose address starts
    with the name of the StatefulSet and that reports no bucket gets the
    scheduled-for-deletion annotation "1" written, and no later server of
    the statistics, whatever its bucket count, takes it back. *)
Theorem drain_flags_on_one_empty_instance k sts :
  (forall w it annotations stat,
     items w !! k = Some it ->
     Annotations (StsMeta it) = Some annotations ->
     Strings.HasPrefix (URI stat) (Name (StsMeta sts)) = true ->
     BucketsCount (StatStatistics stat) = 0 ->
     exists w', checkBuckets env k sts (Some stat) w = (Next tt, w') /\ flagged k w') /\
  (forall data, inv (flagged k) (forM_ data (checkBuckets env k sts))).
Proof.
  split.
  - intros w it annotations stat Hk Hann Hp Hb.
    assert (Hf : flagged k (writeAnnotation k "tarantool.io/scheduledDelete" "1" w).2).
    { unfold writeAnnotation. rewrite Hk, Hann. simpl.
      eexists. split; [apply list_lookup_insert_eq; by eapply lookup_lt_Some|].
      simpl. apply lookup_insert_eq. }
    revert Hf. unfold checkBuckets. rewrite Hp, Hb. simpl.
    unfold bind at 1. unfold writeAnnotation. rewrite Hk, Hann. simpl. intros Hf.
    unfold bind at 1, item. simpl.
    rewrite list_lookup_insert_eq by (by eapply lookup_lt_Some).
    match goal with
    | |- context [bind (UpdateStatefulSet env ?s) _ ?w0] =>
        pose proof (inv_UpdateStatefulSet env (flagged k)
                      ltac:(by intros ? ? ?) ltac:(by intros ? ? ?) s w0 Hf) as Hu;
        unfold bind;
        destruct (UpdateStatefulSet env s w0) as [[o| |] w1] eqn:E
    end; simpl in *.
    + by exists w1.
    + exfalso. revert E. unfold UpdateStatefulSet, bind, request, getWorld, modifyStore, ret.
      simpl. by repeat case_match.
    + exfalso. revert E. unfold UpdateStatefulSet, bind, request, getWorld, modifyStore, ret.
      simpl. by repeat case_match.
  - intros data. apply inv_forM. intros stat. apply flagged_checkBuckets.
Qed.

End Drain.

(** ** The weight loop and the joins *)

Section Ungated.

Variable env : Env.
Variable req : Request.











End Ungated.

(** ** The stages on inputs *)

(** C1, on an input: the StatefulSet "rs-A" has the weight "0" and two
    joined instances; the statistics report no bucket for the first and
    five for the second.  The pass ends without an error and the stored
    StatefulSet carries the scheduled-for-deletion annotation "1". *)
Lemma flag_set_with_buckets_left :
  let pass :=
    Reconcile (Fixture.reporting Fixture.unevenStats) Fixture.req (Fixture.twoJoined "0") in
  map (fun stat => BucketsCount (StatStatistics stat)) (omap id Fixture.unevenStats) = [0; 5] /\
  pass.1 = Return NoRequeue None /\
  map (fun sts => GoMap.lookup (Annotations (StsMeta sts)) "tarantool.io/scheduledDelete")
      (StatefulSets (store pass.2)) = [Some "1"].
Proof. vm_compute. by repeat split. Qed.

(** C2, on an input: every pod is joined and [BootstrapVshard] succeeds
    plainly.  The pass enables the failover and marks it on the
    StatefulSet, ends without an error, and leaves the StatefulSet without
    the bootstrapped annotation and the cluster state as it was; the next
    pass bootstraps again and leaves both as they were once more. *)
Lemma plain_success_sets_no_flag :
  let pass := Reconcile Fixture.calm Fixture.req (Fixture.twoJoined "1") in
  let next := Reconcile Fixture.calm Fixture.req pass.2 in
  topology (trace pass.2)
  = [SetWeightCall "rs-uuid-A" 1; GetRolesCall "rs-uuid-A"; BootstrapVshardCall;
     FailoverCall true] /\
  pass.1 = Return NoRequeue None /\
  map (fun sts => GoMap.lookup (Annotations (StsMeta sts)) "tarantool.io/isBootstrapped")
      (StatefulSets (store pass.2)) = [None] /\
  (State <$> Clusters (store pass.2) !! ("default", "tnt")) = Some "" /\
  map (fun sts => GoMap.lookup (Annotations (StsMeta sts)) "tarantool.io/failoverEnabled")
      (StatefulSets (store pass.2)) = [Some "1"] /\
  topology (skipn (length (trace pass.2)) (trace next.2))
  = [SetWeightCall "rs-uuid-A" 1; GetRolesCall "rs-uuid-A"; BootstrapVshardCall] /\
  next.1 = Return NoRequeue None /\
  map (fun sts => GoMap.lookup (Annotations (StsMeta sts)) "tarantool.io/isBootstrapped")
      (StatefulSets (store next.2)) = [None] /\
  (State <$> Clusters (store next.2) !! ("default", "tnt")) = Some "".
Proof. vm_compute. by repeat split. Qed.

(** The same pass when the service answers that vshard is already
    bootstrapped. *)
Lemma already_bootstrapped_sets_flag :
  let pass :=
    Reconcile (Fixture.refusing "vshard is already bootstrapped") Fixture.req
      (Fixture.twoJoined "1") in
  pass.1 = Return RequeueAfter5s None /\
  map (fun sts => GoMap.lookup (Annotations (StsMeta sts)) "tarantool.io/isBootstrapped")
      (StatefulSets (store pass.2)) = [Some "1"] /\
  (State <$> Clusters (store pass.2) !! ("default", "tnt")) = Some "Ready".
Proof. vm_compute. by repeat split. Qed.

Lemma bootstrap_outcomes_witness :
  exists w',
    bootstrap (Fixture.refusing "vshard is already bootstrapped") Fixture.client 0%nat
      (Fixture.listed [Fixture.rsA "1" 2] [Fixture.joined "rs-A-0"; Fixture.joined "rs-A-1"])
    = (Return RequeueAfter5s None, w') /\
    Forall (fun x =>
              sameKey (StsMeta x) (StsMeta (Fixture.rsA "1" 2)) = true ->
              GoMap.lookup (Annotations (StsMeta x)) "tarantool.io/isBootstrapped"
              = Some "1")
           (StatefulSets (store w')) /\
    existsb (fun x => sameKey (StsMeta x) (StsMeta (Fixture.rsA "1" 2)))
            (StatefulSets (store w')) = true /\
    (State <$> Clusters (store w') !! keyOf (ClusterMeta Fixture.tnt)) = Some "Ready".
Proof.
  apply (proj2 (bootstrap_outcomes
                  (Fixture.refusing "vshard is already bootstrapped") Fixture.client 0%nat
                  (Fixture.listed [Fixture.rsA "1" 2]
                     [Fixture.joined "rs-A-0"; Fixture.joined "rs-A-1"])
                  (Fixture.rsA "1" 2)
                  {[ "tarantool.io/replicaset-weight" := "1" ]}
                  eq_refl eq_refl ltac:(vm_compute; discriminate))).
  - vm_compute. reflexivity.
  - intros n c _. reflexivity.
  - vm_compute. reflexivity.
  - exists Fixture.tnt. vm_compute. reflexivity.
Defined.



(** when the API server refuses the update of the pod that is already
    joined, the pass returns that error and no pod is marked *)
Lemma refused_mark_ends_pass :
  let pass := Reconcile Scene.refusedMarks Fixture.req Fixture.twoAssigned in
  joins (trace pass.2) = ["rs-A-0.tnt.default.svc.cluster.local:3301"] /\
  pass.1 = Return RequeueAfter5s (Some (StatusError StatusReasonConflict "conflict")) /\
  map (fun n => IsJoined <$> Pods (store pass.2) !! ("default", n)) ["rs-A-0"; "rs-A-1"]
  = [Some false; Some false].
Proof. vm_compute. by repeat split. Qed.



(** The same input when the service reports the instance of the first
    group as already joined: the pass marks it joined and, going on, gives
    the instance of the second group its UUID. *)
Lemma assignment_after_already_joined :
  let pass := Reconcile (Fixture.failing "already joined") Fixture.req Fixture.twoGroups in
  pass.1 = Return RequeueNow None /\
  map (fun n => HasInstanceUUID <$> Pods (store pass.2) !! ("default", n))
      ["rs-A-0"; "rs-B-0"]
  = [Some true; Some true] /\
  map (fun n => IsJoined <$> Pods (store pass.2) !! ("default", n)) ["rs-A-0"; "rs-B-0"]
  = [Some true; Some false].
Proof. vm_compute. by repeat split. Qed.

(** C5, on an input: in the pass that joins the first of two unjoined
    instances no weight is set. *)
Lemma no_weight_before_joins :
  let pass := Reconcile Fixture.calm Fixture.req Fixture.twoAssigned in
  List.filter isSetWeightCall (topology (trace pass.2)) = [].
Proof. by vm_compute. Qed.


(** * Further properties *)

(** ** More on instance UUIDs *)

(** X2.  On a pod with a name and a label map, [SetInstanceUUID] writes the
    one label: [HasInstanceUUID] holds afterwards, every other label, the
    rest of the metadata and the joined marker are as they were. *)
Theorem SetInstanceUUID_frame (o : Pod) (labels : gmap string string) :
  Name (PodMeta o) <> "" ->
  Labels (PodMeta o) = Some labels ->
  exists o',
    SetInstanceUUID o = Some o' /\
    HasInstanceUUID o' = true /\
    Labels (PodMeta o')
    = Some (<["tarantool.io/instance-uuid" := instanceUUID (Name (PodMeta o))]> labels) /\
    (forall k, k <> "tarantool.io/instance-uuid" ->
       GoMap.lookup (Labels (PodMeta o')) k = GoMap.lookup (Labels (PodMeta o)) k) /\
    SetLabels (PodMeta o') (Labels (PodMeta o)) = PodMeta o /\
    JoinedMarker o' = JoinedMarker o.
Proof.
  intros Hn Hl. unfold SetInstanceUUID, HasInstanceUUID.
  destruct o as [[n ns u l a r] j]; simpl in *. subst l.
  destruct n as [|c n]; [done|]. simpl.
  eexists. split; [reflexivity|]. simpl.
  rewrite lookup_insert_eq. repeat split.
  intros k Hk. by rewrite lookup_insert_ne.
Qed.

Lemma SetInstanceUUID_frame_witness :
  exists o',
    SetInstanceUUID (Fixture.fresh "rs-A-0") = Some o' /\
    HasInstanceUUID o' = true /\
    GoMap.lookup (Labels (PodMeta o')) "tarantool.io/rolesToAssign" = Some "storage".
Proof.
  destruct (SetInstanceUUID_frame (Fixture.fresh "rs-A-0") Fixture.podLabels)
    as (o' & H1 & H2 & _ & H4 & _); [done | done |].
  exists o'. split; [exact H1|]. split; [exact H2|].
  rewrite H4 by done. vm_compute. reflexivity.
Defined.

(** ** Roles from a label *)

(** X3.  With no roles annotation, the roles [GetRoles] reads from the
    label are its fields between the dots: there is at least one, none
    holds a dot, and joined by dots they give the label back. *)
Theorem GetRoles_from_label {A} `{ObjectWithMeta A} (obj : A) (v : string) :
  GoMap.lookup (GetAnnotations obj) "tarantool.io/rolesToAssign" = None ->
  GoMap.lookup (GetLabels obj) "tarantool.io/rolesToAssign" = Some v ->
  exists roles,
    GetRoles obj = inr roles /\
    roles <> [] /\
    String.concat "." roles = v /\
    forall role, In role roles -> ~ In "."%char (list_ascii_of_string role).
Proof.
  intros Ha Hl. unfold GetRoles. rewrite Ha, Hl. eexists. split; [reflexivity|].
  split; [apply SplitByte_not_nil|]. split; [apply SplitByte_concat|].
  intros role. apply SplitByte_fields.
Qed.

Lemma GetRoles_from_label_witness :
  exists roles,
    GetRoles (Fixture.meta "default" "rs-A" (Some {[ "tarantool.io/rolesToAssign" := "storage.router" ]}) None)
    = inr roles /\
    roles <> [] /\
    String.concat "." roles = "storage.router" /\
    forall role, In role roles -> ~ In "."%char (list_ascii_of_string role).
Proof.
  apply (GetRoles_from_label
           (Fixture.meta "default" "rs-A"
              (Some {[ "tarantool.io/rolesToAssign" := "storage.router" ]}) None));
    vm_compute; reflexivity.
Defined.

(** ** Weights of decimal digits *)

Lemma decimalValue_ge s n :
  forallb decimalDigit (list_ascii_of_string s) = true -> 0 <= n -> n <= decimalValue s n.
Proof.
  revert n. induction s as [|c r IH]; intros n; simpl; [lia|].
  unfold decimalDigit at 1. intros Hd Hn.
  apply andb_true_iff in Hd as [Hc Hr].
  specialize (IH (n * 10 + (Strconv.code c - 48)) Hr). lia.
Qed.

Lemma digits_decimal s n :
  forallb decimalDigit (list_ascii_of_string s) = true ->
  0 <= n <= Strconv.maxVal ->
  Strconv.digits s n
  = if decimalValue s n <=? Strconv.maxVal then inr (decimalValue s n) else inl ErrRange.
Proof.
  revert n. induction s as [|c r IH]; intros n; simpl.
  - intros _ Hn. by assert ((n <=? Strconv.maxVal) = true) as -> by lia.
  - unfold decimalDigit at 1. intros Hd Hn.
    apply andb_true_iff in Hd as [Hc Hr]. rewrite Hc.
    set (k := Strconv.code c) in *.
    assert (Hmax : Strconv.maxVal = 4294967295) by reflexivity.
    assert (Hcut : Strconv.cutoff = 1844674407370955162) by reflexivity.
    assert ((10 <=? k - 48) = false) as -> by lia.
    assert ((Strconv.cutoff <=? n) = false) as -> by lia.
    change (2 ^ 64) with 18446744073709551616.
    rewrite (Z.mod_small (n * 10)) by lia.
    rewrite (Z.mod_small (n * 10 + (k - 48))) by lia.
    assert ((n * 10 + (k - 48) <? n * 10) = false) as -> by lia. simpl.
    destruct (Strconv.maxVal <? n * 10 + (k - 48)) eqn:Hov.
    + pose proof (decimalValue_ge r (n * 10 + (k - 48)) Hr ltac:(lia)).
      by assert ((decimalValue r (n * 10 + (k - 48)) <=? Strconv.maxVal) = false) as -> by lia.
    + apply IH; [done | lia].
Qed.

Section WeightFacts.

Variable env : Env.

(** X4.  A weight of decimal digits is sent as the number it writes when
    that fits 32 bits, in one request whose answer decides the result; a
    larger one is refused as out of range with nothing sent. *)
Theorem SetWeight_decimal (s : BuiltInTopologyService) (replicasetUUID replicaWeight : string)
    (w : World) :
  isDecimal replicaWeight = true ->
  let weightParam := decimalValue replicaWeight 0 in
  let call := SetWeightCall replicasetUUID weightParam in
  (weightParam <= 2 ^ 32 - 1 ->
   SetWeight env s replicasetUUID replicaWeight w
   = (Next match runBool env (length (trace w)) (serviceHost s) call with
           | inl msg => Some (externalError msg)
           | inr true => None
           | inr false => Some (errorString "something really bad happened")
           end,
      logged (Topology (serviceHost s) call) w)) /\
  (2 ^ 32 - 1 < weightParam ->
   SetWeight env s replicasetUUID replicaWeight w
   = (Next (Some (NumError "ParseUint" replicaWeight ErrRange)), w)).
Proof.
  intros Hd weightParam call. unfold SetWeight, Strconv.ParseUint, isDecimal in *.
  destruct replicaWeight as [|c r]; [done|].
  rewrite (digits_decimal _ 0 Hd) by (unfold Strconv.maxVal; lia).
  fold weightParam. change Strconv.maxVal with (2 ^ 32 - 1). split; intros Hv.
  - assert ((weightParam <=? 2 ^ 32 - 1) = true) as -> by lia.
    unfold bind, send. simpl. fold call.
    by destruct (runBool env _ _ _) as [msg|[]].
  - by assert ((weightParam <=? 2 ^ 32 - 1) = false) as -> by lia.
Qed.

End WeightFacts.

Lemma SetWeight_decimal_witness :
  SetWeight Fixture.calm Fixture.client "rs-uuid-A" "007" Fixture.blank
  = (Next None,
     logged (Topology (serviceHost Fixture.client) (SetWeightCall "rs-uuid-A" 7))
       Fixture.blank).
Proof.
  apply (proj1 (SetWeight_decimal Fixture.calm Fixture.client "rs-uuid-A" "007"
                  Fixture.blank eq_refl)).
  vm_compute. discriminate.
Defined.

Example wellFormedV5_storage_0 :
  wellFormedV5 "dfec6d2c-d8b4-5c3a-b5b4-eb8ae370582c" = true
  /\ wellFormedV5 "dfec6d2c-d8b4-4c3a-b5b4-eb8ae370582c" = false
  /\ wellFormedV5 "DFEC6D2C-D8B4-5C3A-B5B4-EB8AE370582C" = false.
Proof. vm_compute. by repeat split. Qed.

Lemma land_255 x : 0 <= Z.land x 255 < 256.
Proof.
  change 255 with (Z.ones 8). rewrite Z.land_ones by lia.
  apply Z.mod_pos_bound. lia.
Qed.

Lemma be_bytes_4 x :
  UUID.be_bytes 4 x
  = [Z.land (Z.shiftr x 24) 255; Z.land (Z.shiftr x 16) 255;
     Z.land (Z.shiftr x 8) 255; Z.land (Z.shiftr x 0) 255].
Proof. reflexivity. Qed.

Lemma sha1_bytes msg :
  length (UUID.sha1 msg) = 20%nat /\ Forall (fun b => 0 <= b < 256) (UUID.sha1 msg).
Proof.
  unfold UUID.sha1. destruct (UUID.blocks _ _ _) as [[[[h0 h1] h2] h3] h4].
  rewrite !be_bytes_4. split; [reflexivity|].
  repeat (apply Forall_cons; split; [apply land_255|]). apply Forall_nil. done.
Qed.

Lemma hexdigit_lower d : 0 <= d < 16 -> isLowerHex (UUID.hexdigit d) = true.
Proof.
  intros Hd.
  assert (H : d = 0 \/ d = 1 \/ d = 2 \/ d = 3 \/ d = 4 \/ d = 5 \/ d = 6 \/ d = 7 \/
              d = 8 \/ d = 9 \/ d = 10 \/ d = 11 \/ d = 12 \/ d = 13 \/ d = 14 \/ d = 15)
    by lia.
  repeat (destruct H as [->|H]; [reflexivity|]). by subst.
Qed.

Lemma version_nibble x : Z.lor (Z.land x 15) 80 / 16 = 5.
Proof.
  assert (Hx : 0 <= Z.land x 15 < 16).
  { change 15 with (Z.ones 4). rewrite Z.land_ones by lia. apply Z.mod_pos_bound. lia. }
  set (y := Z.land x 15) in *.
  assert (H : y = 0 \/ y = 1 \/ y = 2 \/ y = 3 \/ y = 4 \/ y = 5 \/ y = 6 \/ y = 7 \/
              y = 8 \/ y = 9 \/ y = 10 \/ y = 11 \/ y = 12 \/ y = 13 \/ y = 14 \/ y = 15)
    by lia.
  repeat (destruct H as [->|H]; [reflexivity|]). by rewrite H.
Qed.

Lemma variant_nibble x : 8 <= Z.lor (Z.land x 63) 128 / 16 <= 11.
Proof.
  assert (Hx : 0 <= Z.land x 63 < 64).
  { change 63 with (Z.ones 6). rewrite Z.land_ones by lia. apply Z.mod_pos_bound. lia. }
  set (y := Z.land x 63) in *.
  change 16 with (2 ^ 4). rewrite <- Z.shiftr_div_pow2 by lia.
  rewrite Z.shiftr_lor. change (Z.shiftr 128 4) with 8.
  rewrite Z.shiftr_div_pow2 by lia. change (2 ^ 4) with 16.
  assert (Hz : 0 <= y / 16 < 4)
    by (split; [apply Z.div_pos; lia | apply Z.div_lt_upper_bound; lia]).
  remember (y / 16) as z eqn:Ez. clear Ez.
  assert (H : z = 0 \/ z = 1 \/ z = 2 \/ z = 3) by lia.
  destruct H as [-> | [-> | [-> | ->]]]; vm_compute; split; discriminate.
Qed.

Lemma nibbles b : 0 <= b < 256 -> 0 <= b / 16 < 16 /\ 0 <= b mod 16 < 16.
Proof.
  intros Hb. split; [|apply Z.mod_pos_bound; lia].
  split; [apply Z.div_pos; lia | apply Z.div_lt_upper_bound; lia].
Qed.

Lemma hex_hi b : 0 <= b < 256 -> isLowerHex (UUID.hexdigit (b / 16)) = true.
Proof. intros Hb. apply hexdigit_lower, nibbles, Hb. Qed.

Lemma hex_lo b : isLowerHex (UUID.hexdigit (b mod 16)) = true.
Proof. apply hexdigit_lower, Z.mod_pos_bound. lia. Qed.

Lemma hexRun_cons n c r : isLowerHex c = true -> hexRun (S n) (String c r) = hexRun n r.
Proof. intros H. simpl. by rewrite H. Qed.

Lemma hexRun_0 s : hexRun 0 s = Some s.
Proof. reflexivity. Qed.

(** X5.  The value of the instance-uuid label is, for every pod name, the
    text of a version-5 UUID of the RFC 4122 variant in lower case. *)
Theorem instanceUUID_format (name : string) : wellFormedV5 (instanceUUID name) = true.
Proof.
  unfold instanceUUID, UUID.NewSHA1.
  destruct (sha1_bytes (space ++ Strings.bytes name)) as [Hlen Hall].
  destruct (UUID.sha1 _) as [|b0 [|b1 [|b2 [|b3 [|b4 [|b5 [|b6 [|b7 [|b8 [|b9
    [|b10 [|b11 [|b12 [|b13 [|b14 [|b15 [|b16 [|b17 [|b18 [|b19 [|? ?]]]]]]]]]]]]]]]]]]]]];
    try discriminate Hlen.
  repeat match goal with
         | H : Forall _ (_ :: _) |- _ => apply Forall_cons in H as [? H]
         end.
  cbn [firstn nth list_insert insert Nat.pred].
  set (v := Z.lor (Z.land b6 15) 80). set (r := Z.lor (Z.land b8 63) 128).
  assert (Hv : v / 16 = 5) by apply version_nibble.
  assert (Hr : 8 <= r / 16 <= 11) by apply variant_nibble.
  unfold UUID.String.
  lazy beta iota zeta delta [firstn skipn UUID.hex append].
  rewrite Hv. change (UUID.hexdigit 5) with "5"%char.
  unfold wellFormedV5. cbn [matches].
  assert (Hc : r / 16 = 8 \/ r / 16 = 9 \/ r / 16 = 10 \/ r / 16 = 11) by lia.
  destruct Hc as [-> | [-> | [-> | ->]]].
  all: repeat first
         [ rewrite hexRun_cons by first [by apply hex_hi | apply hex_lo]
         | rewrite hexRun_0
         | progress cbn [oneOf existsb orb]
         | progress change (UUID.hexdigit 8) with "8"%char
         | progress change (UUID.hexdigit 9) with "9"%char
         | progress change (UUID.hexdigit 10) with "a"%char
         | progress change (UUID.hexdigit 11) with "b"%char
         | match goal with
           | |- context [Ascii.eqb ?a ?b] =>
               let v := eval vm_compute in (Ascii.eqb a b) in
               progress change (Ascii.eqb a b) with v
           end ].
  all: reflexivity.
Qed.

(** ** More on the topology client *)

Example expelBody_text :
  expelBody {| PodMeta := Fixture.meta "default" "rs-A-0" None
                            (Some {[ "tarantool.io/instance_uuid" := "abc" ]});
               JoinedMarker := None |}
  = "{" +:+ dquote +:+ "query" +:+ dquote +:+ ": " +:+ dquote
    +:+ "mutation {expel_instance:expel_server(uuid:\" +:+ dquote +:+ "abc\" +:+ dquote
    +:+ ")}" +:+ dquote +:+ "}".
Proof. vm_compute. reflexivity. Qed.

(** X6.  The options are applied in the order given to an empty client, so
    the last endpoint and the last cluster id win, and the two options
    commute. *)
Theorem NewBuiltInTopologyService_options (opts : list Option) (url id : string) :
  NewBuiltInTopologyService [] = {| serviceHost := ""; clusterID := "" |} /\
  NewBuiltInTopologyService (opts ++ [WithTopologyEndpoint url])
  = {| serviceHost := url; clusterID := clusterID (NewBuiltInTopologyService opts) |} /\
  NewBuiltInTopologyService (opts ++ [WithClusterID id])
  = {| serviceHost := serviceHost (NewBuiltInTopologyService opts); clusterID := id |} /\
  NewBuiltInTopologyService (opts ++ [WithTopologyEndpoint url; WithClusterID id])
  = {| serviceHost := url; clusterID := id |} /\
  NewBuiltInTopologyService (opts ++ [WithClusterID id; WithTopologyEndpoint url])
  = {| serviceHost := url; clusterID := id |}.
Proof.
  unfold NewBuiltInTopologyService. rewrite !fold_left_app. by repeat split.
Qed.

(** X7.  [Expel] reports success for every decoded response that carries
    an error, whatever its flag says: it fails only on a response with the
    flag unset and no error at all. *)
Theorem Expel_reported_errors_pass (post : string -> string -> ExpelReply)
    (s : BuiltInTopologyService) (pod : Pod) (resp : ExpelResponse) (flag : bool) :
  post (serviceHost s) (expelBody pod) = ExpelDecoded resp ->
  ExpelData resp = Some flag ->
  (Expel post s pod = Next None <-> flag = true \/ ExpelErrors resp <> []) /\
  (Expel post s pod = Next (Some (errorString "something really bad happened"))
   <-> flag = false /\ ExpelErrors resp = []).
Proof.
  intros Hp Hd. unfold Expel. rewrite Hp, Hd.
  destruct flag, (ExpelErrors resp) as [|e l]; simpl; split; split;
    try done; try (by intros [? ?]); try (by intros [?|?]);
    intros _; first [by left | by right].
Qed.

Lemma Expel_reported_errors_pass_witness :
  let post := fun (_ _ : string) =>
    ExpelDecoded {| ExpelData := Some false; ExpelErrors := [Some "no such server"] |} in
  Expel post Fixture.client (Fixture.assigned "rs-A-0") = Next None.
Proof.
  intros post.
  apply (proj1 (Expel_reported_errors_pass post Fixture.client (Fixture.assigned "rs-A-0")
                  _ false eq_refl eq_refl)).
  by right.
Defined.

(** X8.  [Expel] takes the UUID from the annotation
    tarantool.io/instance_uuid, not from the label [SetInstanceUUID]
    writes: it asks and answers the same for a pod before and after
    [SetInstanceUUID]. *)
Theorem Expel_ignores_label (post : string -> string -> ExpelReply)
    (s : BuiltInTopologyService) (o o' : Pod) :
  SetInstanceUUID o = Some o' ->
  expelBody o' = expelBody o /\ Expel post s o' = Expel post s o.
Proof.
  intros H. assert (Hb : expelBody o' = expelBody o).
  { unfold SetInstanceUUID in H. destruct (_ =? _)%nat; [by injection H as <-|].
    destruct (GoMap.set _ _ _); [|done]. by injection H as <-. }
  split; [done|]. unfold Expel. by rewrite Hb.
Qed.

Lemma Expel_ignores_label_witness :
  expelBody (Fixture.assigned "rs-A-0") = expelBody (Fixture.fresh "rs-A-0") /\
  expelBody (Fixture.assigned "rs-A-0")
  = "{" +:+ dquote +:+ "query" +:+ dquote +:+ ": " +:+ dquote
    +:+ "mutation {expel_instance:expel_server(uuid:\" +:+ dquote +:+ "\" +:+ dquote
    +:+ ")}" +:+ dquote +:+ "}".
Proof.
  split; [|by vm_compute].
  apply (Expel_ignores_label (fun _ _ => ExpelPostError "down") Fixture.client
           (Fixture.fresh "rs-A-0") (Fixture.assigned "rs-A-0")).
  reflexivity.
Defined.

Section MoreClientFacts.

Variable env : Env.

(** X9.  [Join] sends its request exactly when the pod carries the
    replicaset UUID, the instance UUID, roles [GetRoles] can read, the
    vshard-groups label and, when that label is "1", the group's name;
    otherwise it returns an error of its own and nothing is sent. *)
Theorem Join_needs_labels (s : BuiltInTopologyService) (pod : Pod) (w : World) :
  (joinable pod ->
   exists call, isJoinCall call = true /\
     (Join env s pod w).2 = logged (Topology (serviceHost s) call) w) /\
  (~ joinable pod ->
   exists msg, Join env s pod w = (Next (Some (errorString msg)), w)).
Proof.
  unfold joinable, Join. cbn zeta.
  change (GetLabels pod) with (Labels (PodMeta pod)).
  destruct (GoMap.lookup _ "tarantool.io/replicaset-uuid") as [ru|].
  2:{ split; [by intros ([? ?] & _)|]. intros _. by eexists. }
  destruct (GoMap.lookup _ "tarantool.io/instance-uuid") as [iu|].
  2:{ split; [by intros (_ & [? ?] & _)|]. intros _. by eexists. }
  destruct (GetRoles pod) as [e|roles] eqn:Hr.
  { destruct (GetRoles_error _ _ Hr) as [msg ->].
    split; [by intros (_ & _ & [? ?] & _)|]. intros _. by eexists. }
  destruct (GoMap.lookup _ "tarantool.io/useVshardGroups") as [g|].
  2:{ split; [by intros (_ & _ & _ & ? & ? & _)|]. intros _. by eexists. }
  destruct (String.eqb_spec g "1") as [->|Hg].
  - destruct (GoMap.lookup _ "tarantool.io/vshardGroupName") as [v|].
    + split.
      * intros _. unfold bind, send. simpl.
        match goal with |- context [runBool env _ _ ?c] => exists c end.
        split; [done|]. by destruct (runBool env _ _ _) as [?|[]].
      * intros Hn. destruct Hn. repeat split; eauto.
    + split.
      * intros (_ & _ & _ & g & [= <-] & Hv). by destruct (Hv eq_refl).
      * intros _. by eexists.
  - split.
    + intros _. unfold bind, send. simpl.
        match goal with |- context [runBool env _ _ ?c] => exists c end.
        split; [done|]. by destruct (runBool env _ _ _) as [?|[]].
    + intros Hn. destruct Hn. repeat split; eauto.
      exists g. split; [done|]. intros ->. done.
Qed.

(** X10.  No call of the client touches the API server's store, the
    cluster or the listed StatefulSets, and each sends at most one request,
    to the client's own endpoint. *)
Theorem client_frame (s : BuiltInTopologyService) (w : World) :
  let once {A} (m : M A) := askedOnce (serviceHost s) w (m w).2 in
  (forall pod, once (Join env s pod)) /\
  (forall enabled, once (SetFailover env s enabled)) /\
  (forall uuid weight, once (SetWeight env s uuid weight)) /\
  (forall uuid, once (GetWeight env s uuid)) /\
  (forall uuid roles, once (SetReplicasetRoles env s uuid roles)) /\
  (forall uuid, once (GetReplicasetRolesFromService env s uuid)) /\
  once (GetServerStat env s) /\
  once (BootstrapVshard env s).
Proof.
  assert (Hsame : askedOnce (serviceHost s) w w) by (repeat split; by left).
  assert (Hlog : forall call, askedOnce (serviceHost s) w (logged (Topology (serviceHost s) call) w))
    by (intros call; repeat split; right; by eexists).
  intros once. unfold once.
  repeat split; intros;
    unfold Join, SetFailover, SetWeight, GetWeight, SetReplicasetRoles,
      GetReplicasetRolesFromService, GetServerStat, BootstrapVshard, classifyBootstrap,
      bind, send, ret, panic;
    simpl; repeat case_match; simpl; first [apply Hsame | apply Hlog].
Qed.

(** X11.  The two queries on a replicaset read the first replicaset of the
    answer and nothing after it: an empty answer is the not-found error
    naming the UUID, a first replicaset without a weight gives -1 with no
    error, and every error comes with the weight -1. *)
Theorem replicaset_queries (s : BuiltInTopologyService) (uuid : string) (w : World) :
  let answer call := runReplicasets env (length (trace w)) (serviceHost s) call in
  (forall msg, answer (GetWeightCall uuid) = inl msg ->
     (GetWeight env s uuid w).1 = Next (-1, Some (externalError msg))) /\
  (answer (GetWeightCall uuid) = inr [] ->
     (GetWeight env s uuid w).1
     = Next (-1, Some (errorString ("replicaset with uuid: '" +:+ uuid +:+ "' not found")))) /\
  (forall rs rest, answer (GetWeightCall uuid) = inr (Some rs :: rest) ->
     (GetWeight env s uuid w).1 = Next (default (-1) (Weight rs), None)) /\
  (forall msg, answer (GetRolesCall uuid) = inl msg ->
     (GetReplicasetRolesFromService env s uuid w).1 = Next (inl (externalError msg))) /\
  (answer (GetRolesCall uuid) = inr [] ->
     (GetReplicasetRolesFromService env s uuid w).1
     = Next (inl (errorString ("replicaset with uuid: '" +:+ uuid +:+ "' not found")))) /\
  (forall rs rest, answer (GetRolesCall uuid) = inr (Some rs :: rest) ->
     (GetReplicasetRolesFromService env s uuid w).1 = Next (inr (RsRoles rs))) /\
  (forall x err, (GetWeight env s uuid w).1 = Next (x, Some err) -> x = -1).
Proof.
  intros answer. unfold answer, GetWeight, GetReplicasetRolesFromService, bind, send.
  simpl. repeat split.
  - by intros msg ->.
  - by intros ->.
  - intros rs rest ->. by destruct (Weight rs).
  - by intros msg ->.
  - by intros ->.
  - by intros rs rest ->.
  - intros x err. repeat case_match; simpl; intros [=]; done.
Qed.

End MoreClientFacts.

Lemma Join_needs_labels_witness :
  exists msg,
    Join Fixture.calm Fixture.client (Fixture.fresh "rs-A-0") Fixture.blank
    = (Next (Some (errorString msg)), Fixture.blank).
Proof.
  apply (proj2 (Join_needs_labels Fixture.calm Fixture.client (Fixture.fresh "rs-A-0")
                  Fixture.blank)).
  intros (_ & [u Hu] & _). vm_compute in Hu. discriminate.
Defined.

(** ** The start of a pass *)

Section Start.

Variable env : Env.

(** X12.  A request for a cluster the API server does not have ends the
    pass at once: one request was sent, nothing was written, and the pass
    is asked again in five seconds with no error; another failure of that
    first read ends it the same way with the error. *)
Theorem Reconcile_without_cluster (req : Request) (w : World) :
  let key := (ReqNamespace req, ReqName req) in
  let w1 := logged (Api (GetClusterCall key)) w in
  (apiFault env (length (trace w)) (GetClusterCall key) = None ->
   Clusters (store w) !! key = None ->
   Reconcile env req w = (Return RequeueAfter5s None, w1)) /\
  (forall err,
     apiFault env (length (trace w)) (GetClusterCall key) = Some err ->
     Reconcile env req w
     = (Return RequeueAfter5s (if IsNotFound err then None else Some err), w1)).
Proof.
  intros key w1. subst key w1.
  split; [intros Hf Hc | intros err Hf];
    unfold Reconcile, prelude, GetCluster, request, getWorld, getFailed, bind; simpl;
    rewrite Hf; simpl; [rewrite Hc; reflexivity|].
  by destruct (IsNotFound err).
Qed.

(** X13.  When no listed StatefulSet has a replica, no leader can be
    selected: the selection fails with "not found" and the existence check
    says no, and neither sends a request. *)
Theorem no_leader_without_replicas (l : list StatefulSet) (leader : string) (w : World) :
  Forall (fun sts => Replicas sts = 0) l ->
  SelectTopologyLeader env l w = (Next ("", Some (errorString "not found")), w) /\
  IsTopologyLeaderExists env l leader w = (Next (false, None), w).
Proof.
  induction 1 as [|sts l Hs _ IH]; simpl; [done|]. rewrite Hs. exact IH.
Qed.

(** X14.  A leader [SelectTopologyLeader] has just selected is one
    [IsTopologyLeaderExists] finds, as long as the API server answers the
    reads: the check reads pods and does nothing else. *)
Theorem selected_leader_exists (l : list StatefulSet) (leader : string) (w w1 : World) :
  SelectTopologyLeader env l w = (Next (leader, None), w1) ->
  accepts env (length (trace w1)) ->
  exists w2,
    IsTopologyLeaderExists env l leader w1 = (Next (true, None), w2) /\ reads w1 w2.
Proof.
  induction l as [|sts l IH]; simpl; [done|].
  destruct (Replicas sts =? 0); [exact IH|].
  unfold bind. rewrite !GetPod_run. intros Hsel Hacc.
  rewrite (Hacc (length (trace w1))) by lia.
  destruct (apiFault env (length (trace w)) _); [done|].
  destruct (Pods (store w) !! _) as [p|] eqn:Hp; [|done].
  injection Hsel as <- <-. simpl. rewrite Hp, String.eqb_refl.
  eexists. split; [reflexivity|]. apply reads_logged.
Qed.

End Start.

Lemma Reconcile_without_cluster_witness :
  Reconcile Fixture.calm Fixture.req Fixture.blank
  = (Return RequeueAfter5s None,
     logged (Api (GetClusterCall ("default", "tnt"))) Fixture.blank).
Proof.
  apply (proj1 (Reconcile_without_cluster Fixture.calm Fixture.req Fixture.blank));
    reflexivity.
Defined.

Lemma no_leader_without_replicas_witness :
  SelectTopologyLeader Fixture.calm [Fixture.rsA "1" 0] Fixture.blank
  = (Next ("", Some (errorString "not found")), Fixture.blank).
Proof.
  apply (no_leader_without_replicas Fixture.calm [Fixture.rsA "1" 0] "" Fixture.blank).
  by repeat constructor.
Defined.

Lemma selected_leader_exists_witness :
  let w := Fixture.world [Fixture.rsA "1" 3] [Fixture.fresh "rs-A-0"] in
  let leader := "rs-A-0.tnt.default.svc.cluster.local:8081" in
  exists w2,
    IsTopologyLeaderExists Fixture.calm [Fixture.rsA "1" 3] leader
      (logged (Api (GetPodCall ("default", "rs-A-0"))) w)
    = (Next (true, None), w2).
Proof.
  intros w leader.
  destruct (selected_leader_exists Fixture.calm [Fixture.rsA "1" 3] leader w
              (logged (Api (GetPodCall ("default", "rs-A-0"))) w))
    as (w2 & H & _).
  - vm_compute. reflexivity.
  - intros n c _. reflexivity.
  - by exists w2.
Defined.

(** ** Roles and the Service of the cluster *)




Section Ownership.

Variable env : Env.




End Ownership.

(** ** What a pass returns *)

Lemma endsWith_ret {A} R (a : A) : endsWith R (ret a).
Proof. by intros w res err. Qed.

Lemma endsWith_panic {A} R : endsWith R (@panic A).
Proof. by intros w res err. Qed.

Lemma endsWith_returns {A} (R : Result -> option error -> Prop) res err :
  R res err -> endsWith R (@returns A res err).
Proof. intros H w res' err' [= <- <-]. done. Qed.

Lemma endsWith_bind {A B} R (m : M A) (k : A -> M B) :
  endsWith R m -> (forall a, endsWith R (k a)) -> endsWith R (bind m k).
Proof.
  intros Hm Hk w res err. unfold bind. specialize (Hm w).
  destruct (m w) as [[a| |] w1]; simpl in *; [apply Hk | | done].
  intros [= <- <-]. by apply Hm.
Qed.

Lemma endsWith_forM {A} R (l : list A) (body : A -> M unit) :
  (forall x, endsWith R (body x)) -> endsWith R (forM_ l body).
Proof.
  intros Hb. induction l as [|x l IH]; simpl; [apply endsWith_ret|].
  apply endsWith_bind; [apply Hb | by intros _].
Qed.

Lemma endsWith_weaken {A} (R R' : Result -> option error -> Prop) (m : M A) :
  (forall res err, R res err -> R' res err) -> endsWith R m -> endsWith R' m.
Proof. intros HR Hm w res err H. by apply HR, (Hm w). Qed.

Lemma endsWith_next {A} R (m : M A) :
  (forall w, exists a w', m w = (Next a, w')) -> endsWith R m.
Proof. intros H w res err. destruct (H w) as (a & w' & ->). done. Qed.

Lemma endsWith_getWorld R : endsWith R getWorld.
Proof. by intros w res err. Qed.

Lemma endsWith_item R k : endsWith R (item k).
Proof. intros w res err. unfold item. by destruct (items w !! k). Qed.

Lemma endsWith_writeAnnotation R k key value : endsWith R (writeAnnotation k key value).
Proof.
  intros w res err. unfold writeAnnotation.
  destruct (items w !! k); [|done]. by destruct (GoMap.set _ _ _).
Qed.

Lemma endsWith_modifyStore R f : endsWith R (modifyStore f).
Proof. by intros w res err. Qed.

Lemma endsWith_modifyCluster R f : endsWith R (modifyCluster f).
Proof. by intros w res err. Qed.

Lemma endsWith_setItems R l : endsWith R (setItems l).
Proof. by intros w res err. Qed.

Ltac ends :=
  repeat first
    [ apply endsWith_ret | apply endsWith_panic | apply endsWith_getWorld
    | apply endsWith_item | apply endsWith_writeAnnotation
    | apply endsWith_modifyStore | apply endsWith_modifyCluster | apply endsWith_setItems
    | apply endsWith_bind; [|intros ?]
    | apply endsWith_forM; intros ?
    | lazymatch goal with
      | |- endsWith _ (match ?x with _ => _ end) => destruct x
      | |- endsWith _ (if ?x then _ else _) => destruct x
      end ].

Section Results.

Variable env : Env.

Lemma endsWith_request R c : endsWith R (request env c).
Proof. by intros w res err. Qed.

Lemma endsWith_send R X (answer : Env -> nat -> string -> TopologyCall -> X) s c :
  endsWith R (send env answer s c).
Proof. by intros w res err. Qed.

Ltac calls :=
  repeat first
    [ apply endsWith_request | apply endsWith_send
    | apply endsWith_ret | apply endsWith_panic | apply endsWith_getWorld
    | apply endsWith_item | apply endsWith_writeAnnotation
    | apply endsWith_modifyStore | apply endsWith_modifyCluster | apply endsWith_setItems
    | apply endsWith_bind; [|intros ?]
    | apply endsWith_forM; intros ?
    | lazymatch goal with
      | |- endsWith _ (match ?x with _ => _ end) => destruct x
      | |- endsWith _ (if ?x then _ else _) => destruct x
      end ].

(** the calls of the two clients hand their errors back and never make
    [Reconcile] return by themselves *)
Lemma endsWith_api R :
  (forall key, endsWith R (GetPod env key)) /\
  (forall pod, endsWith R (UpdatePod env pod)) /\
  (forall sts, endsWith R (UpdateStatefulSet env sts)) /\
  (forall sel, endsWith R (ListStatefulSets env sel)) /\
  (forall sel, endsWith R (ListRoles env sel)) /\
  (forall role, endsWith R (UpdateRole env role)) /\
  (forall key, endsWith R (GetCluster env key)) /\
  (forall c, endsWith R (UpdateCluster env c)) /\
  (forall c, endsWith R (UpdateClusterStatus env c)) /\
  (forall key, endsWith R (GetService env key)) /\
  (forall svc, endsWith R (CreateService env svc)).
Proof.
  repeat split; intros;
    unfold GetPod, UpdatePod, UpdateStatefulSet, ListStatefulSets, ListRoles, UpdateRole,
      GetCluster, UpdateCluster, UpdateClusterStatus, GetService, CreateService;
    calls.
Qed.

Lemma endsWith_client R s :
  (forall pod, endsWith R (Join env s pod)) /\
  (forall enabled, endsWith R (SetFailover env s enabled)) /\
  (forall uuid weight, endsWith R (SetWeight env s uuid weight)) /\
  (forall uuid, endsWith R (GetWeight env s uuid)) /\
  (forall uuid roles, endsWith R (SetReplicasetRoles env s uuid roles)) /\
  (forall uuid, endsWith R (GetReplicasetRolesFromService env s uuid)) /\
  endsWith R (GetServerStat env s) /\
  endsWith R (BootstrapVshard env s).
Proof.
  repeat split; intros;
    unfold Join, SetFailover, SetWeight, GetWeight, SetReplicasetRoles,
      GetReplicasetRolesFromService, GetServerStat, BootstrapVshard, classifyBootstrap;
    calls.
Qed.

Lemma endsWith_leader R l leader :
  endsWith R (SelectTopologyLeader env l) /\ endsWith R (IsTopologyLeaderExists env l leader).
Proof.
  destruct (endsWith_api R) as (HGet & _).
  split; induction l as [|sts l IH]; simpl; try apply endsWith_ret;
    (destruct (Replicas sts =? 0); [done|]);
    (apply endsWith_bind; [apply HGet | intros [e|pod]; [apply endsWith_ret|]]);
    [apply endsWith_ret|]. by destruct (String.eqb _ _); [apply endsWith_ret|].
Qed.

Lemma getFailed_result {A} err : endsWith passResult (@getFailed A err).
Proof.
  unfold getFailed. destruct (IsNotFound err); apply endsWith_returns; by left.
Qed.

(** X18.  The failover step and the drain check never end the pass: the
    errors of [SetFailover], of [GetServerStat] and of the updates of the
    annotations are logged and the pass goes on. *)
Theorem logged_errors_go_on (s : BuiltInTopologyService) (k : nat) (sts : StatefulSet)
    (weight : string) (w : World) (res : Result) (err : option error) :
  (failover env s k w).1 <> Return res err /\
  (drain env s k sts weight w).1 <> Return res err.
Proof.
  destruct (endsWith_api (fun _ _ => False)) as (_ & _ & HUpdate & _).
  destruct (endsWith_client (fun _ _ => False) s) as (_ & HFail & _ & _ & _ & _ & HStat & _).
  assert (Hf : endsWith (fun _ _ => False) (failover env s k)).
  { unfold failover. apply endsWith_bind; [ends | intros x].
    destruct (String.eqb _ _); [ends|].
    apply endsWith_bind; [apply HFail | intros [e|]; [ends|]].
    apply endsWith_bind; [ends | intros _]. apply endsWith_bind; [ends | intros y].
    apply endsWith_bind; [apply HUpdate | intros _; ends]. }
  assert (Hd : endsWith (fun _ _ => False) (drain env s k sts weight)).
  { unfold drain. destruct (String.eqb _ _); [|ends].
    apply endsWith_bind; [apply HStat | intros [data [e|]]; [ends|]].
    apply endsWith_forM. intros stat. unfold checkBuckets.
    destruct stat; [|ends]. destruct (Strings.HasPrefix _ _); [|ends].
    destruct (_ =? 0); [|ends].
    apply endsWith_bind; [ends | intros _]. apply endsWith_bind; [ends | intros y].
    apply endsWith_bind; [apply HUpdate | intros _; ends]. }
  split; intros H; [exact (Hf w res err H) | exact (Hd w res err H)].
Qed.

Ltac result :=
  repeat first
    [ apply getFailed_result
    | apply endsWith_returns; first [by left | right; left; by split
                                    | right; right; split; [done|]; by left ]
    | apply endsWith_ret | apply endsWith_panic | apply endsWith_getWorld
    | apply endsWith_item | apply endsWith_writeAnnotation
    | apply endsWith_modifyStore | apply endsWith_modifyCluster | apply endsWith_setItems
    | apply endsWith_request | apply endsWith_send
    | apply (proj1 (endsWith_api passResult))
    | apply (proj1 (proj2 (endsWith_api passResult)))
    | apply (proj1 (proj2 (proj2 (endsWith_api passResult))))
    | apply (proj1 (proj2 (proj2 (proj2 (endsWith_api passResult)))))
    | apply (proj1 (proj2 (proj2 (proj2 (proj2 (endsWith_api passResult))))))
    | apply (proj1 (proj2 (proj2 (proj2 (proj2 (proj2 (endsWith_api passResult)))))))
    | apply (proj1 (proj2 (proj2 (proj2 (proj2 (proj2 (proj2 (endsWith_api passResult))))))))
    | apply (proj1 (proj2 (proj2 (proj2 (proj2 (proj2 (proj2 (proj2
               (endsWith_api passResult)))))))))
    | apply (proj1 (proj2 (proj2 (proj2 (proj2 (proj2 (proj2 (proj2 (proj2
               (endsWith_api passResult))))))))))
    | apply (proj1 (proj2 (proj2 (proj2 (proj2 (proj2 (proj2 (proj2 (proj2 (proj2
               (endsWith_api passResult)))))))))))
    | apply (proj2 (proj2 (proj2 (proj2 (proj2 (proj2 (proj2 (proj2 (proj2 (proj2
               (endsWith_api passResult)))))))))))
    | apply (proj1 (endsWith_client passResult _))
    | apply (proj1 (proj2 (endsWith_client passResult _)))
    | apply (proj1 (proj2 (proj2 (endsWith_client passResult _))))
    | apply (proj1 (proj2 (proj2 (proj2 (proj2 (endsWith_client passResult _))))))
    | apply (proj1 (proj2 (proj2 (proj2 (proj2 (proj2 (endsWith_client passResult _)))))))
    | apply (proj1 (proj2 (proj2 (proj2 (proj2 (proj2 (proj2
               (endsWith_client passResult _))))))))
    | apply (proj2 (proj2 (proj2 (proj2 (proj2 (proj2 (proj2
               (endsWith_client passResult _))))))))
    | apply (proj1 (endsWith_leader passResult _ ""))
    | apply (proj2 (endsWith_leader passResult _ _))
    | apply endsWith_bind; [|intros ?]
    | apply endsWith_forM; intros ?
    | lazymatch goal with
      | |- endsWith _ (match ?x with _ => _ end) => destruct x
      | |- endsWith _ (if ?x then _ else _) => destruct x
      end ].

Lemma prelude_result req : endsWith passResult (prelude env req).
Proof.
  unfold prelude, ownRole, ensureService, resolveLeader, setCluster. result.
  apply endsWith_returns. right; right. split; [done|]. right. by eexists.
Qed.

Lemma stages_result s req : endsWith passResult (stages env s req).
Proof.
  unfold stages, lifecycle, assignUUID, joinPod, converge, weigh, drain, checkBuckets,
    requireJoined, convergeRoles, bootstrap, failover. result.
Qed.

End Results.

(** X19.  What [Reconcile] returns is one of: a requeue in five seconds,
    with or without an error; an immediate requeue without error; no
    requeue without error; or no requeue with the failure of the update of
    the cluster's annotations.  Each of the five is returned by some
    pass. *)
Theorem Reconcile_results :
  (forall env req w res err,
     (Reconcile env req w).1 = Return res err -> passResult res err) /\
  (exists env req w, (Reconcile env req w).1 = Return RequeueAfter5s None) /\
  (exists env req w e, (Reconcile env req w).1 = Return RequeueAfter5s (Some e)) /\
  (exists env req w, (Reconcile env req w).1 = Return RequeueNow None) /\
  (exists env req w, (Reconcile env req w).1 = Return NoRequeue None) /\
  (exists env req w e,
     (Reconcile env req w).1
     = Return NoRequeue
         (Some (errorString ("Update cluster annotations failed: " +:+ Error e)))).
Proof.
  split; [|split; [|split; [|split; [|split]]]].
  - intros env req w res err. revert w res err.
    apply (endsWith_bind passResult); [apply prelude_result|].
    intros s. apply stages_result.
  - by exists Fixture.calm, Fixture.req, Fixture.blank.
  - by exists (Fixture.failing "boom"), Fixture.req, (Fixture.twoJoined "1"),
      (externalError "boom").
  - by exists Fixture.calm, Fixture.req, Fixture.threeFresh.
  - by exists Fixture.calm, Fixture.req, (Fixture.twoJoined "1").
  - by exists Scene.conflicting, Fixture.req, Scene.firstPass,
      (StatusError StatusReasonConflict "conflict").
Qed.

(** ** Invariants of a pass, from those of its calls *)

Section PassStable.

Variable env : Env.
Variable s : BuiltInTopologyService.
Variable I : World -> Prop.
Variable allowed : TopologyCall -> bool.

Hypothesis I_GetPod : forall key, inv I (GetPod env key).
Hypothesis I_UpdatePod : forall pod, inv I (UpdatePod env pod).
Hypothesis I_UpdateStatefulSet : forall sts, inv I (UpdateStatefulSet env sts).
Hypothesis I_ListStatefulSets : forall sel, inv I (ListStatefulSets env sel).
Hypothesis I_ListRoles : forall sel, inv I (ListRoles env sel).
Hypothesis I_UpdateRole : forall role, inv I (UpdateRole env role).
Hypothesis I_GetCluster : forall key, inv I (GetCluster env key).
Hypothesis I_UpdateCluster : forall c, inv I (UpdateCluster env c).
Hypothesis I_UpdateClusterStatus : forall c, inv I (UpdateClusterStatus env c).
Hypothesis I_GetService : forall key, inv I (GetService env key).
Hypothesis I_CreateService : forall svc, inv I (CreateService env svc).
Hypothesis I_send : forall R (answer : Env -> nat -> string -> TopologyCall -> R) c,
  allowed c = true -> inv I (send env answer s c).
Hypothesis I_setItems : forall l, inv I (setItems l).
Hypothesis I_writeAnnotation : forall k key value, inv I (writeAnnotation k key value).
Hypothesis I_cluster : forall f, inv I (modifyCluster f).

Hypothesis allow_join : forall a b c d e, allowed (JoinCall a b c d e) = true.
Hypothesis allow_failover : allowed (FailoverCall true) = true.
Hypothesis allow_setWeight : forall u n, allowed (SetWeightCall u n) = true.
Hypothesis allow_setRoles : forall u r, allowed (SetRolesCall u r) = true.
Hypothesis allow_getRoles : forall u, allowed (GetRolesCall u) = true.
Hypothesis allow_serverStat : allowed ServerStatCall = true.
Hypothesis allow_bootstrap : allowed BootstrapVshardCall = true.

Ltac pass :=
  repeat first
    [ apply I_GetPod | apply I_UpdatePod | apply I_UpdateStatefulSet
    | apply I_ListStatefulSets | apply I_ListRoles | apply I_UpdateRole
    | apply I_GetCluster | apply I_UpdateCluster | apply I_UpdateClusterStatus
    | apply I_GetService | apply I_CreateService
    | apply I_setItems | apply I_writeAnnotation | apply I_cluster
    | apply I_send; solve [auto]
    | progress unfold getFailed
    | inv_step ].

Lemma pass_SelectTopologyLeader l : inv I (SelectTopologyLeader env l).
Proof.
  induction l as [|sts l IH]; simpl; [pass|].
  destruct (Replicas sts =? 0); [done|]. pass.
Qed.

Lemma pass_IsTopologyLeaderExists l leader : inv I (IsTopologyLeaderExists env l leader).
Proof.
  induction l as [|sts l IH]; simpl; [pass|].
  destruct (Replicas sts =? 0); [done|].
  apply inv_bind; [pass | intros [e|pod]; [pass|]].
  by destruct (String.eqb _ _); [pass|].
Qed.

Lemma pass_prelude req : inv I (prelude env req).
Proof.
  unfold prelude, getFailed, ownRole, ensureService, resolveLeader, setCluster.
  repeat first
    [ apply pass_IsTopologyLeaderExists | apply pass_SelectTopologyLeader | progress pass ].
Qed.

Lemma pass_stages req : inv I (stages env s req).
Proof.
  unfold stages, lifecycle, assignUUID, joinPod, getFailed, Join, converge, weigh, drain,
    GetServerStat, checkBuckets, requireJoined, SetWeight, convergeRoles,
    GetReplicasetRolesFromService, SetReplicasetRoles, bootstrap, BootstrapVshard,
    classifyBootstrap, failover, SetFailover.
  pass.
Qed.

End PassStable.

(** ** Where the requests of a pass go *)

Lemma bind_inv {A B} (m : M A) (k : A -> M B) w b w' :
  bind m k w = (Next b, w') ->
  exists a w1, m w = (Next a, w1) /\ k a w1 = (Next b, w').
Proof.
  unfold bind. destruct (m w) as [[a| |] w1]; [|done|done]. intros H. by exists a, w1.
Qed.

Lemma inv_run {A} (I : World -> Prop) (m : M A) w o w' :
  inv I m -> I w -> m w = (o, w') -> I w'.
Proof. intros Hm Hw E. specialize (Hm w Hw). by rewrite E in Hm. Qed.

Section Hosts.

Variable env : Env.

Lemma GetCluster_run key w :
  GetCluster env key w =
  (Next match apiFault env (length (trace w)) (GetClusterCall key) with
        | Some err => inl err
        | None =>
            match Clusters (store w) !! key with
            | Some c => inr (namedCluster key c)
            | None => inl (notFound key)
            end
        end,
   logged (Api (GetClusterCall key)) w).
Proof.
  unfold GetCluster, bind, request, getWorld. simpl.
  destruct (apiFault env _ _); [done|]. by destruct (Clusters (store w) !! key).
Qed.

(** the endpoint of the client is built from the leader the cluster's
    annotation names when the pass starts, also when the pass selects
    another *)
Lemma resolveLeader_client w cl w' :
  resolveLeader env w = (Next cl, w') ->
  cl = NewBuiltInTopologyService
         [WithTopologyEndpoint
            ("http://" +:+
             GoMap.get (Annotations (ClusterMeta (cluster w))) "tarantool.io/topology-leader"
             +:+ "/admin/api");
          WithClusterID (Name (ClusterMeta (cluster w)))].
Proof.
  unfold resolveLeader. intros H.
  apply bind_inv in H as (w0 & w1 & [= <- <-] & H).
  apply bind_inv in H as ([ex [e|]] & w2 & _ & H); [done|].
  apply bind_inv in H as ([] & w3 & _ & [= <- _]).
  unfold NewBuiltInTopologyService, GoMap.get, GoMap.lookup. simpl.
  destruct (Annotations (ClusterMeta (cluster w))); [done|].
  by rewrite lookup_empty.
Qed.

Lemma prelude_client req w c cl w1 :
  Clusters (store w) !! (ReqNamespace req, ReqName req) = Some c ->
  prelude env req w = (Next cl, w1) ->
  cl = NewBuiltInTopologyService
         [WithTopologyEndpoint
            ("http://" +:+
             GoMap.get (Annotations (ClusterMeta c)) "tarantool.io/topology-leader"
             +:+ "/admin/api");
          WithClusterID (ReqName req)].
Proof.
  intros Hc H. unfold prelude in H.
  set (key := (ReqNamespace req, ReqName req)) in *.
  set (J := fun w' : World => cluster w' = namedCluster key c).
  apply bind_inv in H as (r & w0 & Hg & H). rewrite GetCluster_run, Hc in Hg.
  destruct (apiFault env _ _).
  { injection Hg as <- <-. by destruct (getFailed_not_next _ _ _ _ H). }
  injection Hg as <- <-.
  apply bind_inv in H as ([] & w2 & [= <-] & H).
  match type of H with _ ?w = _ => assert (HJ : J w) by done end.
  destruct (LabelSelectorAsSelector env _) as [e|sel]; [done|].
  apply bind_inv in H as ([e|roles] & w3 & Hl & H).
  { by destruct (getFailed_not_next _ _ _ _ H). }
  eapply inv_run in Hl; [| |exact HJ]; [|apply inv_ListRoles; by intros ? ? ?].
  apply bind_inv in H as ([] & w4 & Ho & H).
  eapply inv_run in Ho; [| |exact Hl];
    [|apply inv_forM; intros; apply inv_ownRole; by intros ? ? ?].
  apply bind_inv in H as ([] & w5 & Hs & H).
  eapply inv_run in Hs; [| |exact Ho]; [|apply inv_ensureService; by intros ? ? ?].
  apply bind_inv in H as ([e|l] & w6 & Hls & H).
  { by destruct (getFailed_not_next _ _ _ _ H). }
  eapply inv_run in Hls; [| |exact Hs]; [|apply inv_ListStatefulSets; by intros ? ? ?].
  apply bind_inv in H as ([] & w7 & [= <-] & H).
  apply resolveLeader_client in H. simpl in H. unfold J in Hls. rewrite Hls in H.
  exact H.
Qed.

Lemma sentTo_send base s R (answer : Env -> nat -> string -> TopologyCall -> R) c :
  passCall c = true ->
  inv (traceInv (fun _ => sentTo (serviceHost s)) base) (send env answer s c).
Proof. intros Hc w Hw. by apply traceInv_logged. Qed.

Lemma stages_sentTo base s req :
  inv (traceInv (fun _ => sentTo (serviceHost s)) base) (stages env s req).
Proof.
  apply (pass_stages env s _ passCall); try done.
  - intros; apply inv_GetPod; stable.
  - intros; apply inv_UpdatePod; stable.
  - intros; apply inv_UpdateStatefulSet; stable.
  - intros; apply inv_UpdateClusterStatus; stable.
  - intros; by apply sentTo_send.
  - stable.
  - stable.
Qed.

(** X20.  Every request a pass sends to the topology service goes to one
    endpoint, built from the leader the cluster's annotation named when
    the pass started, also in a pass that selects a new leader; and the
    pass never asks for a weight or switches the failover off. *)
Theorem pass_requests (req : Request) (w : World) (c : Cluster) :
  Clusters (store w) !! (ReqNamespace req, ReqName req) = Some c ->
  forall n host call,
    (length (trace w) <= n)%nat ->
    trace (Reconcile env req w).2 !! n = Some (Topology host call) ->
    host = "http://" +:+
           GoMap.get (Annotations (ClusterMeta c)) "tarantool.io/topology-leader"
           +:+ "/admin/api" /\
    passCall call = true.
Proof.
  intros Hc n host call Hn Hl.
  pose proof (prelude_api_only env req (length (trace w)) w (traceInv_start _ w)) as Hp.
  unfold Reconcile, bind in Hl.
  destruct (prelude env req w) as [[cl| |] w1] eqn:E; simpl in *.
  - apply (prelude_client _ _ _ _ _ Hc) in E as Hcl.
    assert (Hs : traceInv (fun _ => sentTo (serviceHost cl)) (length (trace w)) w1).
    { eapply traceInv_weaken; [|exact Hp]. by intros ? [|]. }
    apply (stages_sentTo _ cl req) in Hs. destruct Hs as [_ Hs].
    specialize (Hs n _ Hn Hl). simpl in Hs. by rewrite Hcl in Hs.
  - destruct Hp as [_ Hp]. by specialize (Hp n _ Hn Hl).
  - destruct Hp as [_ Hp]. by specialize (Hp n _ Hn Hl).
Qed.

End Hosts.

(** ** What a pass leaves in the store *)

Lemma sameObjects_refl s : sameObjects s s.
Proof. by repeat split. Qed.

Lemma sameObjects_trans s1 s2 s3 :
  sameObjects s1 s2 -> sameObjects s2 s3 -> sameObjects s1 s3.
Proof.
  intros (Hc & Hp & Hs & Hg & Hr) (Hc' & Hp' & Hs' & Hg' & Hr').
  split; [|split; [|split; [|split]]].
  - intros key. by rewrite Hc', Hc.
  - intros key. by rewrite Hp', Hp.
  - intros key H. by apply Hs', Hs.
  - by rewrite Hg', Hg.
  - by rewrite Hr', Hr.
Qed.

Lemma sameKey_keyOf a b : sameKey a b = true -> keyOf a = keyOf b.
Proof.
  unfold sameKey, keyOf. intros H. apply andb_true_iff in H as [H1 H2].
  apply String.eqb_eq in H1, H2. by rewrite H1, H2.
Qed.

Lemma sameObjects_putPod s pod :
  is_Some (Pods s !! keyOf (PodMeta pod)) -> sameObjects s (putPod pod s).
Proof.
  intros Hp. repeat split; simpl; try done.
  - intros H. destruct (decide (key = keyOf (PodMeta pod))) as [->|Hne]; [done|].
    by rewrite lookup_insert_ne in H.
  - intros H. destruct (decide (key = keyOf (PodMeta pod))) as [->|Hne].
    + by rewrite lookup_insert_eq.
    + by rewrite lookup_insert_ne.
Qed.

Lemma sameObjects_putStatefulSet s sts : sameObjects s (putStatefulSet sts s).
Proof.
  repeat split; simpl; try done. rewrite map_map. apply map_ext. intros x.
  destruct (sameKey (StsMeta x) (StsMeta sts)) eqn:E; [|done].
  symmetry. by apply sameKey_keyOf.
Qed.

Lemma sameObjects_putRole s role : sameObjects s (putRole role s).
Proof.
  repeat split; simpl; try done. rewrite map_map. apply map_ext. intros x.
  destruct (sameKey (RoleMeta x) (RoleMeta role)) eqn:E; [|done].
  symmetry. by apply sameKey_keyOf.
Qed.

Lemma sameObjects_putCluster s key f : sameObjects s (putCluster key f s).
Proof.
  repeat split; simpl; try done.
  - intros H. destruct (decide (key0 = key)) as [->|Hne].
    + rewrite lookup_alter_eq in H. by apply fmap_is_Some in H.
    + by rewrite lookup_alter_ne in H.
  - intros H. destruct (decide (key0 = key)) as [->|Hne].
    + rewrite lookup_alter_eq. by apply fmap_is_Some.
    + by rewrite lookup_alter_ne.
Qed.

Lemma sameObjects_putService s svc : sameObjects s (putService svc s).
Proof.
  repeat split; simpl; try done.
  intros key H. destruct (decide (key = keyOf (SvcMeta svc))) as [->|Hne].
  - by rewrite lookup_insert_eq.
  - by rewrite lookup_insert_ne.
Qed.

Section Objects.

Variable env : Env.
Variable s0 : Store.

Let kept (w : World) : Prop := sameObjects s0 (store w).

Ltac api :=
  intros; apply (inv_step (fun w w' => sameObjects (store w) (store w')));
    [intros w w' Hs Hw; exact (sameObjects_trans _ _ _ Hw Hs)|];
    intros w;
    unfold GetPod, UpdatePod, UpdateStatefulSet, ListStatefulSets, ListRoles, UpdateRole,
      GetCluster, UpdateCluster, UpdateClusterStatus, GetService, CreateService,
      request, getWorld, modifyStore, modifyCluster, setItems, send, bind, ret;
    simpl; repeat case_match; simpl;
    first [ apply sameObjects_refl | apply sameObjects_putStatefulSet
          | apply sameObjects_putRole | apply sameObjects_putCluster
          | apply sameObjects_putService | apply sameObjects_putPod; by eexists ].

Lemma kept_writeAnnotation k key value : inv kept (writeAnnotation k key value).
Proof.
  intros w Hw. unfold writeAnnotation.
  destruct (items w !! k); [|done]. by destruct (GoMap.set _ _ _).
Qed.

Lemma kept_Reconcile req : inv kept (Reconcile env req).
Proof.
  unfold Reconcile. apply inv_bind.
  - apply pass_prelude; try (by api). 
  - intros s. apply (pass_stages env s kept (fun _ => true)); try done; try (by api).
    apply kept_writeAnnotation.
Qed.

End Objects.

(** X21.  A pass creates and deletes no cluster, pod, StatefulSet or role:
    after it the store holds clusters and pods under the same keys, and the
    same StatefulSets and roles by name and in the same order; no Service
    is deleted. *)
Theorem Reconcile_keeps_objects (env : Env) (req : Request) (w : World) :
  sameObjects (store w) (store (Reconcile env req w).2).
Proof. apply (kept_Reconcile env (store w) req w). apply sameObjects_refl. Qed.

(** ** Writes to nil maps *)

Section NilLabels.

Variable env : Env.
Variable req : Request.

(** X22.  A pod without labels panics the pass where its UUID is to be
    written.  When the pass reaches the pod loops, the API server answers
    the reads, every instance of the StatefulSets listed before [sts] has
    its UUID and its joined marker, the instances of [sts] before instance
    [i] have their UUID, and the pod of instance [i] has a nil label map:
    the pass reads pods up to that one and panics, with nothing written. *)
Theorem nil_maps_panic w topologyClient w1 pre sts post before i after pod :
  prelude env req w = (Next topologyClient, w1) ->
  accepts env (length (trace w1)) ->
  items w1 = pre ++ sts :: post ->
  (forall g, In g pre -> allAssigned req (store w1) g /\ allJoined req (store w1) g) ->
  upto (Replicas sts) = before ++ i :: after ->
  (forall j, In j before ->
     exists p, Pods (store w1) !! (ReqNamespace req, podName sts j) = Some p /\
               HasInstanceUUID p = true) ->
  Pods (store w1) !! (ReqNamespace req, podName sts i) = Some pod ->
  Labels (PodMeta pod) = None ->
  exists w', Reconcile env req w = (Panic, w') /\ reads w1 w'.
Proof.
  intros Hpre Ha Hitems Hdone Hupto Hbefore Hpod Hl.
  destruct (lifecycle_loop_skip env req topologyClient pre w1 Ha Hdone) as (w2 & E2 & R2).
  destruct (assign_loop_skip env req sts before w2) as (w3 & E3 & R3).
  { by eapply reads_accepts. }
  { destruct R2 as (-> & _). exact Hbefore. }
  pose proof (reads_trans _ _ _ R2 R3) as R13.
  exists (logged (Api (GetPodCall (ReqNamespace req, podName sts i))) w3). split.
  - unfold Reconcile. rewrite (bind_next _ _ _ _ _ Hpre). unfold stages.
    rewrite (bind_next getWorld _ w1 w1 w1 eq_refl). rewrite Hitems.
    assert (Hp : forall {A B} (m : M A) (k : A -> M B) w0 w0',
               m w0 = (Panic, w0') -> bind m k w0 = (Panic, w0')).
    { intros A B m k w0 w0' E. unfold bind. by rewrite E. }
    apply Hp. rewrite forM_app, (bind_next _ _ _ _ _ E2). simpl.
    apply Hp. unfold lifecycle. apply Hp.
    rewrite Hupto, forM_app, (bind_next _ _ _ _ _ E3). simpl. apply Hp.
    unfold assignUUID, bind. rewrite GetPod_run.
    rewrite (reads_accepts _ _ _ R13 Ha _ _ (le_n _)).
    destruct R13 as (-> & _). rewrite Hpod.
    unfold HasInstanceUUID, SetInstanceUUID. simpl. rewrite Hl. simpl.
    by rewrite podName_not_empty.
  - eapply reads_trans; [exact R13 | apply reads_logged].
Qed.

End NilLabels.

Lemma nil_maps_panic_witness :
  exists w',
    Reconcile Fixture.calm Fixture.req
      (Fixture.world [Fixture.rsA "1" 1] [Scene.unlabelled]) = (Panic, w') /\
    Pods (store w') = Pods (store (Fixture.world [Fixture.rsA "1" 1] [Scene.unlabelled])).
Proof.
  destruct (nil_maps_panic Fixture.calm Fixture.req
              (Fixture.world [Fixture.rsA "1" 1] [Scene.unlabelled])
              {| serviceHost := "http://rs-A-0.tnt.default.svc.cluster.local:8081/admin/api";
                 clusterID := "tnt" |}
              (prelude Fixture.calm Fixture.req
                 (Fixture.world [Fixture.rsA "1" 1] [Scene.unlabelled])).2
              [] (Fixture.rsA "1" 1) [] [] 0 [] Scene.unlabelled)
    as (w' & Hpass & Hr & _).
  - vm_compute. reflexivity.
  - intros n c _. reflexivity.
  - vm_compute. reflexivity.
  - intros g [].
  - vm_compute. reflexivity.
  - intros j [].
  - vm_compute. reflexivity.
  - reflexivity.
  - exists w'. split; [exact Hpass|]. rewrite Hr. vm_compute. reflexivity.
Defined.




(** the first pass on a cluster that names no leader yet selects one and
    writes it to the cluster, and sends its join to the endpoint of the
    empty leader it read *)
Lemma pass_requests_witness :
  let pass := Reconcile Fixture.calm Fixture.req Scene.firstPass in
  ((fun c => GoMap.lookup (Annotations (ClusterMeta c)) "tarantool.io/topology-leader")
     <$> Clusters (store pass.2) !! ("default", "tnt"))
  = Some (Some "rs-A-0.tnt.default.svc.cluster.local:8081") /\
  map (fun e => match e with Topology host _ => host | Api _ => "" end)
      (List.filter (fun e => match e with Topology _ _ => true | Api _ => false end)
         (trace pass.2))
  = ["http:///admin/api"] /\
  "http:///admin/api"
  = "http://" +:+
    GoMap.get (Annotations (ClusterMeta Scene.leaderless)) "tarantool.io/topology-leader"
    +:+ "/admin/api".
Proof.
  intros pass. split; [by vm_compute|]. split; [by vm_compute|].
  apply (pass_requests Fixture.calm Fixture.req Scene.firstPass Scene.leaderless eq_refl
           9%nat "http:///admin/api"
           (JoinCall "rs-A-0.tnt.default.svc.cluster.local:3301" (instanceUUID "rs-A-0")
              "rs-uuid-A" ["storage"] "default")).
  - vm_compute. lia.
  - vm_compute. reflexivity.
Defined.

(** ** The drain check matches by prefix *)

Lemma HasPrefix_app a b p :
  Strings.HasPrefix a p = true -> Strings.HasPrefix (a +:+ b) p = true.
Proof.
  revert a. induction p as [|c p IH]; intros a H.
  { by destruct (a +:+ b). }
  destruct a as [|d a]; simpl in *; [done|]. destruct (Ascii.eqb c d); [by apply IH|done].
Qed.

Section Prefix.

Variable env : Env.

Lemma checkBuckets_flags k sts w it annotations stat :
  items w !! k = Some it ->
  Annotations (StsMeta it) = Some annotations ->
  Strings.HasPrefix (URI stat) (Name (StsMeta sts)) = true ->
  BucketsCount (StatStatistics stat) = 0 ->
  exists w', checkBuckets env k sts (Some stat) w = (Next tt, w') /\ flagged k w'.
Proof.
  intros Hk Hann Hp Hb. unfold checkBuckets. rewrite Hp, Hb. simpl.
  unfold writeAnnotation, item, UpdateStatefulSet, request, getWorld, modifyStore, bind, ret.
  simpl. rewrite Hk, Hann. simpl.
  rewrite list_lookup_insert_eq by (by eapply lookup_lt_Some).
  assert (Hf : forall st tr,
            flagged k {| store := st; trace := tr; cluster := cluster w;
                         items := <[k := StsSetAnnotations it
                                     (Some (<["tarantool.io/scheduledDelete" := "1"]>
                                              annotations))]> (items w) |}).
  { intros st tr. eexists. split.
    - simpl. apply list_lookup_insert_eq. by eapply lookup_lt_Some.
    - simpl. apply lookup_insert_eq. }
  destruct (apiFault env _ _); simpl; [eexists; split; [reflexivity | apply Hf]|].
  destruct (existsb _ _); simpl; eexists; (split; [reflexivity | apply Hf]).
Qed.

(** X23.  The drain check tells the servers of a StatefulSet by the prefix
    of their address, so it takes the servers of another StatefulSet whose
    name starts with this one's name for its own: one of those reporting
    no bucket gets this StatefulSet scheduled for deletion. *)
Theorem drain_takes_longer_names (k : nat) (sts other : StatefulSet) (i : Z) (rest : string)
    (w : World) (it : StatefulSet) (annotations : gmap string string) (stat : ServerStat) :
  Strings.HasPrefix (Name (StsMeta other)) (Name (StsMeta sts)) = true ->
  URI stat = podName other i +:+ rest ->
  BucketsCount (StatStatistics stat) = 0 ->
  items w !! k = Some it ->
  Annotations (StsMeta it) = Some annotations ->
  exists w', checkBuckets env k sts (Some stat) w = (Next tt, w') /\ flagged k w'.
Proof.
  intros Hp Hu Hb Hk Ha. apply (checkBuckets_flags k sts w it annotations stat Hk Ha); [|done].
  rewrite Hu. unfold podName. apply HasPrefix_app, HasPrefix_app, Hp.
Qed.

End Prefix.

Lemma drain_takes_longer_names_witness :
  exists w',
    checkBuckets Fixture.calm 0 (Fixture.rsA "0" 1)
      (Fixture.stat "rs-AB-0.tnt.default.svc.cluster.local:3301" 0)
      (Fixture.listed [Fixture.rsA "0" 1; Scene.longer] []) = (Next tt, w') /\
    flagged 0 w'.
Proof.
  apply (drain_takes_longer_names Fixture.calm 0 (Fixture.rsA "0" 1) Scene.longer 0
           ".tnt.default.svc.cluster.local:3301"
           (Fixture.listed [Fixture.rsA "0" 1; Scene.longer] []) (Fixture.rsA "0" 1)
           {[ "tarantool.io/replicaset-weight" := "0" ]}
           {| StatStatistics :=
                {| ItemsUsedRatio := ""; ArenaUsedRatio := ""; QuotaSize := 0;
                   ArenaUsed := 0; QuotaUsedRatio := ""; BucketsCount := 0 |};
              StatUUID := ""; URI := "rs-AB-0.tnt.default.svc.cluster.local:3301" |});
    reflexivity.
Defined.

(** ** The failover step *)

Section Failover.

Variable env : Env.

(** X24.  For a StatefulSet not yet marked, with a non-nil annotation map:
    when [SetFailover] succeeds and the API server accepts the update, the
    failover step stores the StatefulSet with the failover annotation "1"
    and goes on, and run again on that state it sends nothing; when
    [SetFailover] fails, the step goes on with nothing written. *)
Theorem failover_enables_once (s : BuiltInTopologyService) (k : nat) (w : World)
    (sts : StatefulSet) (annotations : gmap string string) :
  items w !! k = Some sts ->
  Annotations (StsMeta sts) = Some annotations ->
  GoMap.get (Annotations (StsMeta sts)) "tarantool.io/failoverEnabled" <> "1" ->
  let call := Topology (serviceHost s) (FailoverCall true) in
  (forall msg,
     runUnit env (length (trace w)) (serviceHost s) (FailoverCall true) = Some msg ->
     failover env s k w = (Next tt, logged call w)) /\
  (runUnit env (length (trace w)) (serviceHost s) (FailoverCall true) = None ->
   accepts env (length (trace w)) ->
   existsb (fun x => sameKey (StsMeta x) (StsMeta sts)) (StatefulSets (store w)) = true ->
   exists w',
     failover env s k w = (Next tt, w') /\
     Forall (fun x =>
               sameKey (StsMeta x) (StsMeta sts) = true ->
               GoMap.lookup (Annotations (StsMeta x)) "tarantool.io/failoverEnabled"
               = Some "1")
            (StatefulSets (store w')) /\
     existsb (fun x => sameKey (StsMeta x) (StsMeta sts)) (StatefulSets (store w')) = true /\
     failover env s k w' = (Next tt, w')).
Proof.
  intros Hk Hann Hne call.
  assert (Hcond : String.eqb
            (GoMap.get (Annotations (StsMeta sts)) "tarantool.io/failoverEnabled") "1" = false).
  { by destruct (String.eqb_spec
       (GoMap.get (Annotations (StsMeta sts)) "tarantool.io/failoverEnabled") "1"). }
  split.
  - intros msg Hr. unfold failover, item, SetFailover, send, bind. rewrite Hk, Hcond. simpl.
    by rewrite Hr.
  - intros Hr Ha Hex.
    unfold failover at 1. unfold item, SetFailover, send, writeAnnotation, UpdateStatefulSet,
      request, getWorld, modifyStore, bind, ret.
    rewrite Hk, Hcond. simpl. rewrite Hr. simpl. rewrite Hk, Hann. simpl.
    rewrite list_lookup_insert_eq by (by eapply lookup_lt_Some).
    rewrite Ha by (simpl; rewrite ?length_app; simpl; lia). simpl.
    change (existsb _ (StatefulSets (store w)))
      with (existsb (fun x => sameKey (StsMeta x) (StsMeta sts)) (StatefulSets (store w))).
    rewrite Hex. simpl.
    eexists. split; [reflexivity|]. simpl. split; [|split].
    + apply Stdlib.Lists.List.Forall_forall. intros x Hx.
      apply in_map_iff in Hx as (x0 & <- & Hx0).
      change (sameKey (StsMeta x0) (SetAnnotations (StsMeta sts) _))
        with (sameKey (StsMeta x0) (StsMeta sts)).
      destruct (sameKey (StsMeta x0) (StsMeta sts)) eqn:E.
      * intros _. simpl. apply lookup_insert_eq.
      * rewrite E. done.
    + apply existsb_exists in Hex as (x0 & Hx0 & E).
      apply existsb_exists. eexists. split; [apply in_map; exact Hx0|].
      change (sameKey (StsMeta x0) (SetAnnotations (StsMeta sts) _))
        with (sameKey (StsMeta x0) (StsMeta sts)).
      rewrite E. unfold sameKey. simpl. by rewrite !String.eqb_refl.
    + unfold failover, item, bind. simpl.
      rewrite list_lookup_insert_eq by (by eapply lookup_lt_Some). simpl.
      unfold GoMap.get. simpl. by rewrite lookup_insert_eq.
Qed.

End Failover.

Lemma failover_enables_once_witness :
  exists w',
    failover Fixture.calm Fixture.client 0
      (Fixture.listed [Fixture.rsA "1" 1] [Fixture.joined "rs-A-0"]) = (Next tt, w') /\
    Forall (fun x =>
              sameKey (StsMeta x) (StsMeta (Fixture.rsA "1" 1)) = true ->
              GoMap.lookup (Annotations (StsMeta x)) "tarantool.io/failoverEnabled"
              = Some "1")
           (StatefulSets (store w')) /\
    existsb (fun x => sameKey (StsMeta x) (StsMeta (Fixture.rsA "1" 1)))
      (StatefulSets (store w')) = true /\
    failover Fixture.calm Fixture.client 0 w' = (Next tt, w').
Proof.
  apply (proj2 (failover_enables_once Fixture.calm Fixture.client 0
                  (Fixture.listed [Fixture.rsA "1" 1] [Fixture.joined "rs-A-0"])
                  (Fixture.rsA "1" 1) {[ "tarantool.io/replicaset-weight" := "1" ]}
                  eq_refl eq_refl ltac:(vm_compute; discriminate))).
  - reflexivity.
  - intros n c _. reflexivity.
  - reflexivity.
Defined.

(** ** A weight that is no number *)

Section BadWeight.

Variable env : Env.
Variable req : Request.

Lemma requireJoined_reads sts i w :
  exists o w',
    requireJoined env req sts i w = (o, w') /\ reads w w' /\
    (o = Next tt \/ exists err, o = Return RequeueAfter5s err).
Proof.
  unfold requireJoined, bind, getFailed. rewrite GetPod_run.
  pose proof (reads_logged (ReqNamespace req, podName sts i) w) as Hr.
  destruct (apiFault env _ _) as [e|].
  { destruct (IsNotFound e); eexists _, _; (split; [reflexivity|]); split; try done;
      right; by eexists. }
  destruct (Pods (store w) !! _) as [p|].
  - destruct (negb _); eexists _, _; (split; [reflexivity|]); split; try done;
      [right; by eexists | by left].
  - simpl. eexists _, _. split; [reflexivity|]. split; [done|]. right; by eexists.
Qed.

Lemma requireJoined_loop_reads sts l w :
  exists o w',
    forM_ l (requireJoined env req sts) w = (o, w') /\ reads w w' /\
    (o = Next tt \/ exists err, o = Return RequeueAfter5s err).
Proof.
  revert w. induction l as [|i l IH]; intros w; simpl.
  { exists (Next tt), w. split; [done|]. split; [apply reads_refl | by left]. }
  destruct (requireJoined_reads sts i w) as (o & w1 & E & R & Ho).
  unfold bind. rewrite E. destruct Ho as [->|[err ->]].
  - destruct (IH w1) as (o2 & w2 & E2 & R2 & Ho2). exists o2, w2.
    split; [done|]. split; [by eapply reads_trans | done].
  - eexists _, _. split; [reflexivity|]. split; [done|]. right; by eexists.
Qed.

(** X25.  A StatefulSet whose weight annotation is missing, or is not a
    string of decimal digits, stops the pass at its turn in the weight
    loop: pods are read, nothing is sent to the topology service, nothing
    is written, and the pass returns asking for a requeue in five
    seconds. *)
Theorem weigh_needs_decimal_weight (s : BuiltInTopologyService) (k : nat) (w : World)
    (sts : StatefulSet) :
  items w !! k = Some sts ->
  isDecimal (GoMap.get (Annotations (StsMeta sts)) "tarantool.io/replicaset-weight") = false ->
  exists err w',
    weigh env s req k w = (Return RequeueAfter5s err, w') /\ reads w w'.
Proof.
  intros Hk Hd. unfold weigh. unfold bind at 1. unfold item. rewrite Hk.
  set (weight := GoMap.get _ "tarantool.io/replicaset-weight") in *.
  assert (Hz : String.eqb weight "0" = false).
  { destruct (String.eqb_spec weight "0") as [E|]; [|done]. by rewrite E in Hd. }
  unfold drain. rewrite Hz. unfold bind at 1. simpl. unfold bind at 1.
  destruct (requireJoined_loop_reads sts (upto (Replicas sts)) w) as (o & w1 & -> & R & Ho).
  destruct Ho as [->|[err ->]]; [|by eexists _, _].
  unfold bind, SetWeight, Strconv.ParseUint, isDecimal in *.
  destruct weight as [|c r]; [by eexists _, _|].
  destruct (digits_reject _ 0 Hd) as [e ->]. by eexists _, _.
Qed.

End BadWeight.

Lemma weigh_needs_decimal_weight_witness :
  exists err w',
    weigh Fixture.calm Fixture.client Fixture.req 0 (Fixture.listed [Scene.plain] [])
    = (Return RequeueAfter5s err, w') /\
    reads (Fixture.listed [Scene.plain] []) w'.
Proof.
  apply (weigh_needs_decimal_weight Fixture.calm Fixture.req Fixture.client 0
           (Fixture.listed [Scene.plain] []) Scene.plain); reflexivity.
Defined.

(** ** The watch on StatefulSets and the pass it asks for *)

(** X26.  An event of a StatefulSet without the label
    tarantool.io/cluster-id asks for no pass; with the label it asks for
    one pass, for the cluster of that name in the StatefulSet's name
    space, and while that cluster does not exist the pass reads it in
    vain and asks to be run again in five seconds. *)
Theorem enqueue_orphan (env : Env) (a : ObjectMeta) (w : World) :
  (GoMap.lookup (Labels a) "tarantool.io/cluster-id" = None -> enqueue a = []) /\
  (forall clusterName,
     GoMap.lookup (Labels a) "tarantool.io/cluster-id" = Some clusterName ->
     let req := {| ReqNamespace := Namespace a; ReqName := clusterName |} in
     enqueue a = [req] /\
     (apiFault env (length (trace w)) (GetClusterCall (Namespace a, clusterName)) = None ->
      Clusters (store w) !! (Namespace a, clusterName) = None ->
      Reconcile env req w
      = (Return RequeueAfter5s None,
         logged (Api (GetClusterCall (Namespace a, clusterName))) w))).
Proof.
  unfold enqueue. split; [by intros ->|]. intros clusterName Hl. cbv zeta. rewrite Hl.
  split; [done|].
  intros Hf Hc. unfold Reconcile, prelude, bind. rewrite GetCluster_run. simpl.
  by rewrite Hf, Hc.
Qed.

Lemma enqueue_orphan_witness :
  enqueue Scene.labelled = [Fixture.req] /\
  Reconcile Fixture.calm Fixture.req Fixture.blank
  = (Return RequeueAfter5s None,
     logged (Api (GetClusterCall ("default", "tnt"))) Fixture.blank).
Proof.
  destruct (proj2 (enqueue_orphan Fixture.calm Scene.labelled Fixture.blank) "tnt" eq_refl)
    as [E R].
  split; [exact E|]. apply R; reflexivity.
Defined.

(** ** A pass on a cluster with nothing left to do *)

Lemma idles_refl w : idles w w.
Proof. repeat split. exists []. by rewrite app_nil_r. Qed.

Lemma idles_trans w1 w2 w3 : idles w1 w2 -> idles w2 w3 -> idles w1 w3.
Proof.
  intros (Hs & Hi & Hc & evs & Ht & Hf) (Hs' & Hi' & Hc' & evs' & Ht' & Hf').
  split; [congruence|]. split; [congruence|]. split; [congruence|].
  exists (evs ++ evs'). split; [by rewrite Ht', Ht, app_assoc | by apply Forall_app].
Qed.

Lemma reads_idles w w' : reads w w' -> idles w w'.
Proof.
  intros (Hs & Hi & Hc & evs & Ht & Hf). repeat split; try done.
  exists evs. split; [done|]. eapply Forall_impl; [exact Hf|]. by intros [[]|].
Qed.

Lemma idles_logged e w : idle e -> idles w (logged e w).
Proof. intros He. repeat split. exists [e]. split; [done|]. by repeat constructor. Qed.

Lemma idles_length w w' : idles w w' -> (length (trace w) <= length (trace w'))%nat.
Proof. intros (_ & _ & _ & evs & -> & _). rewrite length_app. lia. Qed.

Section Idle.

Variable env : Env.
Variable req : Request.
Variable cl : BuiltInTopologyService.
Variable base : nat.
Variable l : list StatefulSet.

Hypothesis Haccepts : accepts env base.
Hypothesis Hagrees : agrees env base l.

(** the world is past the request numbered [base], and holds [l] *)
Let ready (w : World) : Prop := (base <= length (trace w))%nat /\ items w = l.

Lemma ready_idles w w' : idles w w' -> ready w -> ready w'.
Proof.
  intros H [Hb Hi]. split; [pose proof (idles_length _ _ H); lia|].
  destruct H as (_ & -> & _). done.
Qed.

Lemma ready_accepts w : ready w -> accepts env (length (trace w)).
Proof. intros [Hb _] n c Hn. apply Haccepts. lia. Qed.

(** a loop whose every turn is idle *)
Lemma idle_loop {A} (body : A -> M unit) (P : A -> Store -> Prop) (xs : list A) w :
  (forall x w, ready w -> P x (store w) ->
     exists w', body x w = (Next tt, w') /\ idles w w') ->
  ready w ->
  (forall x, In x xs -> P x (store w)) ->
  exists w', forM_ xs body w = (Next tt, w') /\ idles w w'.
Proof.
  intros Hbody. revert w. induction xs as [|x xs IH]; intros w Hr HP; simpl.
  { exists w. split; [done | apply idles_refl]. }
  destruct (Hbody x w Hr (HP x (or_introl eq_refl))) as (w1 & E1 & R1).
  destruct (IH w1) as (w2 & E2 & R2).
  - by eapply ready_idles.
  - intros y Hy. destruct R1 as (-> & _). by apply HP; right.
  - exists w2. unfold bind. rewrite E1. split; [done | by eapply idles_trans].
Qed.

Lemma requireJoined_pass sts i w p :
  accepts env (length (trace w)) ->
  Pods (store w) !! (ReqNamespace req, podName sts i) = Some p ->
  IsJoined p = true ->
  exists w', requireJoined env req sts i w = (Next tt, w') /\ reads w w'.
Proof.
  intros Ha Hp Hj. unfold requireJoined, bind. rewrite GetPod_run, (Ha _ _ (le_n _)), Hp.
  change (IsJoined (namedPod _ p)) with (IsJoined p). rewrite Hj.
  eexists. split; [done | apply reads_logged].
Qed.

Lemma requireJoined_loop_pass sts w :
  accepts env (length (trace w)) ->
  allJoined req (store w) sts ->
  exists w', forM_ (upto (Replicas sts)) (requireJoined env req sts) w = (Next tt, w') /\
             reads w w'.
Proof.
  intros Ha Hj.
  apply (skip_loop env (requireJoined env req sts)
           (fun i st => exists p, Pods st !! (ReqNamespace req, podName sts i) = Some p /\
                                  IsJoined p = true)); try done.
  intros i w0 Ha0 (p & Hp & Hjp). by eapply requireJoined_pass.
Qed.

Lemma weigh_idle k sts w :
  ready w -> l !! k = Some sts -> converged req (store w) sts ->
  exists w', weigh env cl req k w = (Next tt, w') /\ idles w w'.
Proof.
  intros Hr Hk (_ & Hj & Hd & Hv & Hz & _). pose proof Hr as [Hb Hi].
  unfold weigh. unfold bind at 1. unfold item. rewrite Hi, Hk.
  set (weight := GoMap.get _ "tarantool.io/replicaset-weight") in *.
  assert (Hne : String.eqb weight "0" = false) by (by destruct (String.eqb_spec weight "0")).
  unfold drain. rewrite Hne. unfold bind at 1. simpl. unfold bind at 1.
  destruct (requireJoined_loop_pass sts w (ready_accepts w Hr) Hj) as (w1 & -> & R).
  apply reads_idles in R. pose proof (ready_idles _ _ R Hr) as [Hb1 _].
  unfold SetWeight, Strconv.ParseUint, isDecimal, send in *.
  destruct weight as [|c r] eqn:Hw; [done|].
  rewrite (digits_decimal _ 0 Hd) by (unfold Strconv.maxVal; lia).
  change Strconv.maxVal with (2 ^ 32 - 1).
  assert ((decimalValue (String c r) 0 <=? 2 ^ 32 - 1) = true) as -> by lia.
  unfold bind. simpl. rewrite (proj1 Hagrees) by done. simpl.
  eexists. split; [reflexivity|]. eapply idles_trans; [exact R|]. by apply idles_logged.
Qed.

Lemma convergeRoles_idle sts w :
  ready w -> In sts l ->
  exists w', convergeRoles env cl sts w = (Next tt, w') /\ idles w w'.
Proof.
  intros [Hb _] Hin.
  destruct (proj2 Hagrees (length (trace w)) (serviceHost cl) sts Hb Hin)
    as (rs & rest & roles & Hrun & Hroles & Heq).
  unfold convergeRoles, GetReplicasetRolesFromService, send, bind. simpl.
  fold (replicasetUUID sts). rewrite Hrun. simpl. rewrite Hroles, Heq.
  eexists. split; [reflexivity|]. by apply idles_logged.
Qed.

Lemma flags_idle k sts w :
  ready w -> l !! k = Some sts -> converged req (store w) sts ->
  (run bootstrap env cl k; failover env cl k) w = (Next tt, w).
Proof.
  intros [_ Hi] Hk (_ & _ & _ & _ & _ & Hboot & Hfail).
  unfold bootstrap, failover, item, bind. rewrite Hi, Hk, Hboot. simpl.
  by rewrite Hi, Hk, Hfail.
Qed.

Lemma converge_idle w :
  ready w ->
  (forall sts, In sts l -> converged req (store w) sts) ->
  exists w', converge env cl req (length l) w = (Return NoRequeue None, w') /\ idles w w'.
Proof.
  intros Hr Hc. unfold converge.
  destruct (idle_loop (weigh env cl req)
              (fun k st => exists sts, l !! k = Some sts /\ converged req st sts)
              (seq 0 (length l)) w) as (w1 & E1 & R1); [| done | |].
  { intros k w0 Hr0 (sts & Hk & Hs). by eapply weigh_idle. }
  { intros k Hk. apply in_seq in Hk. destruct (lookup_lt_is_Some_2 l k) as [sts Hs]; [lia|].
    exists sts. split; [done|]. apply Hc. apply list_elem_of_In. by eapply list_elem_of_lookup_2. }
  unfold bind at 1. rewrite E1. unfold bind at 1. simpl.
  pose proof (ready_idles _ _ R1 Hr) as Hr1.
  destruct (idle_loop (convergeRoles env cl) (fun sts _ => In sts l) (items w1) w1)
    as (w2 & E2 & R2); [| done | |].
  { intros sts w0 Hr0 Hin. by apply convergeRoles_idle. }
  { intros sts Hin. by rewrite (proj2 Hr1) in Hin. }
  unfold bind at 1. rewrite E2.
  pose proof (ready_idles _ _ R2 Hr1) as Hr2.
  assert (R12 : idles w w2) by (by eapply idles_trans).
  destruct (idle_loop (fun k => run bootstrap env cl k; failover env cl k)
              (fun k st => exists sts, l !! k = Some sts /\ converged req st sts)
              (seq 0 (length l)) w2) as (w3 & E3 & R3); [| done | |].
  { intros k w0 Hr0 (sts & Hk & Hs). exists w0. split; [by eapply flags_idle | apply idles_refl]. }
  { intros k Hk. apply in_seq in Hk. destruct (lookup_lt_is_Some_2 l k) as [sts Hs]; [lia|].
    exists sts. split; [done|]. destruct R12 as (-> & _).
    apply Hc. apply list_elem_of_In. by eapply list_elem_of_lookup_2. }
  unfold bind at 1. rewrite E3. eexists. split; [reflexivity|]. by eapply idles_trans.
Qed.

Lemma stages_idle w :
  ready w ->
  (forall sts, In sts l -> converged req (store w) sts) ->
  exists w', stages env cl req w = (Return NoRequeue None, w') /\ idles w w'.
Proof.
  intros Hr Hc. unfold stages. unfold bind at 1. simpl.
  destruct (lifecycle_loop_skip env req cl (items w) w (ready_accepts w Hr))
    as (w1 & E1 & R1).
  { intros sts Hin. rewrite (proj2 Hr) in Hin. destruct (Hc sts Hin) as (Hu & Hj & _). done. }
  unfold bind. rewrite E1. apply reads_idles in R1.
  destruct (converge_idle w1) as (w2 & E2 & R2).
  - by eapply ready_idles.
  - intros sts Hin. destruct R1 as (-> & _). by apply Hc.
  - rewrite (proj2 Hr). exists w2. split; [done | by eapply idles_trans].
Qed.

End Idle.

Section Settled.

Variable env : Env.

Lemma ListRoles_run sel w :
  ListRoles env sel w =
  (Next match apiFault env (length (trace w)) ListRolesCall with
        | Some err => inl err
        | None => inr (filter (fun x => sel (Labels (RoleMeta x))) (Roles (store w)))
        end,
   logged (Api ListRolesCall) w).
Proof.
  unfold ListRoles, bind, request, getWorld. simpl. by destruct (apiFault env _ _).
Qed.

Lemma ListStatefulSets_run sel w :
  ListStatefulSets env sel w =
  (Next match apiFault env (length (trace w)) ListStatefulSetsCall with
        | Some err => inl err
        | None => inr (filter (fun x => sel (Labels (StsMeta x))) (StatefulSets (store w)))
        end,
   logged (Api ListStatefulSetsCall) w).
Proof.
  unfold ListStatefulSets, bind, request, getWorld. simpl. by destruct (apiFault env _ _).
Qed.

Lemma GetService_run key w :
  GetService env key w =
  (Next match apiFault env (length (trace w)) (GetServiceCall key) with
        | Some err => inl err
        | None =>
            match Services (store w) !! key with
            | Some svc => inr svc
            | None => inl (notFound key)
            end
        end,
   logged (Api (GetServiceCall key)) w).
Proof.
  unfold GetService, bind, request, getWorld. simpl.
  destruct (apiFault env _ _); [done|]. by destruct (Services (store w) !! key).
Qed.

Lemma owned_roles_skipped roles w :
  (forall role, In role roles ->
     IsControlledBy (RoleMeta role) (ClusterMeta (cluster w)) = true) ->
  forM_ roles (ownRole env) w = (Next tt, w).
Proof.
  induction roles as [|role roles IH]; intros H; simpl; [done|].
  unfold bind at 1. unfold ownRole at 1. unfold bind, getWorld.
  rewrite (H role (or_introl eq_refl)). simpl. apply IH. intros r Hr. apply H. by right.
Qed.

Lemma leader_found pre sts post leader p w :
  Forall (fun x => Replicas x = 0) pre ->
  Replicas sts <> 0 ->
  apiFault env (length (trace w))
    (GetPodCall (Namespace (StsMeta sts), Name (StsMeta sts) +:+ "-0")) = None ->
  Pods (store w) !! (Namespace (StsMeta sts), Name (StsMeta sts) +:+ "-0") = Some p ->
  MakeStaticPodAddr (Name (StsMeta sts) +:+ "-0") (ServiceName sts) (Namespace (StsMeta sts))
    (GoMap.get (Labels (PodMeta p)) "tarantool.io/cluster-domain-name") 8081 = leader ->
  IsTopologyLeaderExists env (pre ++ sts :: post) leader w
  = (Next (true, None),
     logged (Api (GetPodCall (Namespace (StsMeta sts), Name (StsMeta sts) +:+ "-0"))) w).
Proof.
  intros Hpre Hn Hf Hp Haddr. induction Hpre as [|x pre Hx _ IH]; simpl.
  - assert ((Replicas sts =? 0) = false) as -> by lia.
    unfold bind. rewrite GetPod_run, Hf, Hp. simpl. by rewrite Haddr, String.eqb_refl.
  - by rewrite Hx.
Qed.

(** X27.  A pass on a cluster with nothing left to do writes nothing.  The
    cluster is stored and names a leader that is the first instance of the
    first StatefulSet with replicas; its roles are owned by it and its
    Service exists; every listed StatefulSet has its instances joined, a
    weight that is a number other than "0" and both progress flags; the API
    server answers, and the topology service accepts the weights and
    reports the roles asked for.  Then every request of the pass is a read of
    the API server, a weight set again or a query for the roles; the pass
    leaves the store as it was and returns without asking for a requeue. *)
Theorem settled_pass (req : Request) (w : World) (c : Cluster) (sel : GoMap -> bool)
    (svc : Service) (pre : list StatefulSet) (sts : StatefulSet) (post : list StatefulSet)
    (p : Pod) :
  let key := (ReqNamespace req, ReqName req) in
  let l := filter (fun x => sel (Labels (StsMeta x))) (StatefulSets (store w)) in
  accepts env (length (trace w)) ->
  agrees env (length (trace w)) l ->
  Clusters (store w) !! key = Some c ->
  LabelSelectorAsSelector env (Selector c) = inr sel ->
  (forall role, In role (filter (fun x => sel (Labels (RoleMeta x))) (Roles (store w))) ->
     IsControlledBy (RoleMeta role) (ClusterMeta c) = true) ->
  Services (store w) !! key = Some svc ->
  l = pre ++ sts :: post ->
  Forall (fun x => Replicas x = 0) pre ->
  Replicas sts <> 0 ->
  Pods (store w) !! (Namespace (StsMeta sts), Name (StsMeta sts) +:+ "-0") = Some p ->
  MakeStaticPodAddr (Name (StsMeta sts) +:+ "-0") (ServiceName sts) (Namespace (StsMeta sts))
    (GoMap.get (Labels (PodMeta p)) "tarantool.io/cluster-domain-name") 8081
  = GoMap.get (Annotations (ClusterMeta c)) "tarantool.io/topology-leader" ->
  (forall x, In x l -> converged req (store w) x) ->
  exists w',
    Reconcile env req w = (Return NoRequeue None, w') /\
    store w' = store w /\
    exists evs, trace w' = trace w ++ evs /\ Forall idle evs.
Proof.
  intros key l Ha Hag Hc Hsel Hroles Hsvc Hl Hpre Hn Hp Haddr Hconv.
  assert (exists cl w2, prelude env req w = (Next cl, w2) /\ store w2 = store w /\
            items w2 = l /\ (exists evs, trace w2 = trace w ++ evs /\ Forall idle evs))
    as (cl0 & w2 & E2 & Hs2 & Hi2 & evs2 & Ht2 & Hf2).
  { unfold prelude. unfold bind at 1. fold key. rewrite GetCluster_run, Ha, Hc by lia.
    unfold bind at 1. simpl. change (Selector (namedCluster key c)) with (Selector c).
    rewrite Hsel. unfold bind at 1. rewrite ListRoles_run.
    rewrite Ha by (simpl; rewrite ?length_app; simpl; lia).
    unfold bind at 1. rewrite owned_roles_skipped by (intros role Hr; by apply Hroles).
    unfold bind at 1. unfold ensureService. unfold bind at 1 2. simpl.
    rewrite GetService_run. rewrite Ha by (simpl; rewrite ?length_app; simpl; lia).
    simpl. fold key. rewrite Hsvc. simpl.
    unfold bind at 1. rewrite ListStatefulSets_run.
    rewrite Ha by (simpl; rewrite ?length_app; simpl; lia). simpl. fold l.
    unfold bind at 1. simpl. unfold resolveLeader. unfold bind at 1. simpl.
    unfold bind at 1. rewrite Hl.
    erewrite leader_found; try done; cycle 1.
    { apply Ha. simpl. rewrite ?length_app. simpl. lia. }
    { rewrite Haddr. unfold GoMap.get, GoMap.lookup.
      by destruct (Annotations (ClusterMeta c)). }
    unfold bind. simpl. do 2 eexists. split; [reflexivity|]. simpl.
    split; [done|]. split; [done|]. rewrite <- !app_assoc. simpl.
    eexists. split; [reflexivity|]. by repeat (apply Forall_cons; split; [done|]). }
  unfold Reconcile. rewrite (bind_next _ _ _ _ _ E2).
  destruct (stages_idle env req cl0 (length (trace w)) l Ha Hag w2) as (w' & E & R).
  - split; [rewrite Ht2, length_app; lia | done].
  - intros x Hx. rewrite Hs2. by apply Hconv.
  - exists w'. split; [exact E|]. destruct R as (Hs & _ & _ & evs & Ht & Hf).
    split; [by rewrite Hs|]. rewrite Ht, Ht2, <- app_assoc.
    eexists. split; [reflexivity|]. by apply Forall_app.
Qed.

End Settled.

Lemma settled_pass_witness :
  exists w',
    Reconcile Fixture.calm Fixture.req Scene.settled = (Return NoRequeue None, w') /\
    store w' = store Scene.settled /\
    exists evs, trace w' = trace Scene.settled ++ evs /\ Forall idle evs.
Proof.
  apply (settled_pass Fixture.calm Fixture.req Scene.settled Fixture.tnt (fun _ => true)
           Fixture.headless [] Scene.done [] (Fixture.joined "rs-A-0")).
  - intros n c _. reflexivity.
  - split; [intros; reflexivity|]. intros n host sts _ [<- | []].
    exists {| RsUUID := "rs-uuid-A"; RsRoles := ["storage"]; Weight := Some 1 |}, [],
      ["storage"].
    repeat split; vm_compute; reflexivity.
  - reflexivity.
  - reflexivity.
  - intros role [].
  - reflexivity.
  - reflexivity.
  - constructor.
  - discriminate.
  - reflexivity.
  - reflexivity.
  - intros x [<- | []]. repeat split; try (vm_compute; congruence).
    + intros i [<- | [<- | []]]; eexists; split; reflexivity.
    + intros i [<- | [<- | []]]; eexists; split; reflexivity.
Defined.
